(** * IPO research pipeline: a shallow embedding and its properties

    The development follows the Python sources module by module:
    - [parsers/financial.py]  : [calc_growth_rates]
    - [parsers/offering.py]   : [merge_offering_data]
    - [parsers/llm_parser.py] : [_extract_section], [load_filing_html],
                                the four extractors, [parse_full_filing]
    - [analysis/analyst.py]   : [generate_analysis]
    - [output/report_writer.py], [output/excel_writer.py] :
                                [save_report], [generate_excel]
    - [main.py]               : [_convert_filing_financials],
                                [save_raw_data], [run_pipeline]

    Conventions of the embedding.
    - A Python [str] is the list of its code points ([list N]); literals
      are written in UTF-8 and decoded by [py].
    - A Python value is a [pyval]; a [dict] with string keys is a
      [gmap pystr pyval]; numbers are [int] (as [Z]) and [float]; a float
      is idealised as an exact rational, so rounding, infinities, NaN and
      the [OverflowError] of an integer too large for a float are outside
      the model.
    - An exception aborts the computation: fallible code lives in [res].
      Only subclasses of [Exception] are modelled.
    - What the interpreter supplies and the repository does not define
      (Unicode case mapping, case-insensitive matching of [re], the digit
      class, [str()] of a non-string) is a [runtime] record.
    - Network services, the language model, the file system and the
      spreadsheet library are an [env] record of oracles; their use is
      logged in a trace of events. *)

From Stdlib Require Import ZArith QArith Qabs String Ascii List Lia Permutation Sorted.
From stdpp Require Import base option list sorting gmap pretty.

Set Warnings "-register-all,-notation-overridden,-ambiguous-paths".
#[local] Open Scope Z_scope.
#[local] Open Scope list_scope.

(* ================================================================== *)
(** ** Python strings *)
(* ================================================================== *)

Abbreviation pystr := (list N).

(** Decoding of a UTF-8 byte sequence into code points; used for the
    literals of the sources only. *)
Fixpoint utf8_decode (bs : list N) : pystr :=
  match bs with
  | [] => []
  | b0 :: r0 =>
    if (b0 <? 128)%N then b0 :: utf8_decode r0
    else
      match r0 with
      | [] => [b0]
      | b1 :: r1 =>
        if (b0 <? 224)%N
        then ((b0 - 192) * 64 + (b1 - 128))%N :: utf8_decode r1
        else
          match r1 with
          | [] => [b0; b1]
          | b2 :: r2 =>
            if (b0 <? 240)%N
            then (((b0 - 224) * 64 + (b1 - 128)) * 64 + (b2 - 128))%N
                   :: utf8_decode r2
            else
              match r2 with
              | [] => [b0; b1; b2]
              | b3 :: r3 =>
                ((((b0 - 240) * 64 + (b1 - 128)) * 64 + (b2 - 128)) * 64
                 + (b3 - 128))%N :: utf8_decode r3
              end
          end
      end
  end.

Definition py (s : string) : pystr :=
  utf8_decode (map N_of_ascii (list_ascii_of_string s)).

(** [len(s)] *)
Definition py_len {A} (s : list A) : Z := Z.of_nat (length s).

(** Index normalisation of a slice bound: a negative bound counts from
    the end, and every bound is clamped to [0, len]. *)
Definition clamp_index (len i : Z) : Z :=
  if i <? 0 then Z.max 0 (i + len) else Z.min i len.

(** [s[a:b]] *)
Definition py_slice {A} (s : list A) (a b : Z) : list A :=
  let a' := clamp_index (py_len s) a in
  let b' := clamp_index (py_len s) b in
  take (Z.to_nat (b' - a')) (drop (Z.to_nat a') s).

(** [s[:b]] *)
Definition py_slice_to {A} (s : list A) (b : Z) : list A := py_slice s 0 b.

Fixpoint is_prefix (p s : pystr) : bool :=
  match p, s with
  | [], _ => true
  | _ :: _, [] => false
  | x :: p', y :: s' => if (x =? y)%N then is_prefix p' s' else false
  end.

(** Offset of the first occurrence of [sub] in [s]. *)
Fixpoint find_in (sub s : pystr) : option nat :=
  if is_prefix sub s then Some 0%nat
  else match s with
       | [] => None
       | _ :: s' => S <$> find_in sub s'
       end.

(** [s.find(sub, start)] for [start >= 0]: the lowest index at or after
    [start] where [sub] occurs, [-1] when there is none. *)
Definition py_find (s sub : pystr) (start : Z) : Z :=
  if py_len s <? start then -1
  else match find_in sub (drop (Z.to_nat start) s) with
       | Some k => start + Z.of_nat k
       | None => -1
       end.

(** [sub in s] *)
Definition py_contains (sub s : pystr) : bool :=
  match find_in sub s with Some _ => true | None => false end.

(** [s.count(sub)]: occurrences found left to right without overlap. *)
Fixpoint count_from (sub s : pystr) (skip : nat) : nat :=
  match s with
  | [] => 0%nat
  | _ :: s' =>
    match skip with
    | S k => count_from sub s' k
    | O => if is_prefix sub s
           then S (count_from sub s' (length sub - 1))
           else count_from sub s' 0
    end
  end.

Definition py_count (s sub : pystr) : Z :=
  match sub with
  | [] => py_len s + 1
  | _ => Z.of_nat (count_from sub s 0)
  end.

(** Comparison of strings: lexicographic on code points. *)
Fixpoint str_compare (a b : pystr) : comparison :=
  match a, b with
  | [], [] => Eq
  | [], _ :: _ => Lt
  | _ :: _, [] => Gt
  | x :: a', y :: b' =>
    match (x ?= y)%N with
    | Eq => str_compare a' b'
    | c => c
    end
  end.

Definition str_ltb (a b : pystr) : bool :=
  match str_compare a b with Lt => true | _ => false end.

Definition str_lt (a b : pystr) : Prop := str_compare a b = Lt.
Definition str_le (a b : pystr) : Prop := str_compare a b <> Gt.

(** [s.split(sep)[0]] for a one-character separator: the text before the
    first separator, or all of [s]. *)
Fixpoint before_char (sep : N) (s : pystr) : pystr :=
  match s with
  | [] => []
  | c :: s' => if (c =? sep)%N then [] else c :: before_char sep s'
  end.

(* ================================================================== *)
(** ** Python values, exceptions *)
(* ================================================================== *)

Inductive pyval :=
| PNone
| PBool (b : bool)
| PInt (z : Z)
| PFloat (q : Q)
| PStr (s : pystr)
| PList (l : list pyval)
| PDict (d : gmap pystr pyval).

Abbreviation pydict := (gmap pystr pyval).

Inductive exn :=
| TypeError
| ValueError
| KeyError
| AttributeError
| IndexError
| ZeroDivisionError
| External (code : N).   (* raised by a service: network, disk, API *)

Inductive res (A : Type) :=
| Ok (a : A)
| Raise (e : exn).
Arguments Ok {A} a.
Arguments Raise {A} e.

#[global] Instance res_ret : MRet res := fun _ a => Ok a.
#[global] Instance res_bind : MBind res := fun _ _ f m =>
  match m with Ok a => f a | Raise e => Raise e end.

Fixpoint fold_res {A B} (f : A -> B -> res A) (a : A) (l : list B) : res A :=
  match l with
  | [] => Ok a
  | b :: l' => a' ← f a b; fold_res f a' l'
  end.

(** Truth value of an object, as [if v:] takes it. *)
Definition truthy (v : pyval) : bool :=
  match v with
  | PNone => false
  | PBool b => b
  | PInt z => negb (z =? 0)
  | PFloat q => negb (Qnum q =? 0)
  | PStr s => match s with [] => false | _ => true end
  | PList l => match l with [] => false | _ => true end
  | PDict d => negb (Nat.eqb (size d) 0)
  end.

(** [d.get(k)] *)
Definition py_get (d : pydict) (k : pystr) : pyval := default PNone (d !! k).

(** [d.get(k, dflt)] *)
Definition py_get_or (d : pydict) (k : pystr) (dflt : pyval) : pyval :=
  default dflt (d !! k).

Inductive num := NInt (z : Z) | NFloat (q : Q).

(** The numeric reading of a value; [bool] is a subclass of [int]. *)
Definition as_num (v : pyval) : option num :=
  match v with
  | PBool b => Some (NInt (if b then 1 else 0))
  | PInt z => Some (NInt z)
  | PFloat q => Some (NFloat q)
  | _ => None
  end.

Definition num_Q (n : num) : Q :=
  match n with NInt z => inject_Z z | NFloat q => q end.

Definition num_is_zero (n : num) : bool := Qnum (num_Q n) =? 0.

(** [a - b] *)
Definition py_sub (a b : pyval) : res pyval :=
  match as_num a, as_num b with
  | Some (NInt x), Some (NInt y) => Ok (PInt (x - y))
  | Some x, Some y => Ok (PFloat (num_Q x - num_Q y)%Q)
  | _, _ => Raise TypeError
  end.

(** [abs(a)] *)
Definition py_abs (a : pyval) : res pyval :=
  match as_num a with
  | Some (NInt x) => Ok (PInt (Z.abs x))
  | Some (NFloat q) => Ok (PFloat (Qabs q))
  | None => Raise TypeError
  end.

(** [a / b]: true division, which raises on a zero divisor. *)
Definition py_truediv (a b : pyval) : res pyval :=
  match as_num a, as_num b with
  | Some x, Some y =>
    if num_is_zero y then Raise ZeroDivisionError
    else Ok (PFloat (num_Q x / num_Q y)%Q)
  | _, _ => Raise TypeError
  end.

(** [v != 0] *)
Definition py_ne_zero (v : pyval) : bool :=
  match as_num v with
  | Some n => negb (num_is_zero n)
  | None => true
  end.

(** What the interpreter supplies. *)
Record runtime := {
  str_lower : pystr -> pystr;        (* str.lower *)
  re_ieq : N -> N -> bool;           (* re.IGNORECASE: pattern char, text char *)
  re_isdigit : N -> bool;            (* the class \d *)
  py_repr : pyval -> pystr           (* str() of a float, list or dict *)
}.

(** [str(v)] *)
Definition py_str (rt : runtime) (v : pyval) : pystr :=
  match v with
  | PStr s => s
  | PNone => py "None"
  | PBool true => py "True"
  | PBool false => py "False"
  | PInt z => py (pretty z)
  | _ => py_repr rt v
  end.

(* ================================================================== *)
(** ** parsers/financial.py *)
(* ================================================================== *)

Module Financial.

Definition growth_fields : list pystr :=
  [py "revenue"; py "operating_income"; py "net_income"].

Definition yoy_key (field : pystr) : pystr := field ++ py "_yoy".

(** The body of the inner loop: one field of one row. *)
Definition grow_field (prev curr : pydict) (field : pystr) : res pydict :=
  let prev_val := py_get prev field in
  let curr_val := py_get curr field in
  if truthy prev_val && truthy curr_val && py_ne_zero prev_val then
    d ← py_sub curr_val prev_val;
    a ← py_abs prev_val;
    yoy ← py_truediv d a;
    Ok (<[yoy_key field := yoy]> curr)
  else Ok curr.

(** The body of the outer loop at index [i]; the row is updated in
    place. *)
Definition grow_row (summary : list pydict) (i : nat) : res (list pydict) :=
  match summary !! (i - 1)%nat, summary !! i with
  | Some prev, Some curr =>
    curr' ← fold_res (grow_field prev) curr growth_fields;
    Ok (<[i := curr']> summary)
  | _, _ => Raise IndexError
  end.

Definition calc_growth_rates (summary : list pydict) : res (list pydict) :=
  fold_res grow_row summary (seq 1 (length summary - 1)).

End Financial.

(* ================================================================== *)
(** ** list.sort and sorted: a stable sort by a key *)
(* ================================================================== *)

(** [x] goes before the first element that is not below it, so elements
    that compare equal keep the order in which they were given. *)
Fixpoint insert_by {A} (ltb : A -> A -> bool) (x : A) (l : list A) : list A :=
  match l with
  | [] => [x]
  | y :: l' => if ltb y x then y :: insert_by ltb x l' else x :: l
  end.

Definition sort_by {A} (ltb : A -> A -> bool) (l : list A) : list A :=
  foldr (insert_by ltb) [] l.

(** The comparison that [key=] induces when the key is a string. *)
Definition key_ltb {A} (key : A -> pystr) (a b : A) : bool :=
  str_ltb (key a) (key b).

Definition key_le {A} (key : A -> pystr) (a b : A) : Prop :=
  str_le (key a) (key b).

Definition key_lt {A} (key : A -> pystr) (a b : A) : Prop :=
  str_lt (key a) (key b).

(* ================================================================== *)
(** ** parsers/offering.py *)
(* ================================================================== *)

Module Offering.

(** The keys of [extra_fields], in the order of the literal. *)
Definition extra_fields : list pystr :=
  [ py "confirmed_price"; py "institutional_competition";
    py "lockup_commitment"; py "listing_date"; py "demand_forecast_date";
    py "subscription_date"; py "lead_underwriter"; py "offering_shares";
    py "total_shares"; py "institutional_allocation";
    py "retail_allocation"; py "employee_allocation" ].

Definition crawler_key (field : pystr) : pystr := py "crawler_" ++ field.

(** The body of the loop over [extra_fields]. *)
Definition merge_field (crawler_data merged : pydict) (field : pystr) : pydict :=
  match crawler_data !! field with
  | Some v => if truthy v then <[crawler_key field := v]> merged else merged
  | None => merged
  end.

Definition merge_fields (crawler_data merged : pydict) (fields : list pystr)
  : pydict :=
  foldl (merge_field crawler_data) merged fields.

Definition merge_offering_data (dart_data : pydict)
    (crawler_data : option pydict) : pydict :=
  let merged := dart_data in
  match crawler_data with
  | None => merged
  | Some c =>
    if negb (truthy (PDict c)) then merged
    else merge_fields c merged extra_fields
  end.

(** A run of [merge_offering_data] in which the items of [extra_fields]
    are visited in an order the function does not choose. *)
Inductive merge_run (dart_data : pydict)
  : option pydict -> pydict -> Prop :=
| merge_run_none : merge_run dart_data None dart_data
| merge_run_empty c :
    truthy (PDict c) = false -> merge_run dart_data (Some c) dart_data
| merge_run_fields c order :
    truthy (PDict c) = true ->
    Permutation order extra_fields ->
    merge_run dart_data (Some c) (merge_fields c dart_data order).

End Offering.

(* ================================================================== *)
(** ** main.py: _convert_filing_financials *)
(* ================================================================== *)

Module Convert.

(** The year of a period label: ["2024.1Q"] gives ["2024"]. *)
Definition year_part (year : pystr) : pystr :=
  if py_contains (py ".") year then before_char 46%N year
  else if 4 <=? py_len year then py_slice_to year 4 else year.

Definition source_label : pystr := py "증권신고서".

(** The row built from one extracted item. *)
Definition to_row (rt : runtime) (item : pydict) : pydict :=
  let year := py_str rt (py_get_or item (py "year") (PStr [])) in
  <[py "year" := PStr (year_part year)]>
  (<[py "revenue" := py_get item (py "revenue")]>
  (<[py "operating_income" := py_get item (py "operating_income")]>
  (<[py "net_income" := py_get item (py "net_income")]>
  (<[py "total_assets" := py_get item (py "total_assets")]>
  (<[py "total_liabilities" := py_get item (py "total_liabilities")]>
  (<[py "total_equity" := py_get item (py "total_equity")]>
  (<[py "operating_cashflow" := py_get item (py "operating_cashflow")]>
  (<[py "source" := PStr source_label]> ∅)))))))).

(** [r["year"]]; a string in every row that [to_row] builds. *)
Definition year_of (r : pydict) : pystr :=
  match r !! py "year" with
  | Some (PStr y) => y
  | _ => []
  end.

(** The loop that keeps the first row of every year. *)
Fixpoint dedupe (seen : gset pystr) (rows : list pydict) : list pydict :=
  match rows with
  | [] => []
  | r :: rest =>
    if decide (year_of r ∈ seen) then dedupe seen rest
    else r :: dedupe ({[year_of r]} ∪ seen) rest
  end.

Definition finish (unique : list pydict) : res (list pydict) :=
  match unique with
  | [] => Ok []
  | _ => Financial.calc_growth_rates unique
  end.

Definition _convert_filing_financials (rt : runtime)
    (filing_fin : list pydict) : res (list pydict) :=
  let result := map (to_row rt) filing_fin in
  let result := sort_by (key_ltb year_of) result in
  let unique := dedupe ∅ result in
  finish unique.

(** What [list.sort(key=...)] promises: the result is ordered by the key
    and, for every key, holds the rows of that key in their given
    order. *)
Definition stable_sorted (l l' : list pydict) : Prop :=
  StronglySorted (key_le year_of) l' /\
  forall y, filter (fun r => year_of r = y) l' =
            filter (fun r => year_of r = y) l.

(** A run of [_convert_filing_financials] with any sort that keeps this
    promise. *)
Definition convert_run (rt : runtime) (filing_fin : list pydict)
    (out : res (list pydict)) : Prop :=
  exists sorted,
    stable_sorted (map (to_row rt) filing_fin) sorted /\
    out = finish (dedupe ∅ sorted).

(** Iterating the extracted value and calling [.get] on every item. *)
Definition as_dict (v : pyval) : res pydict :=
  match v with
  | PDict d => Ok d
  | _ => Raise AttributeError
  end.

Fixpoint as_dicts (l : list pyval) : res (list pydict) :=
  match l with
  | [] => Ok []
  | v :: l' => d ← as_dict v; ds ← as_dicts l'; Ok (d :: ds)
  end.

Definition items_of (v : pyval) : res (list pydict) :=
  match v with
  | PList l => as_dicts l
  | PDict d => if truthy v then Raise AttributeError else Ok []
  | PStr s => if truthy v then Raise AttributeError else Ok []
  | _ => Raise TypeError
  end.

End Convert.

(* ================================================================== *)
(** ** Effects: services, the language model, the call trace *)
(* ================================================================== *)

(** A file of a downloaded filing: its name and what [read_text] gives
    with either encoding. *)
Record file := {
  f_name : pystr;
  f_utf8 : res pystr;
  f_euckr : res pystr
}.

(** An entry of the DART filing list. *)
Record filing := {
  report_nm : pystr;
  rcept_no : pystr;
  rcept_dt : pystr
}.

Inductive extractor := XLockup | XBusiness | XValuation | XFinancials.

(** A request to the language model. The system prompt, the instruction
    text and [max_tokens] are fixed by the call site, so a request is its
    call site with the text that varies. *)
Inductive llm_request :=
| ReqLockup (section : pystr)
| ReqBusiness (section : pystr)
| ReqValuation (section : pystr)
| ReqPeers (combined : pystr)
| ReqFinancials (section : pystr)
| ReqAnalysis (company : pystr) (data : pydict).

Inductive event :=
| EvLLM (r : llm_request)
| EvEnter (x : extractor)
| EvCrawl (company : pystr)
| EvSaveReport (company report : pystr) (data : pydict)
| EvExcel (data : pydict) (company : pystr)
| EvSaveRaw (data : pydict) (company : pystr).

Record env := {
  search_corp_code : pystr -> res (option pydict);
  get_company_info : pyval -> res (option pydict);
  search_filings : pyval -> res (list filing);
  get_equity_registration : pyval -> res (option pydict);
  parse_equity_registration : pydict -> res pydict;
  get_financials_multi_year : pyval -> res pydict;
  build_financial_summary : pydict -> res (list pydict);
  search_38 : pystr -> res (option pydict);
  download_document : pystr -> res (option (list file));
  llm : llm_request -> res pystr;
  extract_json : pystr -> pyval;    (* _extract_json: json.loads on the reply *)
  make_reports_dir : res unit;      (* REPORTS_DIR.mkdir(parents=True, exist_ok=True) *)
  sheet_title : pystr -> res unit;  (* openpyxl: ws.title = ... *)
  cell_value : pyval -> res unit;   (* openpyxl: ws.cell(..., value=...) *)
  write_file : event -> res unit    (* write_text, wb.save: the file of the output *)
}.

(** A computation yields the trace of what it did and a result or an
    exception; the trace of an aborted computation is kept. *)
Definition M (A : Type) : Type := (list event * res A)%type.

Definition ret {A} (a : A) : M A := ([], Ok a).

Definition bind {A B} (m : M A) (f : A -> M B) : M B :=
  match m with
  | (t, Ok a) => let (t', r) := f a in (t ++ t', r)
  | (t, Raise e) => (t, Raise e)
  end.

Definition lift {A} (r : res A) : M A := ([], r).

Definition emit (e : event) : M unit := ([e], Ok tt).

Notation "'let*' x ':=' m 'in' k" := (bind m (fun x => k))
  (at level 10, x name, m at level 100, k at level 200).

Notation "m ';;;' k" := (bind m (fun _ => k))
  (at level 100, k at level 200, right associativity).

Definition call_llm (e : env) (r : llm_request) : M pystr :=
  ([EvLLM r], llm e r).

(** The file of an output is written; the output is recorded when the
    write returns. *)
Definition write_out (e : env) (ev : event) : M unit :=
  match write_file e ev with
  | Ok _ => emit ev
  | Raise ex => lift (Raise ex)
  end.

(** [d[k]] *)
Definition py_getitem (d : pydict) (k : pystr) : res pyval :=
  match d !! k with
  | Some v => Ok v
  | None => Raise KeyError
  end.

(** [v[k] = x] for a string key *)
Definition py_setitem (v : pyval) (k : pystr) (x : pyval) : res pyval :=
  match v with
  | PDict d => Ok (PDict (<[k := x]> d))
  | _ => Raise TypeError
  end.

(** [len(v)] inside an f-string *)
Definition py_len_val (v : pyval) : res Z :=
  match v with
  | PStr s => Ok (py_len s)
  | PList l => Ok (py_len l)
  | PDict d => Ok (Z.of_nat (size d))
  | _ => Raise TypeError
  end.

(** A numeric format specification ([:,], [:+.1%]) applied to a value. *)
Definition fmt_number (v : pyval) : res unit :=
  match v with
  | PBool _ | PInt _ | PFloat _ => Ok tt
  | PStr _ => Raise ValueError
  | _ => Raise TypeError
  end.

(** [v[0]] *)
Definition py_item0 (v : pyval) : res pyval :=
  match v with
  | PList (x :: _) => Ok x
  | PList [] => Raise IndexError
  | PStr (c :: _) => Ok (PStr [c])
  | PStr [] => Raise IndexError
  | PDict _ => Raise KeyError
  | _ => Raise TypeError
  end.

(** [for a in l: f(a)] *)
Fixpoint for_each {A} (f : A -> res unit) (l : list A) : res unit :=
  match l with
  | [] => Ok tt
  | a :: l' => _ ← f a; for_each f l'
  end.

(* ================================================================== *)
(** ** parsers/llm_parser.py *)
(* ================================================================== *)

Module LLMParser.

(** *** load_filing_html *)

Definition ends_with (suffix name : pystr) : bool :=
  is_prefix (rev suffix) (rev name).

(** [filing_dir.glob("*" + suffix)] *)
Definition glob (suffix : pystr) (dir : list file) : list file :=
  List.filter (fun f => ends_with suffix (f_name f)) dir.

Definition sorted_paths (fs : list file) : list file :=
  sort_by (key_ltb f_name) fs.

(** The two attempts to read a file; [None] when both raise. *)
Definition read_text (f : file) : option pystr :=
  match f_utf8 f with
  | Ok c => Some c
  | Raise _ =>
    match f_euckr f with
    | Ok c => Some c
    | Raise _ => None
    end
  end.

Definition file_block (f : file) (content : pystr) : pystr :=
  [10%N] ++ py "<!-- FILE: " ++ f_name f ++ py " -->" ++ [10%N] ++ content.

Definition add_file (combined : pystr) (f : file) : pystr :=
  match read_text f with
  | Some content => combined ++ file_block f content
  | None => combined
  end.

Definition load_filing_html (filing_dir : list file) : pystr :=
  let html_files :=
    sorted_paths (glob (py ".html") filing_dir)
    ++ sorted_paths (glob (py ".htm") filing_dir) in
  let html_files :=
    match html_files with
    | [] => sorted_paths (glob (py ".xml") filing_dir)
    | _ => html_files
    end in
  foldl add_file [] html_files.

(** *** The regular expression of the TITLE scan

    [<TITLE[^>]*>[^<]*KW[^<]*</TITLE>] is a sequence of literal
    characters, matched without regard to case, and of starred negated
    classes. A search succeeds at the first position from which some way
    of matching exists. *)

Inductive atom :=
| ALit (c : N)
| ANotStar (c : N).

Fixpoint re_match (rt : runtime) (p : list atom) (s : pystr) {struct p}
  : bool :=
  match p with
  | [] => true
  | ALit c :: p' =>
    match s with
    | x :: s' => if re_ieq rt c x then re_match rt p' s' else false
    | [] => false
    end
  | ANotStar c :: p' =>
    (fix star (s : pystr) : bool :=
       if re_match rt p' s then true
       else match s with
            | x :: s' => if (x =? c)%N then false else star s'
            | [] => false
            end) s
  end.

(** [re.search(p, s).start()] *)
Fixpoint re_search (rt : runtime) (p : list atom) (s : pystr) : option nat :=
  if re_match rt p s then Some 0%nat
  else match s with
       | [] => None
       | _ :: s' => S <$> re_search rt p s'
       end.

Definition lits (s : pystr) : list atom := map ALit s.

Definition title_pattern (kw : pystr) : list atom :=
  lits (py "<TITLE") ++ [ANotStar 62%N] ++ lits (py ">")
  ++ [ANotStar 60%N] ++ lits kw ++ [ANotStar 60%N] ++ lits (py "</TITLE>").

(** [len(re.findall(r"\d{3,}", s))]: the runs of three or more digits;
    [run] is the length of the run that ends where [s] starts. *)
Fixpoint count_runs (rt : runtime) (s : pystr) (run : nat) : Z :=
  match s with
  | [] => if (3 <=? run)%nat then 1 else 0
  | c :: s' =>
    if re_isdigit rt c then count_runs rt s' (S run)
    else (if (3 <=? run)%nat then 1 else 0) + count_runs rt s' 0
  end.

Definition section_score (rt : runtime) (section : pystr) : Z :=
  let table_count := py_count (str_lower rt section) (py "<table") in
  let number_count := count_runs rt section 0 in
  table_count * 5 + number_count.

(** *** _extract_section *)

(** The first loop: keywords against TITLE tags, in order. *)
Fixpoint title_scan (rt : runtime) (html : pystr) (keywords : list pystr)
    (max_chars : Z) : option pystr :=
  match keywords with
  | [] => None
  | kw :: rest =>
    match re_search rt (title_pattern kw) html with
    | Some i =>
      let idx := Z.of_nat i in
      Some (py_slice html idx (Z.min (py_len html) (idx + max_chars)))
    | None => title_scan rt html rest max_chars
    end
  end.

(** The [while True] loop for one keyword; [None] when [fuel] runs
    out. *)
Fixpoint scan_keyword (rt : runtime) (fuel : nat) (html html_lower kw : pystr)
    (max_chars : Z) (best_section : pystr) (best_score start_pos : Z)
  : option (pystr * Z) :=
  match fuel with
  | O => None
  | S fuel' =>
    let idx := py_find html_lower (str_lower rt kw) start_pos in
    if idx <? 0 then Some (best_section, best_score)
    else
      let start := Z.max 0 (idx - 200) in
      let end_ := Z.min (py_len html) (idx + max_chars) in
      let section := py_slice html start end_ in
      let score := section_score rt section in
      let best :=
        if best_score <? score then (section, score)
        else (best_section, best_score) in
      scan_keyword rt fuel' html html_lower kw max_chars
        (fst best) (snd best) (idx + py_len kw)
  end.

(** The second loop: keywords against the lower-cased text, in order. *)
Fixpoint text_scan (rt : runtime) (fuel : nat) (html html_lower : pystr)
    (keywords : list pystr) (max_chars : Z) : option pystr :=
  match keywords with
  | [] => Some []
  | kw :: rest =>
    match scan_keyword rt fuel html html_lower kw max_chars [] 0 0 with
    | None => None
    | Some (best_section, best_score) =>
      if truthy (PStr best_section) && (10 <? best_score)
      then Some best_section
      else text_scan rt fuel html html_lower rest max_chars
    end
  end.

Definition _extract_section (rt : runtime) (fuel : nat) (html : pystr)
    (keywords : list pystr) (max_chars : Z) : option pystr :=
  match title_scan rt html keywords max_chars with
  | Some section => Some section
  | None => text_scan rt fuel html (str_lower rt html) keywords max_chars
  end.

(** Iterations that the inner loop can need when no keyword is empty. *)
Definition scan_fuel (rt : runtime) (html : pystr) : nat :=
  (length (str_lower rt html) + 2)%nat.

(** The call as the extractors make it, every keyword being a non-empty
    literal. *)
Definition extract_section (rt : runtime) (html : pystr)
    (keywords : list pystr) (max_chars : Z) : pystr :=
  default [] (_extract_section rt (scan_fuel rt html) html keywords max_chars).

End LLMParser.

Module Extractors.
Import LLMParser.

(** *** The keyword lists of the call sites *)

Definition lockup_keywords : list pystr :=
  [ py "상장 후 유통가능 및 매각제한"; py "유통가능주식인"; py "매각제한 물량";
    py "보호예수"; py "유통제한"; py "Lock-up"; py "lock-up" ].

Definition business_keywords : list pystr :=
  [ py "사업의 내용"; py "사업의내용"; py "회사의 개요"; py "주요제품";
    py "주요 제품" ].

Definition valuation_keywords : list pystr :=
  [ py "인수인의 의견"; py "비교가치"; py "공모가격에 대한 의견" ].

Definition peer_keywords : list pystr :=
  [ py "비교기업의 주요 재무현황"; py "유사기업 요약 재무 현황";
    py "비교기업 현황"; py "유사기업 현황" ].

Definition per_keywords : list pystr :=
  [ py "비교기업 PER 산출"; py "적용 PER"; py "유사기업 PER";
    py "PER 산출내역"; py "PER 산출 내역" ].

Definition financial_keywords : list pystr :=
  [ py "요약 재무정보"; py "요약재무정보"; py "재무에 관한 사항";
    py "재무제표"; py "손익계산서"; py "포괄손익계산서" ].

Definition nonempty (s : pystr) : bool := truthy (PStr s).

(** *** extract_lockup_schedule *)
Definition extract_lockup_schedule (rt : runtime) (e : env) (html : pystr)
  : M pyval :=
  emit (EvEnter XLockup) ;;;
  let section := extract_section rt html lockup_keywords 15000 in
  if negb (nonempty section) then ret PNone
  else
    let* result := call_llm e (ReqLockup (py_slice_to section 15000)) in
    ret (extract_json e result).

(** *** extract_business_summary *)
Definition extract_business_summary (rt : runtime) (e : env) (html : pystr)
  : M pyval :=
  emit (EvEnter XBusiness) ;;;
  let section := extract_section rt html business_keywords 20000 in
  if negb (nonempty section) then ret PNone
  else
    let* result := call_llm e (ReqBusiness (py_slice_to section 15000)) in
    ret (extract_json e result).

(** *** extract_peer_valuation *)

(** [x or {}] *)
Definition or_empty_dict (v : pyval) : pyval :=
  if truthy v then v else PDict ∅.

Definition combined_sections (per_section peer_section : pystr) : pystr :=
  let combined := [] in
  let combined :=
    if nonempty per_section
    then combined ++ py "[PER 산출 영역]" ++ [10%N]
         ++ py_slice_to per_section 12000 ++ [10%N; 10%N]
    else combined in
  let combined :=
    if nonempty peer_section
    then combined ++ py "[비교기업 재무현황]" ++ [10%N]
         ++ py_slice_to peer_section 15000 ++ [10%N; 10%N]
    else combined in
  combined.

(** What the reply of the second pass contributes: the peers and the
    summary, to which an average may be added. *)
Definition read_peer_data (peer_data valuation_summary : pyval)
  : res (pyval * pyval) :=
  if truthy peer_data then
    match peer_data with
    | PDict d =>
      let peers := py_get_or d (py "peers") (PList []) in
      if truthy (py_get d (py "average_per")) then
        avg ← py_getitem d (py "average_per");
        vs ← py_setitem valuation_summary (py "average_peer_per") avg;
        Ok (peers, vs)
      else Ok (peers, valuation_summary)
    | PList _ => Ok (peer_data, valuation_summary)
    | _ => Ok (PList [], valuation_summary)
    end
  else Ok (PList [], valuation_summary).

Definition extract_peer_valuation (rt : runtime) (e : env) (html : pystr)
  : M pyval :=
  emit (EvEnter XValuation) ;;;
  (* pass 1 *)
  let val_section := extract_section rt html valuation_keywords 20000 in
  let* valuation_summary :=
    if nonempty val_section then
      let* result := call_llm e (ReqValuation (py_slice_to val_section 18000)) in
      ret (or_empty_dict (extract_json e result))
    else ret (PDict ∅) in
  (* pass 2 *)
  let peer_section := extract_section rt html peer_keywords 25000 in
  let per_section := extract_section rt html per_keywords 15000 in
  let* pv :=
    if nonempty peer_section || nonempty per_section then
      let combined := combined_sections per_section peer_section in
      if nonempty combined then
        let* result := call_llm e (ReqPeers combined) in
        lift (read_peer_data (extract_json e result) valuation_summary)
      else ret (PList [], valuation_summary)
    else ret (PList [], valuation_summary) in
  let peers := fst pv in
  let valuation_summary := snd pv in
  if negb (truthy valuation_summary) && negb (truthy peers) then ret PNone
  else lift (py_setitem valuation_summary (py "peers") peers).

(** *** extract_financials_from_filing *)
Definition extract_financials_from_filing (rt : runtime) (e : env)
    (html : pystr) : M pyval :=
  emit (EvEnter XFinancials) ;;;
  let section := extract_section rt html financial_keywords 25000 in
  if negb (nonempty section) then ret PNone
  else
    let* result := call_llm e (ReqFinancials (py_slice_to section 20000)) in
    ret (extract_json e result).

(** *** parse_full_filing *)
Definition parse_full_filing (rt : runtime) (e : env)
    (filing_dir : list file) (need_financials : bool) : M pydict :=
  let html := load_filing_html filing_dir in
  if negb (nonempty html) then ret ∅
  else
    let result : pydict := ∅ in
    let* lockup := extract_lockup_schedule rt e html in
    let* result :=
      if truthy lockup then
        lift (py_len_val lockup) ;;;
        ret (<[py "lockup_schedule" := lockup]> result)
      else ret result in
    let* business := extract_business_summary rt e html in
    let result :=
      if truthy business then <[py "business" := business]> result
      else result in
    let* valuation := extract_peer_valuation rt e html in
    let result :=
      if truthy valuation then <[py "valuation" := valuation]> result
      else result in
    if need_financials then
      let* financials := extract_financials_from_filing rt e html in
      if truthy financials then
        lift (py_len_val financials) ;;;
        ret (<[py "filing_financials" := financials]> result)
      else ret result
    else ret result.

End Extractors.

(* ================================================================== *)
(** ** analysis/analyst.py *)
(* ================================================================== *)

Module Analyst.

(** The prompt is built from [data] and the company name; the request
    carries both. *)
Definition generate_analysis (e : env) (data : pydict) (company_name : pystr)
  : M pystr :=
  call_llm e (ReqAnalysis company_name data).

End Analyst.


(* ================================================================== *)
(** ** output/report_writer.py, output/excel_writer.py *)
(* ================================================================== *)

(** The writers lay out text and cells and store a file. The layout is
    not modelled: an output is the event of its file being written, with
    the arguments it is made from. What is modelled is every operation
    of a writer that can raise, in the order of the source: making the
    directory, the loops over the rows of the collected data with the
    [.get] on every row, the values handed to the spreadsheet library,
    and the write itself. *)

Module ReportWriter.

(** [if key in data and data[key]: for row in data[key]: ... row.get(...)]:
    the rows of a table of the appendix. The cells of a row are
    formatted by [_fmt_num], [_fmt_shares] and [_fmt_pct]: each returns
    ['-'] for [None], tries [int(val)] or [float(val)] and, on
    [ValueError] or [TypeError], returns [str(val)]. With floats
    idealised as rationals, which have no largest value, these
    conversions and the division [v / 100_000_000] raise nothing else,
    so the formatting of a cell returns and only the [.get] on a row can
    raise. *)
Definition table_rows (data : pydict) (key : pystr) : res (list pydict) :=
  match data !! key with
  | Some v => if truthy v then Convert.items_of v else Ok []
  | None => Ok []
  end.

Definition save_report (e : env) (company_name analysis_report : pystr)
    (data : pydict) : M unit :=
  lift (make_reports_dir e) ;;;
  lift (table_rows data (py "financials")) ;;;
  lift (table_rows data (py "lockup_schedule")) ;;;
  write_out e (EvSaveReport company_name analysis_report data).

End ReportWriter.

Module ExcelWriter.

(** *** _extract_opinion *)

(** [report.split("\n")] *)
Fixpoint split_lines (s : pystr) : list pystr :=
  match s with
  | [] => [[]]
  | c :: s' =>
    if (c =? 10)%N then [] :: split_lines s'
    else match split_lines s' with
         | line :: rest => (c :: line) :: rest
         | [] => [[c]]
         end
  end.

(** ["\n".join(lines)] *)
Fixpoint join_lines (lines : list pystr) : pystr :=
  match lines with
  | [] => []
  | line :: rest =>
    match rest with
    | [] => line
    | _ :: _ => line ++ 10%N :: join_lines rest
    end
  end.

Definition is_opinion_line (line : pystr) : bool :=
  py_contains (py "종합 의견") line
  || py_contains (py "종합의견") line
  || py_contains (py "핵심 체크") line.

(** The loop that keeps every line from the first marked one on. *)
Fixpoint capture_lines (capture : bool) (lines : list pystr) : list pystr :=
  match lines with
  | [] => []
  | line :: rest =>
    let capture := capture || is_opinion_line line in
    if capture then line :: capture_lines capture rest
    else capture_lines capture rest
  end.

Definition _extract_opinion (report : pystr) : pystr :=
  match capture_lines false (split_lines report) with
  | [] => py_slice report (-2000) (py_len report)
  | result => join_lines result
  end.

(** *** generate_excel *)

(** The values written to the cells of one block, in order. Cells that
    hold a literal label are not listed. *)
Definition cells (e : env) (values : list pyval) : res unit :=
  for_each (cell_value e) values.

(** [for item in v: body(item)], where [body] begins with [item.get]. *)
Fixpoint each_dict (body : pydict -> res unit) (items : list pyval)
  : res unit :=
  match items with
  | [] => Ok tt
  | x :: rest => d ← Convert.as_dict x; _ ← body d; each_dict body rest
  end.

Definition for_dicts (body : pydict -> res unit) (v : pyval) : res unit :=
  match v with
  | PList items => each_dict body items
  | PStr _ | PDict _ => if truthy v then Raise AttributeError else Ok tt
  | _ => Raise TypeError
  end.

Definition is_none (v : pyval) : bool :=
  match v with PNone => true | _ => false end.

Definition schedule_values (offering crawler : pydict) : list pyval :=
  [ py_get_or crawler (py "demand_forecast_date") (PStr []);
    (let v := py_get_or offering (py "subscription_date") (PStr []) in
     if truthy v then v
     else py_get_or crawler (py "subscription_date") (PStr []));
    py_get_or offering (py "payment_date") (PStr []);
    py_get_or crawler (py "listing_date") (PStr []);
    py_get_or crawler (py "lead_underwriter") (PStr []) ].

Definition offering_values (offering crawler sec : pydict) : list pyval :=
  [ py_get sec (py "count");
    py_get sec (py "face_value");
    py_get_or crawler (py "confirmed_price") (PStr []);
    py_get_or offering (py "crawler_offering_price_range") (PStr []);
    py_get sec (py "total_amount");
    py_get_or sec (py "method") (PStr []) ].

Definition underwriter_values (uw : pydict) : list pyval :=
  [ py_get_or uw (py "name") (PStr []);
    py_get uw (py "count");
    py_get uw (py "amount") ].

Definition demand_values (crawler : pydict) : list pyval :=
  [ py_get_or crawler (py "institutional_competition") (PStr []);
    py_get_or crawler (py "lockup_commitment") (PStr []);
    py_get_or crawler (py "institutional_allocation") (PStr []);
    py_get_or crawler (py "retail_allocation") (PStr []) ].

Definition lockup_values (item : pydict) : list pyval :=
  [ py_get_or item (py "period") (PStr []);
    py_get item (py "shares");
    py_get item (py "ratio");
    py_get item (py "cumulative_ratio") ].

Definition financial_fields : list pystr :=
  [ py "total_assets"; py "total_liabilities"; py "total_equity";
    py "revenue"; py "operating_income"; py "net_income" ].

Definition valuation_values (valuation : pydict) : list pyval :=
  [ py_get_or valuation (py "valuation_method") (PStr []);
    py_get_or valuation (py "base_metric") (PStr []);
    py_get valuation (py "base_value");
    py_get valuation (py "discount_rate");
    py_get valuation (py "applied_multiple");
    py_get valuation (py "per_share_value") ].

Definition peer_values (peer : pydict) : list pyval :=
  [ py_get_or peer (py "name") (PStr []);
    py_get_or peer (py "market") (PStr []);
    py_get peer (py "revenue");
    py_get peer (py "net_income");
    py_get peer (py "market_cap");
    py_get peer (py "share_price");
    py_get peer (py "per");
    py_get peer (py "ev_ebitda") ].

(** Section 6 of the sheet: the years, one line for each field, the
    growth of the revenue. *)
Definition financial_cells (e : env) (financials : pyval) : res unit :=
  rows ← Convert.items_of financials;
  _ ← cells e (map (fun f => py_get_or f (py "year") (PStr [])) rows);
  _ ← for_each (fun field => cells e (map (fun f => py_get f field) rows))
        financial_fields;
  cells e (List.filter (fun v => negb (is_none v))
             (map (fun f => py_get f (py "revenue_yoy")) rows)).

(** Section 7 of the sheet. *)
Definition valuation_cells (e : env) (valuation : pyval) : res unit :=
  v ← Convert.as_dict valuation;
  _ ← cells e (valuation_values v);
  let avg_per := py_get v (py "average_peer_per") in
  _ ← (if truthy avg_per then cell_value e avg_per else Ok tt);
  let peers := py_get_or v (py "peers") (PList []) in
  if truthy peers then for_dicts (fun peer => cells e (peer_values peer)) peers
  else Ok tt.

(** Section 8 of the sheet. *)
Definition opinion_cell (e : env) (analysis : pyval) : res unit :=
  match analysis with
  | PStr report => cell_value e (PStr (_extract_opinion report))
  | _ => Raise AttributeError
  end.

(** Everything before [wb.save]. *)
Definition fill_sheet (e : env) (data : pydict) (company_name : pystr)
  : res unit :=
  _ ← make_reports_dir e;
  _ ← sheet_title e company_name;
  _ ← cell_value e (PStr company_name);
  let offering := py_get_or data (py "offering") (PDict ∅) in
  let crawler := py_get_or data (py "crawler_data") (PDict ∅) in
  crawler ← Convert.as_dict crawler;
  offering ← Convert.as_dict offering;
  _ ← cells e (schedule_values offering crawler);
  let securities := py_get_or offering (py "securities") (PList [PDict ∅]) in
  sec ← (if truthy securities then py_item0 securities else Ok (PDict ∅));
  sec ← Convert.as_dict sec;
  _ ← cells e (offering_values offering crawler sec);
  let underwriters := py_get_or offering (py "underwriters") (PList []) in
  _ ← (if truthy underwriters
       then for_dicts (fun uw => cells e (underwriter_values uw)) underwriters
       else Ok tt);
  _ ← (if truthy (PDict crawler)
       then cells e (List.filter truthy (demand_values crawler))
       else Ok tt);
  let lockup := py_get_or data (py "lockup_schedule") (PList []) in
  _ ← (if truthy lockup
       then for_dicts (fun item => cells e (lockup_values item)) lockup
       else Ok tt);
  let financials := py_get_or data (py "financials") (PList []) in
  _ ← (if truthy financials then financial_cells e financials else Ok tt);
  let valuation := py_get_or data (py "valuation") (PDict ∅) in
  _ ← (if truthy valuation then valuation_cells e valuation else Ok tt);
  let analysis := py_get_or data (py "analysis_report") (PStr []) in
  if truthy analysis then opinion_cell e analysis else Ok tt.

Definition generate_excel (e : env) (data : pydict) (company_name : pystr)
  : M unit :=
  lift (fill_sheet e data company_name) ;;;
  write_out e (EvExcel data company_name).

End ExcelWriter.

(* ================================================================== *)
(** ** main.py: run_pipeline *)
(* ================================================================== *)

Module Pipeline.
Import Extractors.

(** *** Step 2: the choice of the filing *)

Definition is_registration (name : pystr) : bool :=
  py_contains (py "증권신고서") name
  && negb (py_contains (py "발행실적") name)
  && negb (py_contains (py "발행조건확정") name).

Definition priority (name : pystr) : Z :=
  if py_contains (py "기재정정") name then 0 else 1.

Definition candidates_of (filings : list filing) : list (Z * filing) :=
  flat_map (fun f =>
    if is_registration (report_nm f) then [(priority (report_nm f), f)]
    else []) filings.

Definition is_prospectus (name : pystr) : bool :=
  py_contains (py "투자설명서") name && negb (py_contains (py "첨부") name).

(** The loop that stops at the first prospectus. *)
Definition invest_doc_of (filings : list filing) : pyval :=
  match List.find (fun f => is_prospectus (report_nm f)) filings with
  | Some f => PStr (rcept_no f)
  | None => PNone
  end.

Definition opt_truthy (o : option pystr) : bool :=
  match o with
  | Some s => truthy (PStr s)
  | None => false
  end.

(** The receipt number and the entry added to [collected]. *)
Definition choose_filing (filings : list filing) (collected : pydict)
  : option pystr * pydict :=
  match filings with
  | [] => (None, collected)
  | first :: _ =>
    let candidates :=
      sort_by (fun a b => fst a <? fst b) (candidates_of filings) in
    let rcept :=
      match candidates with
      | (_, chosen) :: _ => Some (rcept_no chosen)
      | [] => None
      end in
    let collected :=
      <[py "_invest_doc_rcept_no" := invest_doc_of filings]> collected in
    let rcept := if opt_truthy rcept then rcept else Some (rcept_no first) in
    (rcept, collected)
  end.

(** *** Step 2: what the progress lines format *)

Definition print_offering (offering : pydict) : res unit :=
  let securities := py_get_or offering (py "securities") (PList []) in
  if truthy securities then
    sec ← py_item0 securities;
    sec ← Convert.as_dict sec;
    if truthy (py_get sec (py "offering_price")) then
      _ ← fmt_number (py_get sec (py "offering_price"));
      fmt_number (py_get sec (py "count"))
    else Ok tt
  else Ok tt.

Definition print_revenue (with_yoy : bool) (row : pydict) : res unit :=
  let rev := py_get row (py "revenue") in
  _ ← (if truthy rev then py_truediv rev (PInt 100000000) else Ok PNone);
  _ ← (if with_yoy then
         let yoy := py_get row (py "revenue_yoy") in
         if truthy yoy then fmt_number yoy else Ok tt
       else Ok tt);
  _ ← py_getitem row (py "year");
  Ok tt.

Definition rows_value (rows : list pydict) : pyval := PList (map PDict rows).

(** *** Step 2: DART data *)
Definition step2 (e : env) (corp_code : pyval) (collected : pydict)
  : M (option pystr * pydict) :=
  let* company_info := lift (get_company_info e corp_code) in
  let collected :=
    match company_info with
    | Some ci =>
      if truthy (PDict ci) then <[py "company_info" := PDict ci]> collected
      else collected
    | None => collected
    end in
  let* filings := lift (search_filings e corp_code) in
  let rc := choose_filing filings collected in
  let rcept := fst rc in
  let collected := snd rc in
  let* equity_data := lift (get_equity_registration e corp_code) in
  let* collected :=
    match equity_data with
    | Some eq =>
      if truthy (PDict eq) then
        let* offering := lift (parse_equity_registration e eq) in
        lift (print_offering offering) ;;;
        ret (<[py "offering" := PDict offering]> collected)
      else ret collected
    | None => ret collected
    end in
  let* fin_raw := lift (get_financials_multi_year e corp_code) in
  let* collected :=
    if truthy (PDict fin_raw) then
      let* fin_summary := lift (build_financial_summary e fin_raw) in
      let* fin_summary := lift (Financial.calc_growth_rates fin_summary) in
      lift (for_each (print_revenue true) fin_summary) ;;;
      ret (<[py "financials" := rows_value fin_summary]> collected)
    else ret collected in
  ret (rcept, collected).

(** *** Step 3: 38.co.kr *)

(** The [try] around the crawl: an exception leaves [None]. *)
Definition try_search_38 (e : env) (company_name : pystr)
  : M (option pydict) :=
  emit (EvCrawl company_name) ;;;
  match search_38 e company_name with
  | Ok crawler_data => ret crawler_data
  | Raise _ => ret None
  end.

Definition step3 (e : env) (company_name : pystr) (collected : pydict)
  : M pydict :=
  let* crawler_data := try_search_38 e company_name in
  match crawler_data with
  | Some cd =>
    if truthy (PDict cd) then
      let collected := <[py "crawler_data" := PDict cd]> collected in
      match collected !! py "offering" with
      | Some (PDict offering) =>
        ret (<[py "offering" :=
                 PDict (Offering.merge_offering_data offering (Some cd))]>
               collected)
      | Some _ => lift (Raise TypeError)
      | None => ret collected
      end
    else ret collected
  | None => ret collected
  end.

(** *** Step 4: the filing *)

Definition has_financials (collected : pydict) : bool :=
  truthy (py_get collected (py "financials")).

(** [collected.update(parsed)] *)
Definition py_update (collected parsed : pydict) : pydict :=
  parsed ∪ collected.

(** The rows extracted from the filing become the financials. *)
Definition adopt_filing_financials (rt : runtime) (collected : pydict)
  : res pydict :=
  match collected !! py "filing_financials" with
  | Some fin_from_filing =>
    items ← Convert.items_of fin_from_filing;
    fin_summary ← Convert._convert_filing_financials rt items;
    match fin_summary with
    | [] => Ok collected
    | _ =>
      _ ← for_each (print_revenue false) fin_summary;
      Ok (<[py "financials" := rows_value fin_summary]> collected)
    end
  | None => Ok collected
  end.

Definition step4 (rt : runtime) (e : env) (skip_filing : bool)
    (rcept : option pystr) (collected : pydict) : M pydict :=
  let has_fin := has_financials collected in
  if negb skip_filing && opt_truthy rcept then
    match rcept with
    | Some rcept_no =>
      let* filing_dir := lift (download_document e rcept_no) in
      match filing_dir with
      | Some dir =>
        let* parsed := parse_full_filing rt e dir (negb has_fin) in
        let collected := py_update collected parsed in
        if negb has_fin then lift (adopt_filing_financials rt collected)
        else ret collected
      | None => ret collected
      end
    | None => ret collected
    end
  else ret collected.

(** *** Step 5: the analysis *)
Definition step5 (e : env) (skip_analysis : bool) (company_name : pystr)
    (collected : pydict) : M (pydict * pystr) :=
  if negb skip_analysis then
    let* analysis_report := Analyst.generate_analysis e collected company_name in
    ret (<[py "analysis_report" := PStr analysis_report]> collected,
         analysis_report)
  else ret (collected, []).

(** *** Step 6: the outputs *)

(** [save_raw_data]: the collected data without the report, as JSON. *)
Definition save_raw_data (e : env) (data : pydict) (company_name : pystr)
  : M unit :=
  lift (make_reports_dir e) ;;;
  let save_data := base.delete (py "analysis_report") data in
  write_out e (EvSaveRaw save_data company_name).

Definition step6 (e : env) (company_name : pystr) (collected : pydict)
    (analysis_report : pystr) : M pydict :=
  (if nonempty analysis_report
   then ReportWriter.save_report e company_name analysis_report collected
   else ret tt) ;;;
  ExcelWriter.generate_excel e collected company_name ;;;
  save_raw_data e collected company_name ;;;
  ret collected.

(** *** Step 1 and the steps in sequence *)

(** Steps 2 to 5: everything between the identification of the company
    and the outputs. *)
Definition collect (rt : runtime) (e : env) (corp_code : pyval)
    (company_name : pystr) (skip_filing skip_analysis : bool)
  : M (pydict * pystr) :=
  let collected : pydict := ∅ in
  let* rc := step2 e corp_code collected in
  let* collected := step3 e company_name (snd rc) in
  let* collected := step4 rt e skip_filing (fst rc) collected in
  step5 e skip_analysis company_name collected.

(** Step 1: [None] when DART does not know the company. *)
Definition step1 (e : env) (company_name : pystr) : M (option pyval) :=
  let* corp := lift (search_corp_code e company_name) in
  match corp with
  | Some corp =>
    if truthy (PDict corp) then
      let* corp_code := lift (py_getitem corp (py "corp_code")) in
      lift (py_getitem corp (py "corp_name")) ;;;
      ret (Some corp_code)
    else ret None
  | None => ret None
  end.

(** [run_pipeline] returns [None] when the company is unknown and
    [collected] otherwise. *)
Definition run_pipeline (rt : runtime) (e : env) (company_name : pystr)
    (skip_filing skip_analysis : bool) : M (option pydict) :=
  let* corp_code := step1 e company_name in
  match corp_code with
  | None => ret None
  | Some corp_code =>
    let* ca := collect rt e corp_code company_name skip_filing skip_analysis in
    let* collected := step6 e company_name (fst ca) (snd ca) in
    ret (Some collected)
  end.

End Pipeline.

(* ================================================================== *)
(** ** Definitions used by the statements below *)
(* ================================================================== *)

(** A runtime for the examples: only [A-Z] have a lower case, letters
    match without regard to it, the digits are [0-9]. *)
Definition ascii_lower (c : N) : N :=
  if ((65 <=? c) && (c <=? 90))%N then (c + 32)%N else c.

Definition ascii_runtime : runtime :=
  {| str_lower := map ascii_lower;
     re_ieq := fun p c => (ascii_lower p =? ascii_lower c)%N;
     re_isdigit := fun c => ((48 <=? c) && (c <=? 57))%N;
     py_repr := fun _ => [] |}.

(** Spec-side definitions for calc_growth_rates *)
Module FinancialSpec.
Import Financial.

(** The guard of the assignment: both values are present and non-zero. *)
Definition yoy_condition (prev curr : pydict) (f : pystr) : bool :=
  truthy (py_get prev f) && truthy (py_get curr f).

(** [(curr_val - prev_val) / abs(prev_val)] *)
Definition yoy_value (prev curr : pydict) (f : pystr) : res pyval :=
  d ← py_sub (py_get curr f) (py_get prev f);
  a ← py_abs (py_get prev f);
  py_truediv d a.

(** A key that no growth field writes. *)
Definition not_yoy_key (k : pystr) : Prop :=
  forall f, f ∈ growth_fields -> k <> yoy_key f.

(** The rows agree on the values that the loop reads. *)
Definition same_fields (a b : pydict) : Prop :=
  forall f, f ∈ growth_fields -> py_get a f = py_get b f.

(** Row [row'] is row [row] after the inner loop with [prev] before it. *)
Definition row_grown (prev row row' : pydict) : Prop :=
  (forall k, not_yoy_key k -> row' !! k = row !! k) /\
  (forall f, f ∈ growth_fields ->
     if yoy_condition prev row f
     then exists yoy, yoy_value prev row f = Ok yoy /\
                      row' !! yoy_key f = Some yoy
     else row' !! yoy_key f = row !! yoy_key f).

(** Row [row'] is row [row] but for growth rates. *)
Definition same_but_yoy (row row' : pydict) : Prop :=
  forall k, not_yoy_key k -> row' !! k = row !! k.

(** The values of the growth fields are numbers or absent. *)
Definition numeric_fields (row : pydict) : Prop :=
  forall f, f ∈ growth_fields ->
    py_get row f = PNone \/ is_Some (as_num (py_get row f)).

(** The reading under test: whatever a row holds before the call, it
    holds after it. *)
Definition keeps_existing_keys (summary : list pydict) : Prop :=
  forall out i row row' k v,
    calc_growth_rates summary = Ok out ->
    summary !! i = Some row -> out !! i = Some row' ->
    row !! k = Some v -> row' !! k = Some v.

(** Two years; the second row already holds a growth rate. *)
Definition sample_2023 : pydict :=
  <[py "year" := PStr (py "2023")]> (<[py "revenue" := PInt 100]> ∅).

Definition sample_2024 : pydict :=
  <[py "year" := PStr (py "2024")]>
    (<[py "revenue" := PInt 250]> (<[py "revenue_yoy" := PInt 5]> ∅)).

Definition sample_rows : list pydict := [sample_2023; sample_2024].

Definition sample_yoy : pyval :=
  PFloat (inject_Z (250 - 100) / inject_Z (Z.abs 100))%Q.

Definition sample_grown : list pydict :=
  [sample_2023; <[py "revenue_yoy" := sample_yoy]> sample_2024].

(** Two years; the revenue of the second is zero, and the row already
    holds a growth rate. *)
Definition zero_2024 : pydict :=
  <[py "year" := PStr (py "2024")]>
    (<[py "revenue" := PInt 0]> (<[py "revenue_yoy" := PInt 7]> ∅)).

Definition zero_rows : list pydict := [sample_2023; zero_2024].

End FinancialSpec.

Module OfferingSpec.
Import Offering.

(** A key that the merge does not write. *)
Definition not_crawler_key (k : pystr) : Prop :=
  forall f, f ∈ extra_fields -> k <> crawler_key f.

(** The value that field [f] of the crawler data contributes. *)
Definition crawler_value (crawler_data : option pydict) (f : pystr)
  : option pyval :=
  match crawler_data with
  | Some c =>
    match c !! f with
    | Some v => if truthy v then Some v else None
    | None => None
    end
  | None => None
  end.

(** The reading under test: every key of [dart_data] keeps its value. *)
Definition keeps_dart_values (dart_data : pydict)
    (crawler_data : option pydict) : Prop :=
  forall k v, dart_data !! k = Some v ->
    merge_offering_data dart_data crawler_data !! k = Some v.

Definition sample_dart : pydict :=
  <[py "crawler_listing_date" := PStr (py "2025-01-01")]> ∅.

Definition sample_crawler : pydict :=
  <[py "listing_date" := PStr (py "2025-02-02")]> ∅.

End OfferingSpec.

Module ConvertSpec.
Import Convert.

(** The index of the first ['.'] of a label. *)
Fixpoint dot_index (year : pystr) : option nat :=
  match year with
  | [] => None
  | c :: rest => if (c =? 46)%N then Some 0%nat else S <$> dot_index rest
  end.

(** The year of a label as the claim words it: the label cut at its
    first ['.'], or, without one, its first four characters. *)
Definition truncated_year (year : pystr) : pystr :=
  match dot_index year with
  | Some i => take i year
  | None => take 4 year
  end.

(** The normalised year of an extracted item: the truncated text of its
    ['year'] entry, the empty text when there is none. *)
Definition item_year (rt : runtime) (item : pydict) : pystr :=
  truncated_year (py_str rt (py_get_or item (py "year") (PStr []))).

(** The first item of a list, in the given order, with a given
    normalised year. *)
Definition first_item_with_year (rt : runtime) (y : pystr)
    (items : list pydict) : option pydict :=
  head (filter (fun item => item_year rt item = y) items).

(** The first row of a list that carries a given year. *)
Definition first_with_year (y : pystr) (rows : list pydict) : option pydict :=
  head (filter (fun r => year_of r = y) rows).

(** The rows as they stand after the sort. *)
Definition sorted_rows (rt : runtime) (filing_fin : list pydict)
  : list pydict :=
  sort_by (key_ltb year_of) (map (to_row rt) filing_fin).

(** Three extracted rows: a quarter of 2024, the year 2023, the year
    2024. *)
Definition sample_items : list pydict :=
  [ <[py "year" := PStr (py "2024.1Q")]> (<[py "revenue" := PInt 30]> ∅);
    <[py "year" := PInt 2023]> (<[py "revenue" := PInt 100]> ∅);
    <[py "year" := PStr (py "2024")]> (<[py "revenue" := PInt 250]> ∅) ].

(** What [_convert_filing_financials] makes of them. *)
Definition sample_converted : list pydict :=
  Eval vm_compute in
    match _convert_filing_financials ascii_runtime sample_items with
    | Ok rows => rows
    | Raise _ => []
    end.

(** Four extracted rows: a date of 2022, a quarter of 2024, the year
    2023 as a number, the year 2024. *)
Definition dated_items : list pydict :=
  [ <[py "year" := PStr (py "20221231")]> (<[py "revenue" := PInt 80]> ∅);
    <[py "year" := PStr (py "2024.1Q")]> (<[py "revenue" := PInt 30]> ∅);
    <[py "year" := PInt 2023]> (<[py "revenue" := PInt 100]> ∅);
    <[py "year" := PStr (py "2024")]> (<[py "revenue" := PInt 250]> ∅) ].

Definition dated_converted : list pydict :=
  Eval vm_compute in
    match _convert_filing_financials ascii_runtime dated_items with
    | Ok rows => rows
    | Raise _ => []
    end.

(** The year and the revenue of a row. *)
Definition year_revenue (row : pydict) : pystr * pyval :=
  (year_of row, py_get row (py "revenue")).

End ConvertSpec.

Module LoadingSpec.
Import LLMParser.

(** What one file adds to the text: its header and content, or nothing
    when it cannot be read. *)
Definition block_of (f : file) : pystr :=
  match read_text f with
  | Some content => file_block f content
  | None => []
  end.

(** The files that are read, in the order in which they are read. *)
Definition chosen_files (dir : list file) : list file :=
  match glob (py ".html") dir, glob (py ".htm") dir with
  | [], [] => sorted_paths (glob (py ".xml") dir)
  | html, htm => sorted_paths html ++ sorted_paths htm
  end.

(** The reading under test: the [*.html] and [*.htm] files are read in
    one sorted order of their names. *)
Definition reads_in_name_order (dir : list file) : Prop :=
  load_filing_html dir =
  foldl add_file []
    (sorted_paths (glob (py ".html") dir ++ glob (py ".htm") dir)).

Definition readable (name content : string) : file :=
  {| f_name := py name; f_utf8 := Ok (py content);
     f_euckr := Ok (py content) |}.

(** A directory with [b.html] and [a.htm]. *)
Definition sample_dir : list file :=
  [readable "b.html" "B"; readable "a.htm" "A"].

End LoadingSpec.

Module SectionSpec.
Import LLMParser.

(** The first TITLE match of the first keyword that has one. *)
Fixpoint first_title_hit (rt : runtime) (html : pystr) (keywords : list pystr)
  : option nat :=
  match keywords with
  | [] => None
  | kw :: rest =>
    match re_search rt (title_pattern kw) html with
    | Some i => Some i
    | None => first_title_hit rt html rest
    end
  end.

(** The occurrences of [sub] in [s] that a left-to-right scan meets when
    it resumes [klen] characters after the start of each one; [pos] is
    the index of the head of [s], [skip] what is left to pass over. *)
Fixpoint scan_positions (sub : pystr) (klen : nat) (s : pystr)
    (pos skip : nat) : list nat :=
  match skip with
  | S k =>
    match s with
    | [] => []
    | _ :: s' => scan_positions sub klen s' (S pos) k
    end
  | O =>
    if is_prefix sub s
    then pos :: match s with
                | [] => []
                | _ :: s' => scan_positions sub klen s' (S pos) (klen - 1)
                end
    else match s with
         | [] => []
         | _ :: s' => scan_positions sub klen s' (S pos) 0
         end
  end.

(** The occurrences met from index [start] of [hl] on. *)
Definition positions_from (sub : pystr) (klen : nat) (hl : pystr)
    (start : nat) : list nat :=
  if (start <=? length hl)%nat
  then scan_positions sub klen (drop start hl) start 0
  else [].

(** Every position at which [sub] occurs in [s]. *)
Fixpoint all_positions (sub s : pystr) (pos : nat) : list nat :=
  (if is_prefix sub s then [pos] else [])
  ++ match s with
     | [] => []
     | _ :: s' => all_positions sub s' (S pos)
     end.

(** The slice around an occurrence, with its score. *)
Definition candidate (rt : runtime) (html : pystr) (max_chars : Z)
    (idx : nat) : pystr * Z :=
  let i := Z.of_nat idx in
  let section :=
    py_slice html (Z.max 0 (i - 200)) (Z.min (py_len html) (i + max_chars)) in
  (section, section_score rt section).

(** A candidate replaces the best one only with a higher score. *)
Definition better (best c : pystr * Z) : pystr * Z :=
  if snd best <? snd c then c else best.

Definition best_of (cands : list (pystr * Z)) : pystr * Z :=
  fold_left better cands ([], 0).

(** The best slice of a keyword among the occurrences that the scan
    meets. *)
Definition best_for (rt : runtime) (html html_lower kw : pystr)
    (max_chars : Z) : pystr * Z :=
  best_of (map (candidate rt html max_chars)
             (scan_positions (str_lower rt kw) (length kw) html_lower 0 0)).

(** The best slice of the first keyword whose best score exceeds 10. *)
Fixpoint text_choice (rt : runtime) (html html_lower : pystr)
    (keywords : list pystr) (max_chars : Z) : pystr :=
  match keywords with
  | [] => []
  | kw :: rest =>
    let best := best_for rt html html_lower kw max_chars in
    if truthy (PStr (fst best)) && (10 <? snd best) then fst best
    else text_choice rt html html_lower rest max_chars
  end.

(** The reading under test: every occurrence of a keyword is scored. *)
Definition best_for_all (rt : runtime) (html html_lower kw : pystr)
    (max_chars : Z) : pystr * Z :=
  best_of (map (candidate rt html max_chars)
             (all_positions (str_lower rt kw) html_lower 0)).

Fixpoint text_choice_all (rt : runtime) (html html_lower : pystr)
    (keywords : list pystr) (max_chars : Z) : pystr :=
  match keywords with
  | [] => []
  | kw :: rest =>
    let best := best_for_all rt html html_lower kw max_chars in
    if truthy (PStr (fst best)) && (10 <? snd best) then fst best
    else text_choice_all rt html html_lower rest max_chars
  end.

Definition scores_every_occurrence (rt : runtime) (html : pystr)
    (keywords : list pystr) (max_chars : Z) : Prop :=
  first_title_hit rt html keywords = None ->
  _extract_section rt (scan_fuel rt html) html keywords max_chars =
  Some (text_choice_all rt html (str_lower rt html) keywords max_chars).

(** A text in which the keyword [aa] occurs at 0 and, overlapping, at 1;
    with 18 characters after an occurrence, the slice at 0 ends inside
    the number and scores 10, the slice at 1 holds it and scores 11. *)
Definition overlap_html : pystr := py "aaa<table<table 222".

(** A text with a TITLE tag and one without. *)
Definition titled_html : pystr :=
  py "<p>intro</p><TITLE>II. 사업의 내용</TITLE><p>body</p>".

(** A text without TITLE tag in which the first keyword has no slice
    that scores above 10 and the second has one: with 30 characters after
    an occurrence, the slice of [alpha] holds no table, the slice of
    [beta] holds three and ends inside the number. *)
Definition scored_html : pystr :=
  py "alpha: no figures here. beta: <table><table><table> 2024".

End SectionSpec.

Module PipelineSpec.
Import LLMParser Extractors Pipeline.

(** *** Kinds of events *)

Definition is_llm (ev : event) : bool :=
  match ev with EvLLM _ => true | _ => false end.

Definition is_output (ev : event) : bool :=
  match ev with
  | EvSaveReport _ _ _ | EvExcel _ _ | EvSaveRaw _ _ => true
  | _ => false
  end.

Definition is_crawl (ev : event) : bool :=
  match ev with EvCrawl _ => true | _ => false end.

(** What the parsing of a filing can do: enter an extractor, call the
    language model. *)
Definition is_parse (ev : event) : bool :=
  match ev with EvLLM _ | EvEnter _ => true | _ => false end.

Definition enters (x : extractor) (ev : event) : bool :=
  match ev, x with
  | EvEnter XLockup, XLockup | EvEnter XBusiness, XBusiness
  | EvEnter XValuation, XValuation | EvEnter XFinancials, XFinancials => true
  | _, _ => false
  end.

Definition is_quiet (ev : event) : bool := negb (is_output ev).

Definition no_event (ev : event) : bool := false.

(** Anything but the entry into [extract_financials_from_filing]. *)
Definition not_fallback (ev : event) : bool := negb (enters XFinancials ev).

(** Every event of the trace of [m] is of kind [P]. *)
Definition traces_only (P : event -> bool) {A} (m : M A) : Prop :=
  Forall (fun ev => P ev = true) (fst m).

Definition llm_calls (t : list event) : list event := List.filter is_llm t.
Definition outputs_of (t : list event) : list event := List.filter is_output t.
Definition crawls_of (t : list event) : list event := List.filter is_crawl t.

(** [extract_financials_from_filing] was entered. *)
Definition financials_invoked (t : list event) : Prop :=
  EvEnter XFinancials ∈ t.

(** The three outputs of a run, in the order of step 6: the report only
    for a non-empty analysis, the spreadsheet, and the collected data
    without the report. *)
Definition report_output (company_name : pystr) (collected : pydict)
    (analysis_report : pystr) : list event :=
  if nonempty analysis_report
  then [EvSaveReport company_name analysis_report collected]
  else [].

Definition excel_output (company_name : pystr) (collected : pydict)
  : event :=
  EvExcel collected company_name.

Definition raw_output (company_name : pystr) (collected : pydict) : event :=
  EvSaveRaw (base.delete (py "analysis_report") collected) company_name.

Definition expected_outputs (company_name : pystr) (collected : pydict)
    (analysis_report : pystr) : list event :=
  report_output company_name collected analysis_report
  ++ [excel_output company_name collected; raw_output company_name collected].

(** What each writer of step 6 returns on the collected data. *)
Definition report_result (e : env) (company_name : pystr)
    (collected : pydict) (analysis_report : pystr) : res unit :=
  if nonempty analysis_report
  then snd (ReportWriter.save_report e company_name analysis_report collected)
  else Ok tt.

Definition excel_result (e : env) (company_name : pystr)
    (collected : pydict) : res unit :=
  snd (ExcelWriter.generate_excel e collected company_name).

Definition raw_result (e : env) (company_name : pystr)
    (collected : pydict) : res unit :=
  snd (save_raw_data e collected company_name).

(** The rows of a table of the report can be read: the entry is absent,
    falsy, or a list of dicts. *)
Definition rows_readable (data : pydict) (key : pystr) : Prop :=
  match data !! key with
  | Some v => truthy v = true -> exists rows, v = PList (map PDict rows)
  | None => True
  end.

(** The reading under test: a run with a non-empty analysis produces the
    three outputs. *)
Definition produces_all_outputs (rt : runtime) (e : env)
    (company_name : pystr) : Prop :=
  forall corp_code t2 collected analysis_report,
    snd (step1 e company_name) = Ok (Some corp_code) ->
    collect rt e corp_code company_name false false
    = (t2, Ok (collected, analysis_report)) ->
    nonempty analysis_report = true ->
    outputs_of (fst (run_pipeline rt e company_name false false)) =
    [ EvSaveReport company_name analysis_report collected;
      excel_output company_name collected;
      raw_output company_name collected ].

(** The environment in which the crawler answers as [f] does. *)
Definition with_search_38 (e : env) (f : pystr -> res (option pydict)) : env :=
  {| search_corp_code := search_corp_code e;
     get_company_info := get_company_info e;
     search_filings := search_filings e;
     get_equity_registration := get_equity_registration e;
     parse_equity_registration := parse_equity_registration e;
     get_financials_multi_year := get_financials_multi_year e;
     build_financial_summary := build_financial_summary e;
     search_38 := f;
     download_document := download_document e;
     llm := llm e;
     extract_json := extract_json e;
     make_reports_dir := make_reports_dir e;
     sheet_title := sheet_title e;
     cell_value := cell_value e;
     write_file := write_file e |}.

(** *** A complete run *)

(** The sections that the extractors look for. *)
Definition lockup_section rt html := extract_section rt html lockup_keywords 15000.
Definition business_section rt html := extract_section rt html business_keywords 20000.
Definition valuation_section rt html := extract_section rt html valuation_keywords 20000.
Definition peer_section rt html := extract_section rt html peer_keywords 25000.
Definition per_section rt html := extract_section rt html per_keywords 15000.
Definition financial_section rt html := extract_section rt html financial_keywords 25000.

Definition sections_located (rt : runtime) (html : pystr) : bool :=
  nonempty html
  && nonempty (lockup_section rt html)
  && nonempty (business_section rt html)
  && nonempty (valuation_section rt html)
  && nonempty (peer_section rt html)
  && nonempty (per_section rt html)
  && nonempty (financial_section rt html).

(** The requests of the parsing of a filing in which every section is
    located. *)
Definition parse_requests (rt : runtime) (html : pystr) (need_financials : bool)
  : list event :=
  [ EvLLM (ReqLockup (py_slice_to (lockup_section rt html) 15000));
    EvLLM (ReqBusiness (py_slice_to (business_section rt html) 15000));
    EvLLM (ReqValuation (py_slice_to (valuation_section rt html) 18000));
    EvLLM (ReqPeers (combined_sections (per_section rt html)
                       (peer_section rt html))) ]
  ++ (if need_financials
      then [EvLLM (ReqFinancials
                     (py_slice_to (financial_section rt html) 20000))]
      else []).

(** A run with neither skip flag that finds the company, finds and loads
    a filing in which every section is located, and returns. *)
Definition complete_run (rt : runtime) (e : env) (company_name : pystr)
    (c3 : pydict) (html : pystr) (out : pydict) (t : list event) : Prop :=
  exists (corp_code : pyval) (rcept : pystr) (c2 : pydict) (dir : list file),
    step1 e company_name = ([], Ok (Some corp_code)) /\
    step2 e corp_code ∅ = ([], Ok (Some rcept, c2)) /\
    snd (step3 e company_name c2) = Ok c3 /\
    nonempty rcept = true /\
    download_document e rcept = Ok (Some dir) /\
    html = load_filing_html dir /\
    sections_located rt html = true /\
    run_pipeline rt e company_name false false = (t, Ok (Some out)).

(** The reading under test: a complete run calls the model four times. *)
Definition calls_llm_four_times (rt : runtime) (e : env)
    (company_name : pystr) : Prop :=
  forall c3 html out t,
    complete_run rt e company_name c3 html out t ->
    length (llm_calls t) = 4%nat.

(** The reading under test: the fallback extractor is entered exactly
    when financials are needed. *)
Definition invoked_iff_needed (rt : runtime) (e : env) (dir : list file)
    (need_financials : bool) : Prop :=
  financials_invoked (fst (parse_full_filing rt e dir need_financials)) <->
  need_financials = true.

(** *** Environments for the examples *)

(** Nothing is known, nothing answers; what is written is accepted. *)
Definition quiet_env : env :=
  {| search_corp_code := fun _ => Ok None;
     get_company_info := fun _ => Ok None;
     search_filings := fun _ => Ok [];
     get_equity_registration := fun _ => Ok None;
     parse_equity_registration := fun d => Ok d;
     get_financials_multi_year := fun _ => Ok ∅;
     build_financial_summary := fun _ => Ok [];
     search_38 := fun _ => Ok None;
     download_document := fun _ => Ok None;
     llm := fun _ => Ok [];
     extract_json := fun _ => PNone;
     make_reports_dir := Ok tt;
     sheet_title := fun _ => Ok tt;
     cell_value := fun _ => Ok tt;
     write_file := fun _ => Ok tt |}.

(** A filing in which every keyword list has a TITLE. *)
Definition full_html : pystr :=
  py "<TITLE>보호예수</TITLE><TITLE>II. 사업의 내용</TITLE><TITLE>인수인의 의견</TITLE><TITLE>비교기업 현황</TITLE><TITLE>적용 PER</TITLE><TITLE>재무제표</TITLE>".

Definition full_dir : list file :=
  [ {| f_name := py "main.xml"; f_utf8 := Ok full_html;
       f_euckr := Ok full_html |} ].

Definition acme : pystr := py "ACME".

Definition acme_corp : pydict :=
  <[py "corp_code" := PStr (py "00126380")]>
    (<[py "corp_name" := PStr acme]> ∅).

Definition acme_filing : filing :=
  {| report_nm := py "[기재정정]증권신고서(지분증권)";
     rcept_no := py "20250101000001";
     rcept_dt := py "20250101" |}.

(** DART knows the company and its filing, has no financials; the
    crawler fails; the model answers with text that holds no JSON; the
    directory, the sheet and the files can be written. *)
Definition full_env : env :=
  {| search_corp_code := fun _ => Ok (Some acme_corp);
     get_company_info := fun _ => Ok None;
     search_filings := fun _ => Ok [acme_filing];
     get_equity_registration := fun _ => Ok None;
     parse_equity_registration := fun d => Ok d;
     get_financials_multi_year := fun _ => Ok ∅;
     build_financial_summary := fun _ => Ok [];
     search_38 := fun _ => Raise (External 503);
     download_document := fun _ => Ok (Some full_dir);
     llm := fun _ => Ok (py "report");
     extract_json := fun _ => PNone;
     make_reports_dir := Ok tt;
     sheet_title := fun _ => Ok tt;
     cell_value := fun _ => Ok tt;
     write_file := fun _ => Ok tt |}.

(** The run of [full_env] up to the outputs. *)
Definition acme_code : pyval := PStr (py "00126380").

Definition acme_collected : pydict :=
  Eval vm_compute in
    match snd (collect ascii_runtime full_env acme_code acme false false) with
    | Ok ca => fst ca
    | Raise _ => ∅
    end.

Definition acme_trace : list event :=
  Eval vm_compute in
    fst (collect ascii_runtime full_env acme_code acme false false).

(** The data after steps 2 and 3 of that run, and the whole run. *)
Definition acme_c2 : pydict :=
  Eval vm_compute in
    match snd (step2 full_env acme_code ∅) with
    | Ok rc => snd rc
    | Raise _ => ∅
    end.

Definition acme_c3 : pydict :=
  Eval vm_compute in
    match snd (step3 full_env acme acme_c2) with
    | Ok c => c
    | Raise _ => ∅
    end.

Definition acme_out : pydict :=
  Eval vm_compute in
    match snd (run_pipeline ascii_runtime full_env acme false false) with
    | Ok (Some out) => out
    | _ => ∅
    end.

Definition acme_run_trace : list event :=
  Eval vm_compute in
    fst (run_pipeline ascii_runtime full_env acme false false).

(** *** A run whose crawl fails *)

(** The run in which step 3 only asks the crawler: steps 4, 5 and 6 work
    on the data that step 2 collected. *)
Definition run_without_crawler_data (rt : runtime) (e : env)
    (company_name : pystr) (skip_filing skip_analysis : bool)
  : M (option pydict) :=
  let* corp_code := step1 e company_name in
  match corp_code with
  | None => ret None
  | Some corp_code =>
    let* rc := step2 e corp_code ∅ in
    emit (EvCrawl company_name) ;;;
    let* collected := step4 rt e skip_filing (fst rc) (snd rc) in
    let* ca := step5 e skip_analysis company_name collected in
    let* collected := step6 e company_name (fst ca) (snd ca) in
    ret (Some collected)
  end.

(** *** A run whose report cannot be written *)

(** The model answers the request for the lock-up schedule with a JSON
    object in place of the array of rows; everything else is as in
    [full_env]. The reply is the text of the object, with its key
    between double quotes (code point 34); it parses to a dict with one
    key. *)
Definition object_text : pystr :=
  py "{" ++ [34%N] ++ py "lockup_schedule" ++ [34%N] ++ py ": []}".

Definition object_reply (r : llm_request) : pystr :=
  match r with
  | ReqLockup _ => object_text
  | _ => py "report"
  end.

Definition object_json (reply : pystr) : pyval :=
  if bool_decide (reply = object_text)
  then PDict (<[py "lockup_schedule" := PList []]> ∅)
  else PNone.

Definition object_env : env :=
  {| search_corp_code := fun _ => Ok (Some acme_corp);
     get_company_info := fun _ => Ok None;
     search_filings := fun _ => Ok [acme_filing];
     get_equity_registration := fun _ => Ok None;
     parse_equity_registration := fun d => Ok d;
     get_financials_multi_year := fun _ => Ok ∅;
     build_financial_summary := fun _ => Ok [];
     search_38 := fun _ => Ok None;
     download_document := fun _ => Ok (Some full_dir);
     llm := fun r => Ok (object_reply r);
     extract_json := object_json;
     make_reports_dir := Ok tt;
     sheet_title := fun _ => Ok tt;
     cell_value := fun _ => Ok tt;
     write_file := fun _ => Ok tt |}.

Definition object_collected : pydict :=
  Eval vm_compute in
    match snd (collect ascii_runtime object_env acme_code acme false false) with
    | Ok ca => fst ca
    | Raise _ => ∅
    end.

Definition object_trace : list event :=
  Eval vm_compute in
    fst (collect ascii_runtime object_env acme_code acme false false).

(** *** The extractors before the fallback *)

(** The three extractors that [parse_full_filing] calls first return,
    and so does the progress line after the first, which takes the
    length of a truthy lock-up schedule. *)
Definition earlier_steps_return (rt : runtime) (e : env) (html : pystr)
  : Prop :=
  exists lockup business valuation,
    snd (extract_lockup_schedule rt e html) = Ok lockup /\
    (truthy lockup = true -> exists n, py_len_val lockup = Ok n) /\
    snd (extract_business_summary rt e html) = Ok business /\
    snd (extract_peer_valuation rt e html) = Ok valuation.

(** The model fails on the request of the fallback extractor. *)
Definition failing_fallback_env : env :=
  {| search_corp_code := fun _ => Ok (Some acme_corp);
     get_company_info := fun _ => Ok None;
     search_filings := fun _ => Ok [acme_filing];
     get_equity_registration := fun _ => Ok None;
     parse_equity_registration := fun d => Ok d;
     get_financials_multi_year := fun _ => Ok ∅;
     build_financial_summary := fun _ => Ok [];
     search_38 := fun _ => Ok None;
     download_document := fun _ => Ok (Some full_dir);
     llm := fun r => match r with
                     | ReqFinancials _ => Raise (External 529)
                     | _ => Ok (py "report")
                     end;
     extract_json := fun _ => PNone;
     make_reports_dir := Ok tt;
     sheet_title := fun _ => Ok tt;
     cell_value := fun _ => Ok tt;
     write_file := fun _ => Ok tt |}.

(** Step 4 on data that already holds financials from DART. *)
Definition dart_financials : pyval :=
  PList [PDict (<[py "year" := PStr (py "2024")]>
                  (<[py "revenue" := PInt 100]> ∅))].

Definition dart_collected : pydict :=
  <[py "financials" := dart_financials]> acme_c3.

Definition dart_trace : list event :=
  Eval vm_compute in
    fst (step4 ascii_runtime full_env false (Some (rcept_no acme_filing))
           dart_collected).

Definition dart_after : pydict :=
  Eval vm_compute in
    match snd (step4 ascii_runtime full_env false (Some (rcept_no acme_filing))
                 dart_collected) with
    | Ok c => c
    | Raise _ => ∅
    end.

End PipelineSpec.

(* ================================================================== *)
(** * Properties *)
(* ================================================================== *)

(** ** The error monad *)

Lemma bind_Ok {A B} (m : res A) (f : A -> res B) (b : B) :
  (m ≫= f) = Ok b -> exists a, m = Ok a /\ f a = Ok b.
Proof. destruct m as [a|e]; simpl; [eauto | discriminate]. Qed.

Lemma bind_Raise {A B} (m : res A) (f : A -> res B) (e : exn) :
  (m ≫= f) = Raise e -> m = Raise e \/ exists a, m = Ok a /\ f a = Raise e.
Proof. destruct m as [a|e']; simpl; [eauto | intros [= ->]; auto]. Qed.

Lemma fold_res_never {A B} (f : A -> B -> res A) (e : exn) (l : list B) :
  (forall a b, f a b <> Raise e) -> forall a, fold_res f a l <> Raise e.
Proof.
  intros Hf. induction l as [|b l IH]; intros a; simpl; [discriminate|].
  intros H. apply bind_Raise in H as [H | (a' & _ & H)].
  - exact (Hf _ _ H).
  - exact (IH _ H).
Qed.

(** ** Numbers *)

Lemma truthy_ne_zero v : truthy v = true -> py_ne_zero v = true.
Proof.
  destruct v as [| [] | z | q | s | l | d]; simpl; try done;
    unfold py_ne_zero, num_is_zero; simpl; intros H; done.
Qed.

Lemma abs_keeps_nonzero v a n :
  truthy v = true -> py_abs v = Ok a -> as_num a = Some n ->
  num_is_zero n = false.
Proof.
  destruct v as [| [] | z | q | s | l | d]; simpl; try done;
    unfold py_abs; simpl; intros Ht [= <-]; simpl; intros [= <-];
    unfold num_is_zero; simpl; try done.
  - apply negb_true_iff in Ht.
    apply Z.eqb_neq in Ht. apply Z.eqb_neq. lia.
  - apply negb_true_iff in Ht. apply Z.eqb_neq in Ht.
    apply Z.eqb_neq. destruct q as [qn qd]; simpl in *. lia.
Qed.

Lemma truediv_abs_no_zero_division prev_val d a :
  truthy prev_val = true -> py_abs prev_val = Ok a ->
  py_truediv d a <> Raise ZeroDivisionError.
Proof.
  intros Ht Ha. unfold py_truediv.
  destruct (as_num d) as [x|]; [|discriminate].
  destruct (as_num a) as [y|] eqn:Hy; [|discriminate].
  rewrite (abs_keeps_nonzero _ _ _ Ht Ha Hy). discriminate.
Qed.

(** ** The order of strings *)

Lemma str_compare_eq a b : str_compare a b = Eq <-> a = b.
Proof.
  revert b. induction a as [|x a IH]; intros [|y b]; simpl; try done.
  destruct (N.compare_spec x y) as [-> | H | H].
  - rewrite IH. split; [by intros -> | by intros [= ->]].
  - split; [done | intros [= -> _]; lia].
  - split; [done | intros [= -> _]; lia].
Qed.

Lemma str_compare_refl a : str_compare a a = Eq.
Proof. by apply str_compare_eq. Qed.

Lemma str_compare_antisym a b : str_compare b a = CompOpp (str_compare a b).
Proof.
  revert b. induction a as [|x a IH]; intros [|y b]; simpl; try done.
  rewrite (N.compare_antisym x y).
  destruct (x ?= y)%N; simpl; auto.
Qed.

Lemma str_lt_trans a b c : str_lt a b -> str_lt b c -> str_lt a c.
Proof.
  unfold str_lt. revert b c.
  induction a as [|x a IH]; intros [|y b] [|z c]; simpl; try done.
  destruct (N.compare_spec x y) as [-> | Hxy | Hxy]; [| |done].
  - destruct (z ?= y)%N eqn:E; rewrite (N.compare_antisym z y), E; simpl;
      [apply IH | done | done].
  - destruct (N.compare_spec y z) as [-> | Hyz | Hyz]; [| |done].
    + intros _ _. by apply N.compare_lt_iff in Hxy as ->.
    + intros _ _. assert (x < z)%N as ->%N.compare_lt_iff by lia. done.
Qed.

Lemma str_le_refl a : str_le a a.
Proof. unfold str_le. by rewrite str_compare_refl. Qed.

Lemma str_lt_le a b : str_lt a b -> str_le a b.
Proof. unfold str_lt, str_le. by intros ->. Qed.

Lemma str_le_cases a b : str_le a b <-> str_lt a b \/ a = b.
Proof.
  unfold str_le, str_lt. rewrite <- str_compare_eq.
  destruct (str_compare a b); split; intros; try done; auto.
  by destruct H.
Qed.

Lemma str_lt_irrefl a : ~ str_lt a a.
Proof. unfold str_lt. by rewrite str_compare_refl. Qed.

Lemma str_lt_asym a b : str_lt a b -> ~ str_lt b a.
Proof.
  unfold str_lt. intros H. rewrite str_compare_antisym, H. done.
Qed.

Lemma str_le_trans a b c : str_le a b -> str_le b c -> str_le a c.
Proof.
  rewrite !str_le_cases. intros [H1 | ->] [H2 | ->]; auto.
  left. by eapply str_lt_trans.
Qed.

Lemma str_le_antisym a b : str_le a b -> str_le b a -> a = b.
Proof.
  rewrite !str_le_cases. intros [H1 | ->] [H2 | H2]; auto.
  by destruct (str_lt_asym _ _ H1).
Qed.

Lemma str_ltb_lt a b : str_ltb a b = true <-> str_lt a b.
Proof. unfold str_ltb, str_lt. by destruct (str_compare a b). Qed.

Lemma str_ltb_ge a b : str_ltb a b = false <-> str_le b a.
Proof.
  unfold str_ltb, str_le. rewrite (str_compare_antisym a b).
  by destruct (str_compare a b).
Qed.

#[global] Instance str_le_transitive : Transitive str_le.
Proof. intros a b c. apply str_le_trans. Qed.

#[global] Instance str_lt_transitive : Transitive str_lt.
Proof. intros a b c. apply str_lt_trans. Qed.

(** ** The stable sort *)

Section StableSort.
Context {A : Type} (key : A -> pystr).

#[local] Abbreviation key_ltb := (key_ltb key).
#[local] Abbreviation key_le := (key_le key).

Lemma insert_by_elem_of x y l :
  y ∈ insert_by key_ltb x l <-> y = x \/ y ∈ l.
Proof.
  induction l as [|z l IH]; simpl.
  - rewrite list_elem_of_singleton, elem_of_nil. tauto.
  - destruct (key_ltb z x); rewrite !elem_of_cons, ?IH; tauto.
Qed.

Lemma insert_by_sorted x l :
  StronglySorted key_le l -> StronglySorted key_le (insert_by key_ltb x l).
Proof.
  induction l as [|z l IH]; simpl; intros Hs.
  - repeat constructor.
  - apply StronglySorted_cons in Hs as [Hz Hs].
    destruct (key_ltb z x) eqn:E.
    + apply StronglySorted_cons. split; [|by apply IH].
      apply Forall_forall. intros y Hy.
      apply insert_by_elem_of in Hy as [-> | Hy].
      * apply str_lt_le. by apply str_ltb_lt.
      * rewrite Forall_forall in Hz. by apply Hz.
    + apply str_ltb_ge in E.
      apply StronglySorted_cons. split.
      * constructor; [exact E|].
        eapply Forall_impl; [exact Hz|].
        intros y Hy. unfold key_le in *. by etrans.
      * apply StronglySorted_cons. done.
Qed.

Lemma sort_by_sorted l : StronglySorted key_le (sort_by key_ltb l).
Proof.
  induction l as [|x l IH]; simpl; [constructor|].
  by apply insert_by_sorted.
Qed.

(** Insertion puts [x] in front of the rows of its own key. *)
Lemma insert_by_filter x l y :
  filter (fun r => key r = y) (insert_by key_ltb x l) =
  filter (fun r => key r = y) (x :: l).
Proof.
  induction l as [|z l IH]; simpl; [done|].
  destruct (key_ltb z x) eqn:E; [|done].
  apply str_ltb_lt in E.
  rewrite (filter_cons _ z), IH, !(filter_cons _ x), (filter_cons _ z).
  destruct (decide (key z = y)) as [Hz|Hz];
    destruct (decide (key x = y)) as [Hx|Hx]; try done.
  exfalso. unfold str_lt in E. rewrite Hz, Hx, str_compare_refl in E. done.
Qed.

Lemma sort_by_filter l y :
  filter (fun r => key r = y) (sort_by key_ltb l) =
  filter (fun r => key r = y) l.
Proof.
  induction l as [|x l IH]; simpl; [done|].
  rewrite insert_by_filter, !filter_cons, IH. done.
Qed.

Lemma insert_by_perm x l : insert_by key_ltb x l ≡ₚ x :: l.
Proof.
  induction l as [|z l IH]; simpl; [done|].
  destruct (key_ltb z x); [|done].
  rewrite IH. apply Permutation_swap.
Qed.

Lemma sort_by_perm l : sort_by key_ltb l ≡ₚ l.
Proof.
  induction l as [|x l IH]; simpl; [done|].
  by rewrite insert_by_perm, IH.
Qed.

Lemma sort_by_elem_of l x : x ∈ sort_by key_ltb l <-> x ∈ l.
Proof. by rewrite sort_by_perm. Qed.

(** A list ordered by the key is determined by the rows it holds for
    every key. *)
Lemma sorted_filter_unique l1 l2 :
  StronglySorted key_le l1 -> StronglySorted key_le l2 ->
  (forall y, filter (fun r => key r = y) l1 =
             filter (fun r => key r = y) l2) ->
  l1 = l2.
Proof.
  revert l2. induction l1 as [|x l1 IH]; intros l2 Hs1 Hs2 Hf.
  - destruct l2 as [|z l2]; [done|].
    specialize (Hf (key z)). rewrite filter_nil, filter_cons_True in Hf; done.
  - destruct l2 as [|z l2].
    { specialize (Hf (key x)).
      rewrite filter_nil, filter_cons_True in Hf; done. }
    apply StronglySorted_cons in Hs1 as [Hx Hs1].
    apply StronglySorted_cons in Hs2 as [Hz Hs2].
    rewrite Forall_forall in Hx, Hz.
    assert (Hkey : key x = key z).
    { apply str_le_antisym.
      - assert (Hin : z ∈ x :: l1).
        { assert (Hin' : z ∈ filter (fun r => key r = key z) (x :: l1)).
          { rewrite Hf, filter_cons_True by done. by left. }
          by apply list_elem_of_filter in Hin' as [_ ?]. }
        apply elem_of_cons in Hin as [-> | Hin];
          [apply str_le_refl | by apply Hx].
      - assert (Hin : x ∈ z :: l2).
        { assert (Hin' : x ∈ filter (fun r => key r = key x) (z :: l2)).
          { rewrite <- Hf, filter_cons_True by done. by left. }
          by apply list_elem_of_filter in Hin' as [_ ?]. }
        apply elem_of_cons in Hin as [-> | Hin];
          [apply str_le_refl | by apply Hz]. }
    assert (Hxz : x = z).
    { specialize (Hf (key x)).
      rewrite filter_cons_True in Hf by done.
      rewrite filter_cons_True in Hf by done.
      by injection Hf. }
    subst z. f_equal. apply IH; [done | done |].
    intros y. specialize (Hf y). rewrite !filter_cons in Hf.
    destruct (decide (key x = y)); [by injection Hf | done].
Qed.

End StableSort.

(* ================================================================== *)
(** ** parsers/financial.py: calc_growth_rates *)
(* ================================================================== *)

Module FinancialProofs.
Import Financial FinancialSpec.

Lemma yoy_key_inj f g : yoy_key f = yoy_key g -> f = g.
Proof. unfold yoy_key. apply app_inv_tail. Qed.

Lemma growth_fields_cases f :
  f ∈ growth_fields ->
  f = py "revenue" \/ f = py "operating_income" \/ f = py "net_income".
Proof.
  unfold growth_fields. rewrite !elem_of_cons, elem_of_nil. tauto.
Qed.

(** No growth field is itself a key that the loop writes. *)
Lemma field_not_yoy f : f ∈ growth_fields -> not_yoy_key f.
Proof.
  intros Hf g Hg.
  apply growth_fields_cases in Hf as [-> | [-> | ->]];
    apply growth_fields_cases in Hg as [-> | [-> | ->]];
    vm_compute; discriminate.
Qed.

Lemma growth_fields_NoDup : NoDup growth_fields.
Proof.
  unfold growth_fields. repeat constructor;
    rewrite ?elem_of_cons, ?elem_of_nil; vm_compute; intuition discriminate.
Qed.

Lemma py_get_insert_ne (d : pydict) k k' v :
  k <> k' -> py_get (<[k := v]> d) k' = py_get d k'.
Proof. intros H. unfold py_get. by rewrite lookup_insert_ne. Qed.

(** One field: what [grow_field] returns. *)
Lemma grow_field_Ok prev curr f curr' :
  grow_field prev curr f = Ok curr' ->
  if yoy_condition prev curr f
  then exists yoy, yoy_value prev curr f = Ok yoy /\
                   curr' = <[yoy_key f := yoy]> curr
  else curr' = curr.
Proof.
  unfold grow_field, yoy_condition, yoy_value.
  destruct (truthy (py_get prev f)) eqn:Hp; simpl.
  - destruct (truthy (py_get curr f)) eqn:Hc; simpl.
    + rewrite (truthy_ne_zero _ Hp).
      intros H. apply bind_Ok in H as (d & Hd & H).
      apply bind_Ok in H as (a & Ha & H).
      apply bind_Ok in H as (yoy & Hy & H).
      injection H as <-. exists yoy. rewrite Hd, Ha. simpl. auto.
    + by intros [= <-].
  - by intros [= <-].
Qed.

Lemma grow_field_no_zero_division prev curr f :
  grow_field prev curr f <> Raise ZeroDivisionError.
Proof.
  unfold grow_field.
  destruct (truthy (py_get prev f)) eqn:Hp; simpl; [|discriminate].
  destruct (truthy (py_get curr f)); simpl; [|discriminate].
  destruct (py_ne_zero (py_get prev f)); [|discriminate].
  intros H. apply bind_Raise in H as [H | (d & Hd & H)].
  { unfold py_sub in H. repeat case_match; discriminate. }
  apply bind_Raise in H as [H | (a & Ha & H)].
  { unfold py_abs in H. repeat case_match; discriminate. }
  apply bind_Raise in H as [H | (y & _ & H)]; [|discriminate].
  exact (truediv_abs_no_zero_division _ _ _ Hp Ha H).
Qed.

(** The inner loop over a list of fields without repetition. *)
Lemma grow_fields_Ok prev fs :
  NoDup fs -> (forall f, f ∈ fs -> f ∈ growth_fields) ->
  forall curr curr',
    fold_res (grow_field prev) curr fs = Ok curr' ->
    (forall k, (forall f, f ∈ fs -> k <> yoy_key f) -> curr' !! k = curr !! k) /\
    (forall f, f ∈ fs ->
       if yoy_condition prev curr f
       then exists yoy, yoy_value prev curr f = Ok yoy /\
                        curr' !! yoy_key f = Some yoy
       else curr' !! yoy_key f = curr !! yoy_key f).
Proof.
  induction fs as [|f0 fs IH]; intros Hnd Hsub curr curr'; simpl.
  { intros [= <-]. split; [done|]. intros f Hf. by apply elem_of_nil in Hf. }
  apply NoDup_cons in Hnd as [Hf0 Hnd].
  intros H. apply bind_Ok in H as (c1 & H1 & H).
  assert (Hsub' : forall f, f ∈ fs -> f ∈ growth_fields)
    by (intros f Hf; apply Hsub; by right).
  destruct (IH Hnd Hsub' _ _ H) as [IHk IHf]. clear IH.
  assert (Hf0g : f0 ∈ growth_fields) by (apply Hsub; by left).
  apply grow_field_Ok in H1.
  (* what the first step leaves unchanged *)
  assert (Hc1 : forall k, k <> yoy_key f0 -> c1 !! k = curr !! k).
  { intros k Hk. destruct (yoy_condition prev curr f0).
    - destruct H1 as (yoy & _ & ->). by rewrite lookup_insert_ne.
    - by subst. }
  assert (Hget : forall f, f ∈ growth_fields -> py_get c1 f = py_get curr f).
  { intros f Hf. unfold py_get. rewrite Hc1; [done|].
    by apply field_not_yoy. }
  split.
  - intros k Hk. rewrite IHk.
    + apply Hc1, Hk. by left.
    + intros f Hf. apply Hk. by right.
  - intros f Hf. apply elem_of_cons in Hf as [-> | Hf].
    + rewrite IHk.
      * destruct (yoy_condition prev curr f0).
        -- destruct H1 as (yoy & Hy & ->). exists yoy.
           by rewrite lookup_insert_eq.
        -- by subst.
      * intros f Hf Heq. apply yoy_key_inj in Heq. by subst.
    + specialize (IHf f Hf).
      assert (Hne : yoy_key f <> yoy_key f0).
      { intros Heq. apply yoy_key_inj in Heq. by subst. }
      assert (Hcond : yoy_condition prev c1 f = yoy_condition prev curr f).
      { unfold yoy_condition. by rewrite Hget by auto. }
      assert (Hval : yoy_value prev c1 f = yoy_value prev curr f).
      { unfold yoy_value. by rewrite Hget by auto. }
      rewrite Hcond, Hval in IHf. by rewrite <- (Hc1 _ Hne).
Qed.

Lemma grow_fields_grown prev curr curr' :
  fold_res (grow_field prev) curr growth_fields = Ok curr' ->
  row_grown prev curr curr'.
Proof.
  intros H.
  apply (grow_fields_Ok prev growth_fields growth_fields_NoDup) in H;
    [exact H | auto].
Qed.

Lemma row_grown_same_fields prev row row' :
  row_grown prev row row' -> same_fields row' row.
Proof.
  intros [Hk _] f Hf. unfold py_get. rewrite Hk; [done|].
  by apply field_not_yoy.
Qed.

(** The inner loop reads [prev] at the growth fields only. *)
Lemma grow_field_same_prev prev prev' curr f :
  f ∈ growth_fields -> same_fields prev prev' ->
  grow_field prev curr f = grow_field prev' curr f.
Proof. intros Hf Hs. unfold grow_field. by rewrite (Hs f Hf). Qed.

Lemma grow_fields_same_prev prev prev' fs :
  (forall f, f ∈ fs -> f ∈ growth_fields) -> same_fields prev prev' ->
  forall curr,
    fold_res (grow_field prev) curr fs = fold_res (grow_field prev') curr fs.
Proof.
  intros Hsub Hs. induction fs as [|f fs IH]; intros curr; simpl; [done|].
  rewrite (grow_field_same_prev prev prev') by (auto; apply Hsub; by left).
  destruct (grow_field prev' curr f); simpl; [|done].
  apply IH. intros g Hg. apply Hsub. by right.
Qed.

Lemma row_grown_same_prev prev prev' row row' :
  same_fields prev prev' -> row_grown prev row row' -> row_grown prev' row row'.
Proof.
  intros Hs [Hk Hf]. split; [exact Hk|].
  intros f Hfg. specialize (Hf f Hfg).
  unfold yoy_condition, yoy_value in *. by rewrite <- (Hs f Hfg).
Qed.

(** The outer loop from index [a] on. *)
Lemma grow_rows_Ok m :
  forall a s out,
    (1 <= a)%nat -> (a + m = length s)%nat ->
    fold_res grow_row s (seq a m) = Ok out ->
    length out = length s /\
    (forall i, (i < a)%nat -> out !! i = s !! i) /\
    (forall i row prev, (a <= i)%nat ->
       s !! i = Some row -> s !! (i - 1)%nat = Some prev ->
       exists row', out !! i = Some row' /\ row_grown prev row row').
Proof.
  induction m as [|m IH]; intros a s out Ha Hlen; simpl.
  { intros [= <-]. split; [done|]. split; [done|].
    intros i row prev Hi Hrow. apply lookup_lt_Some in Hrow. lia. }
  intros H. apply bind_Ok in H as (s1 & H1 & H).
  unfold grow_row in H1.
  destruct (s !! (a - 1)%nat) as [prev0|] eqn:Hprev0; [|discriminate].
  destruct (s !! a) as [curr0|] eqn:Hcurr0; [|discriminate].
  apply bind_Ok in H1 as (curr' & Hg & [= <-]).
  apply grow_fields_grown in Hg.
  assert (Hlen1 : (S a + m = length (<[a := curr']> s))%nat)
    by (rewrite length_insert; lia).
  destruct (IH (S a) _ _ ltac:(lia) Hlen1 H) as (Hl & Hlt & Hge).
  rewrite length_insert in Hl.
  assert (Halt : (a < length s)%nat) by lia.
  split; [exact Hl|]. split.
  - intros i Hi. rewrite Hlt by lia. apply list_lookup_insert_ne. lia.
  - intros i row prev Hi Hrow Hprev.
    destruct (decide (i = a)) as [-> | Hne].
    + rewrite Hlt by lia. rewrite list_lookup_insert_eq by done.
      exists curr'. split; [done|]. congruence.
    + assert (Hrow1 : <[a := curr']> s !! i = Some row)
        by (rewrite list_lookup_insert_ne by lia; done).
      destruct (decide ((i - 1)%nat = a)) as [Heq | Hne'].
      * assert (Hp1 : <[a := curr']> s !! (i - 1)%nat = Some curr')
          by (rewrite Heq; by apply list_lookup_insert_eq).
        destruct (Hge i row curr' ltac:(lia) Hrow1 Hp1) as (row' & Ho & Hr).
        exists row'. split; [done|].
        rewrite Heq in Hprev. assert (prev = curr0) by congruence. subst prev.
        eapply row_grown_same_prev; [|exact Hr].
        eapply row_grown_same_fields; exact Hg.
      * assert (Hp1 : <[a := curr']> s !! (i - 1)%nat = Some prev)
          by (rewrite list_lookup_insert_ne by lia; done).
        exact (Hge i row prev ltac:(lia) Hrow1 Hp1).
Qed.

Lemma grow_row_no_zero_division s i : grow_row s i <> Raise ZeroDivisionError.
Proof.
  unfold grow_row. destruct (s !! (i - 1)%nat); [|discriminate].
  destruct (s !! i); [|discriminate].
  intros H. apply bind_Raise in H as [H | (c & _ & H)]; [|discriminate].
  revert H. apply fold_res_never. intros; apply grow_field_no_zero_division.
Qed.

(** On rows whose growth fields are numbers or absent the loops run to
    the end. *)
Lemma grow_field_numeric prev curr f :
  f ∈ growth_fields -> numeric_fields prev -> numeric_fields curr ->
  exists curr', grow_field prev curr f = Ok curr'.
Proof.
  intros Hf Hp Hc. unfold grow_field.
  destruct (truthy (py_get prev f)) eqn:Htp; simpl; [|eauto].
  destruct (truthy (py_get curr f)) eqn:Htc; simpl; [|eauto].
  rewrite (truthy_ne_zero _ Htp).
  destruct (Hp f Hf) as [Hn | [x Hx]]; [by rewrite Hn in Htp|].
  destruct (Hc f Hf) as [Hn | [y Hy]]; [by rewrite Hn in Htc|].
  assert (exists d, py_sub (py_get curr f) (py_get prev f) = Ok d /\
                    is_Some (as_num d)) as (d & -> & [dn Hdn]).
  { unfold py_sub. rewrite Hx, Hy. destruct y, x; eauto. }
  assert (exists a, py_abs (py_get prev f) = Ok a) as (a & Ha).
  { unfold py_abs. rewrite Hx. destruct x; eauto. }
  rewrite Ha. simpl.
  assert (exists an, as_num a = Some an) as (an & Han).
  { unfold py_abs in Ha. rewrite Hx in Ha. destruct x; injection Ha as <-; eauto. }
  unfold py_truediv. rewrite Hdn, Han.
  rewrite (abs_keeps_nonzero _ _ _ Htp Ha Han). simpl. eauto.
Qed.

Lemma grow_field_keeps_numeric prev curr f curr' :
  f ∈ growth_fields -> grow_field prev curr f = Ok curr' ->
  numeric_fields curr -> numeric_fields curr'.
Proof.
  intros Hf H Hc g Hg. apply grow_field_Ok in H.
  destruct (yoy_condition prev curr f).
  - destruct H as (yoy & _ & ->).
    rewrite py_get_insert_ne; [auto|].
    intros Heq. exact (field_not_yoy g Hg f Hf (eq_sym Heq)).
  - subst. auto.
Qed.

Lemma grow_fields_numeric prev fs :
  (forall f, f ∈ fs -> f ∈ growth_fields) -> numeric_fields prev ->
  forall curr, numeric_fields curr ->
    exists curr', fold_res (grow_field prev) curr fs = Ok curr' /\
                  numeric_fields curr'.
Proof.
  intros Hsub Hp. induction fs as [|f fs IH]; intros curr Hc; simpl; [eauto|].
  assert (Hf : f ∈ growth_fields) by (apply Hsub; by left).
  destruct (grow_field_numeric prev curr f Hf Hp Hc) as (c1 & H1).
  rewrite H1. simpl. apply IH.
  - intros g Hg. apply Hsub. by right.
  - eapply grow_field_keeps_numeric; eauto.
Qed.

Lemma grow_rows_numeric m :
  forall a s,
    (1 <= a)%nat -> (a + m = length s)%nat ->
    Forall numeric_fields s ->
    exists out, fold_res grow_row s (seq a m) = Ok out.
Proof.
  induction m as [|m IH]; intros a s Ha Hlen Hall; [simpl; eauto|].
  cbn [seq fold_res].
  destruct (lookup_lt_is_Some_2 s (a - 1)%nat ltac:(lia)) as [prev Hprev].
  destruct (lookup_lt_is_Some_2 s a ltac:(lia)) as [curr Hcurr].
  assert (exists s1, grow_row s a = Ok s1 /\ Forall numeric_fields s1 /\
                     length s1 = length s) as (s1 & -> & Hall1 & Hlen1).
  { unfold grow_row. rewrite Hprev, Hcurr.
    rewrite Forall_lookup in Hall.
    destruct (grow_fields_numeric prev growth_fields ltac:(auto)
                (Hall _ _ Hprev) curr (Hall _ _ Hcurr)) as (curr' & Hg & Hn).
    rewrite Hg. simpl. eexists. split; [done|]. split.
    - apply Forall_insert; [by apply Forall_lookup | done].
    - apply length_insert. }
  simpl. apply IH; [lia | lia | done].
Qed.

Lemma calc_growth_rates_numeric summary :
  Forall numeric_fields summary ->
  exists out, calc_growth_rates summary = Ok out.
Proof.
  intros Hall. unfold calc_growth_rates.
  destruct summary as [|r0 rest]; [simpl; eauto|].
  apply grow_rows_numeric; simpl; [lia | lia | done].
Qed.

Lemma calc_growth_rates_length summary out :
  calc_growth_rates summary = Ok out -> length out = length summary.
Proof.
  unfold calc_growth_rates. destruct summary as [|r0 rest].
  { by intros [= <-]. }
  intros H. apply grow_rows_Ok in H; simpl; [tauto | lia | lia].
Qed.

(** Row 0 is returned as it was. *)
Lemma calc_growth_rates_first summary out :
  calc_growth_rates summary = Ok out -> out !! 0%nat = summary !! 0%nat.
Proof.
  unfold calc_growth_rates. destruct summary as [|r0 rest].
  { by intros [= <-]. }
  intros H. apply grow_rows_Ok in H; simpl; [|lia|lia].
  destruct H as (_ & Hlt & _). apply Hlt. lia.
Qed.

(** Row [i + 1] is grown from the values of row [i]. *)
Lemma calc_growth_rates_next summary out i prev row :
  calc_growth_rates summary = Ok out ->
  summary !! i = Some prev -> summary !! S i = Some row ->
  exists row', out !! S i = Some row' /\ row_grown prev row row'.
Proof.
  unfold calc_growth_rates. destruct summary as [|r0 rest].
  { intros _ H. by rewrite lookup_nil in H. }
  intros H Hp Hr. apply grow_rows_Ok in H; simpl; [|lia|lia].
  destruct H as (_ & _ & Hge).
  apply (Hge (S i) row prev); [lia | done |].
  by replace (S i - 1)%nat with i by lia.
Qed.

(** Every year of the result is the year of the row at that place. *)
Lemma calc_growth_rates_keeps_key summary out k :
  not_yoy_key k ->
  calc_growth_rates summary = Ok out ->
  forall i row row', summary !! i = Some row -> out !! i = Some row' ->
    row' !! k = row !! k.
Proof.
  intros Hk H i row row' Hrow Hrow'. destruct i as [|i].
  - apply calc_growth_rates_first in H. congruence.
  - destruct (lookup_lt_is_Some_2 summary i) as [prev Hprev].
    { apply lookup_lt_Some in Hrow. lia. }
    destruct (calc_growth_rates_next _ _ _ _ _ H Hprev Hrow)
      as (r & Hr & [Hkeep _]).
    assert (r = row') by congruence. subst r. by apply Hkeep.
Qed.

End FinancialProofs.

Module FinancialClaims.
Import Financial FinancialSpec FinancialProofs.

Lemma sample_rows_grown : calc_growth_rates sample_rows = Ok sample_grown.
Proof. vm_compute. reflexivity. Qed.




End FinancialClaims.

(* ================================================================== *)
(** ** parsers/offering.py: merge_offering_data *)
(* ================================================================== *)

Module OfferingProofs.
Import Offering OfferingSpec.

Lemma crawler_key_inj f g : crawler_key f = crawler_key g -> f = g.
Proof. unfold crawler_key. apply app_inv_head. Qed.

Lemma extra_fields_NoDup : NoDup extra_fields.
Proof. apply (bool_decide_unpack (NoDup extra_fields)). vm_compute. exact I. Qed.

Lemma extra_fields_length : length extra_fields = 12%nat.
Proof. reflexivity. Qed.

Lemma truthy_dict_empty (c : pydict) : truthy (PDict c) = false -> c = ∅.
Proof.
  simpl. intros H. apply negb_false_iff, Nat.eqb_eq in H.
  by apply map_size_empty_inv.
Qed.

Lemma merge_field_other c m f k :
  k <> crawler_key f -> merge_field c m f !! k = m !! k.
Proof.
  intros Hk. unfold merge_field.
  destruct (c !! f) as [v|]; [|done].
  destruct (truthy v); [|done]. by rewrite lookup_insert_ne.
Qed.

Lemma merge_field_same c m f :
  merge_field c m f !! crawler_key f =
  match crawler_value (Some c) f with
  | Some v => Some v
  | None => m !! crawler_key f
  end.
Proof.
  unfold merge_field, crawler_value.
  destruct (c !! f) as [v|]; [|done].
  destruct (truthy v); [|done]. by rewrite lookup_insert_eq.
Qed.

Lemma merge_fields_cons c m f fs :
  merge_fields c m (f :: fs) = merge_fields c (merge_field c m f) fs.
Proof. reflexivity. Qed.

Lemma merge_fields_other c fs :
  forall m k, (forall f, f ∈ fs -> k <> crawler_key f) ->
    merge_fields c m fs !! k = m !! k.
Proof.
  induction fs as [|f fs IH]; intros m k Hk; [done|].
  rewrite merge_fields_cons, IH.
  - apply merge_field_other, Hk. by left.
  - intros g Hg. apply Hk. by right.
Qed.

Lemma merge_fields_field c fs :
  NoDup fs ->
  forall m f, f ∈ fs ->
    merge_fields c m fs !! crawler_key f =
    match crawler_value (Some c) f with
    | Some v => Some v
    | None => m !! crawler_key f
    end.
Proof.
  induction fs as [|f0 fs IH]; intros Hnd m f Hf.
  { by apply elem_of_nil in Hf. }
  apply NoDup_cons in Hnd as [Hf0 Hnd].
  rewrite merge_fields_cons.
  apply elem_of_cons in Hf as [-> | Hf].
  - rewrite (merge_fields_other c fs).
    + apply merge_field_same.
    + intros g Hg Heq. apply crawler_key_inj in Heq. by subst.
  - rewrite IH by done.
    destruct (crawler_value (Some c) f); [done|].
    apply merge_field_other. intros Heq. apply crawler_key_inj in Heq.
    by subst.
Qed.

(** The order in which the fields are visited does not matter. *)
Lemma merge_field_comm c m f g :
  merge_field c (merge_field c m f) g = merge_field c (merge_field c m g) f.
Proof.
  destruct (decide (f = g)) as [-> | Hne]; [done|].
  unfold merge_field.
  destruct (c !! f) as [v|]; destruct (c !! g) as [w|]; try done.
  destruct (truthy v); destruct (truthy w); try done.
  apply insert_insert_ne. intros Heq. by apply crawler_key_inj in Heq.
Qed.

Lemma merge_fields_perm c fs fs' :
  fs ≡ₚ fs' -> forall m, merge_fields c m fs = merge_fields c m fs'.
Proof.
  induction 1 as [|x l l' _ IH|x y l|l l' l'' _ IH1 _ IH2]; intros m.
  - done.
  - rewrite !merge_fields_cons. apply IH.
  - rewrite !merge_fields_cons. by rewrite merge_field_comm.
  - by rewrite IH1, IH2.
Qed.

Lemma merge_run_function dart crawler out :
  merge_run dart crawler out -> out = merge_offering_data dart crawler.
Proof.
  intros H. destruct H as [|c Hc|c order Hc Hp]; unfold merge_offering_data.
  - done.
  - by rewrite Hc.
  - rewrite Hc. cbn [negb]. by apply merge_fields_perm.
Qed.

Lemma merge_offering_data_run dart crawler :
  merge_run dart crawler (merge_offering_data dart crawler).
Proof.
  unfold merge_offering_data. destruct crawler as [c|]; [|constructor].
  destruct (truthy (PDict c)) eqn:Hc; cbn [negb].
  - by constructor.
  - by constructor.
Qed.

End OfferingProofs.

Module OfferingClaims.
Import Offering OfferingSpec OfferingProofs.

(** C8, as stated, fails: a key of [dart_data] that is itself one of the
    twelve ['crawler_'] names is overwritten. With dart_data
    [{'crawler_listing_date': '2025-01-01'}] and crawler_data
    [{'listing_date': '2025-02-02'}] the output maps
    ['crawler_listing_date'] to ['2025-02-02']. *)
Lemma merge_offering_data_overwrites_crawler_key :
  ~ keeps_dart_values sample_dart (Some sample_crawler).
Proof.
  intros H.
  specialize (H (py "crawler_listing_date") (PStr (py "2025-01-01"))).
  assert (Hd : sample_dart !! py "crawler_listing_date"
               = Some (PStr (py "2025-01-01"))) by (vm_compute; reflexivity).
  specialize (H Hd).
  assert (Hm : merge_offering_data sample_dart (Some sample_crawler)
                 !! py "crawler_listing_date"
               = Some (PStr (py "2025-02-02"))) by (vm_compute; reflexivity).
  rewrite Hm in H. clear Hd Hm. vm_compute in H. discriminate H.
Qed.

(** C8, amended. For every [dart_data] and [crawler_data]: every key
    that is not ['crawler_' + field] for one of the twelve fields has in
    the output what it has in [dart_data] (its value, or no entry); for
    each of the twelve fields, ['crawler_' + field] maps to the crawler's
    value of the field when that value is present and truthy, and is as
    in [dart_data] otherwise; when [crawler_data] is None or empty the
    output equals [dart_data]. *)
Theorem merge_offering_data_frame (dart_data : pydict)
    (crawler_data : option pydict) :
  let out := merge_offering_data dart_data crawler_data in
  (forall k, not_crawler_key k -> out !! k = dart_data !! k) /\
  (forall f, f ∈ extra_fields ->
     out !! crawler_key f =
     match crawler_value crawler_data f with
     | Some v => Some v
     | None => dart_data !! crawler_key f
     end) /\
  length extra_fields = 12%nat /\
  merge_offering_data dart_data None = dart_data /\
  merge_offering_data dart_data (Some ∅) = dart_data.
Proof.
  cbv zeta. split; [|split; [|split; [|split]]].
  - intros k Hk. unfold merge_offering_data.
    destruct crawler_data as [c|]; [|done].
    destruct (truthy (PDict c)); cbn [negb]; [|done].
    by apply merge_fields_other.
  - intros f Hf. unfold merge_offering_data.
    destruct crawler_data as [c|]; [|done].
    destruct (truthy (PDict c)) eqn:Hc; cbn [negb].
    + by apply merge_fields_field; [apply extra_fields_NoDup|].
    + apply truthy_dict_empty in Hc. subst c.
      unfold crawler_value. by rewrite lookup_empty.
  - exact extra_fields_length.
  - reflexivity.
  - unfold merge_offering_data.
    assert (truthy (PDict (∅ : pydict)) = false) as ->; [|done].
    unfold truthy. by rewrite map_size_empty.
Qed.

End OfferingClaims.

(* ================================================================== *)
(** ** main.py: _convert_filing_financials *)
(* ================================================================== *)

Module ConvertProofs.
Import Financial FinancialSpec FinancialProofs Convert ConvertSpec.

Lemma year_not_yoy : not_yoy_key (py "year").
Proof.
  intros f Hf.
  apply growth_fields_cases in Hf as [-> | [-> | ->]]; vm_compute; discriminate.
Qed.

(** *** The year of a label *)

Lemma dot_char : py "." = [46%N].
Proof. vm_compute. reflexivity. Qed.

Lemma contains_dot (year : pystr) :
  py_contains (py ".") year = bool_decide (is_Some (dot_index year)).
Proof.
  rewrite dot_char. unfold py_contains.
  induction year as [|c rest IH]; [done|].
  cbn [find_in is_prefix dot_index].
  rewrite (N.eqb_sym 46 c).
  destruct (c =? 46)%N; [done|].
  destruct (find_in [46%N] rest) as [i|], (dot_index rest) as [j|];
    cbn in *; try done.
Qed.

Lemma before_dot (year : pystr) (i : nat) :
  dot_index year = Some i -> before_char 46 year = take i year.
Proof.
  revert i. induction year as [|c rest IH]; intros i; [done|].
  cbn [dot_index before_char].
  destruct (c =? 46)%N; [by intros [= <-]|].
  destruct (dot_index rest) as [j|]; [|done].
  intros [= <-]. cbn. f_equal. by apply IH.
Qed.

Lemma dot_index_elem_of (year : pystr) :
  46%N ∈ year -> exists i, dot_index year = Some i.
Proof.
  induction year as [|c rest IH]; [by intros ?%elem_of_nil|].
  cbn [dot_index]. destruct (N.eqb_spec c 46) as [->|Hc]; [eauto|].
  intros [?|Hin]%elem_of_cons; [congruence|].
  destruct (IH Hin) as (i & ->). cbn. eauto.
Qed.

Lemma dot_index_not_elem_of (year : pystr) :
  46%N ∉ year -> dot_index year = None.
Proof.
  induction year as [|c rest IH]; [done|].
  intros [Hc Hrest]%not_elem_of_cons. cbn [dot_index].
  destruct (N.eqb_spec c 46) as [->|_]; [done|].
  by rewrite IH.
Qed.

Lemma dot_index_split (year : pystr) (i : nat) :
  dot_index year = Some i ->
  exists rest, year = take i year ++ 46%N :: rest /\ 46%N ∉ take i year.
Proof.
  revert i. induction year as [|c rest IH]; intros i; [done|].
  cbn [dot_index]. destruct (N.eqb_spec c 46) as [->|Hc].
  - intros [= <-]. exists rest. split; [done|]. cbn. apply not_elem_of_nil.
  - destruct (dot_index rest) as [j|]; [|done]. intros [= <-].
    destruct (IH j eq_refl) as (rest' & Hrest & Hnot).
    exists rest'. cbn [take app]. split; [by rewrite <- Hrest|].
    apply not_elem_of_cons. split; [congruence | done].
Qed.

(** [year_part] cuts a label as the claim words it. *)
Lemma year_part_truncated (year : pystr) :
  year_part year = truncated_year year.
Proof.
  unfold year_part, truncated_year. rewrite contains_dot.
  destruct (dot_index year) as [i|] eqn:E.
  - rewrite bool_decide_eq_true_2 by eauto. by apply before_dot.
  - rewrite bool_decide_eq_false_2 by (by intros [? ?]).
    unfold py_slice_to, py_slice, clamp_index, py_len.
    destruct (Z.leb_spec 4 (Z.of_nat (length year))) as [H|H].
    + cbn [Z.ltb Z.compare]. rewrite Z.min_l by lia.
      replace (Z.min 0 (Z.of_nat (length year))) with 0 by lia.
      by rewrite drop_0.
    + symmetry. apply take_ge. lia.
Qed.

Lemma year_of_to_row rt item : year_of (to_row rt item) = item_year rt item.
Proof.
  unfold year_of, to_row, item_year.
  by rewrite lookup_insert_eq, year_part_truncated.
Qed.

(** A row of [to_row] holds no growth rate yet, and its growth fields
    are those of the item. *)
Lemma to_row_field rt item f :
  f ∈ growth_fields -> py_get (to_row rt item) f = py_get item f.
Proof.
  intros Hf. unfold py_get, to_row.
  apply growth_fields_cases in Hf as [-> | [-> | ->]].
  - rewrite lookup_insert_ne by (vm_compute; discriminate).
    by rewrite lookup_insert_eq.
  - do 2 rewrite lookup_insert_ne by (vm_compute; discriminate).
    by rewrite lookup_insert_eq.
  - do 3 rewrite lookup_insert_ne by (vm_compute; discriminate).
    by rewrite lookup_insert_eq.
Qed.

(** *** The loop that removes repeated years *)

Lemma dedupe_elem_of seen rows r :
  r ∈ dedupe seen rows -> r ∈ rows /\ year_of r ∉ seen.
Proof.
  revert seen. induction rows as [|r0 rows IH]; intros seen; simpl.
  { by intros ?%elem_of_nil. }
  destruct (decide (year_of r0 ∈ seen)) as [Hin | Hout].
  - intros H. apply IH in H as [H1 H2]. split; [by right | done].
  - intros H. apply elem_of_cons in H as [-> | H].
    + split; [by left | done].
    + apply IH in H as [H1 H2]. split; [by right | set_solver].
Qed.

Lemma dedupe_years_elem_of seen rows r :
  r ∈ rows -> year_of r ∉ seen ->
  year_of r ∈ map year_of (dedupe seen rows).
Proof.
  revert seen. induction rows as [|r0 rows IH]; intros seen Hr Hs; simpl.
  { by apply elem_of_nil in Hr. }
  destruct (decide (year_of r0 ∈ seen)) as [Hin | Hout].
  - apply elem_of_cons in Hr as [-> | Hr]; [done|]. by apply IH.
  - simpl. destruct (decide (year_of r = year_of r0)) as [-> | Hne].
    + by left.
    + right. apply elem_of_cons in Hr as [-> | Hr]; [done|].
      apply IH; [done | set_solver].
Qed.

Lemma dedupe_strictly_sorted rows :
  StronglySorted (key_le year_of) rows ->
  forall seen, StronglySorted (key_lt year_of) (dedupe seen rows).
Proof.
  induction 1 as [|r0 rows Hs IH Hall]; intros seen; simpl; [constructor|].
  destruct (decide (year_of r0 ∈ seen)); [apply IH|].
  constructor; [apply IH|].
  apply Forall_forall. intros r Hr.
  apply dedupe_elem_of in Hr as [Hr Hseen].
  rewrite Forall_forall in Hall. specialize (Hall r Hr).
  unfold key_le, key_lt in *. apply str_le_cases in Hall as [Hlt | Heq]; [done|].
  set_solver.
Qed.

(** Every row that is kept is the first row of its year. *)
Lemma dedupe_first seen rows r :
  r ∈ dedupe seen rows -> first_with_year (year_of r) rows = Some r.
Proof.
  unfold first_with_year.
  revert seen. induction rows as [|r0 rows IH]; intros seen; simpl.
  { by intros ?%elem_of_nil. }
  destruct (decide (year_of r0 ∈ seen)) as [Hin | Hout].
  - intros H. pose proof (dedupe_elem_of _ _ _ H) as [_ Hs].
    rewrite filter_cons_False by (intros Heq; by rewrite Heq in Hin).
    by eapply IH.
  - intros H. apply elem_of_cons in H as [-> | H].
    + by rewrite filter_cons_True.
    + pose proof (dedupe_elem_of _ _ _ H) as [_ Hs].
      rewrite filter_cons_False by set_solver.
      by eapply IH.
Qed.

Lemma dedupe_Forall (P : pydict -> Prop) seen rows :
  Forall P rows -> Forall P (dedupe seen rows).
Proof.
  intros H. apply Forall_forall. intros r Hr.
  apply dedupe_elem_of in Hr as [Hr _].
  rewrite Forall_forall in H. by apply H.
Qed.

(** *** Order, distinctness *)

Lemma strictly_sorted_years (rows : list pydict) :
  StronglySorted (key_lt year_of) rows ->
  StronglySorted str_lt (map year_of rows).
Proof. apply (StronglySorted_fmap year_of). auto. Qed.

Lemma strictly_sorted_NoDup (ys : list pystr) :
  StronglySorted str_lt ys -> NoDup ys.
Proof.
  induction 1 as [|y ys Hs IH Hall]; constructor; [|done].
  intros Hin. rewrite Forall_forall in Hall.
  exact (str_lt_irrefl _ (Hall _ Hin)).
Qed.

(** *** The growth rates leave the rest of every row alone *)

Lemma finish_rows unique out :
  finish unique = Ok out -> Forall2 same_but_yoy unique out.
Proof.
  intros H.
  assert (Hc : calc_growth_rates unique = Ok out).
  { destruct unique; [|exact H]. injection H as <-. reflexivity. }
  apply Forall2_same_length_lookup_2.
  - symmetry. by apply calc_growth_rates_length.
  - intros i row row' Hr Hr' k Hk.
    by eapply calc_growth_rates_keeps_key.
Qed.

Lemma same_but_yoy_year row row' :
  same_but_yoy row row' -> year_of row' = year_of row.
Proof. intros H. unfold year_of. by rewrite (H _ year_not_yoy). Qed.

Lemma finish_years unique out :
  finish unique = Ok out -> map year_of out = map year_of unique.
Proof.
  intros H. apply finish_rows in H.
  induction H as [|r r' unique out Hr _ IH]; simpl; [done|].
  by rewrite IH, (same_but_yoy_year _ _ Hr).
Qed.

Lemma finish_numeric unique :
  Forall numeric_fields unique -> exists out, finish unique = Ok out.
Proof.
  intros H. destruct unique as [|r unique]; [by exists []|].
  by apply calc_growth_rates_numeric.
Qed.

(** *** The sort is the only stable sort *)

Lemma sort_by_stable rows :
  stable_sorted rows (sort_by (key_ltb year_of) rows).
Proof. split; [apply sort_by_sorted | apply sort_by_filter]. Qed.

Lemma stable_sorted_unique rows s1 s2 :
  stable_sorted rows s1 -> stable_sorted rows s2 -> s1 = s2.
Proof.
  intros [H1 F1] [H2 F2].
  apply (sorted_filter_unique year_of); [done | done |].
  intros y. by rewrite F1, F2.
Qed.

Lemma convert_run_function rt filing_fin out :
  convert_run rt filing_fin out ->
  out = _convert_filing_financials rt filing_fin.
Proof.
  intros (sorted & Hs & ->). unfold _convert_filing_financials.
  by rewrite (stable_sorted_unique _ _ _ Hs (sort_by_stable _)).
Qed.

Lemma _convert_filing_financials_run rt filing_fin :
  convert_run rt filing_fin (_convert_filing_financials rt filing_fin).
Proof. eexists. split; [apply sort_by_stable | done]. Qed.

(** The sort is stable: the first row of a year after the sort is the
    row of the first item of that year in the given order. *)
Lemma first_row_of_first_item (rt : runtime) (y : pystr)
    (filing_fin : list pydict) :
  first_with_year y (sorted_rows rt filing_fin)
  = to_row rt <$> first_item_with_year rt y filing_fin.
Proof.
  unfold first_with_year, first_item_with_year, sorted_rows.
  rewrite sort_by_filter.
  induction filing_fin as [|item rest IH]; [done|].
  cbn [map]. rewrite !filter_cons, year_of_to_row.
  by destruct (decide (item_year rt item = y)).
Qed.

End ConvertProofs.

Module ConvertClaims.
Import Financial FinancialSpec FinancialProofs Convert ConvertSpec ConvertProofs.
Import Offering OfferingSpec OfferingProofs.


Lemma dated_items_converted :
  _convert_filing_financials ascii_runtime dated_items = Ok dated_converted.
Proof. vm_compute. reflexivity. Qed.


(** C4. Two runs of [merge_offering_data] on the same inputs return the
    same dictionary, in whatever order the twelve fields are visited;
    two runs of [_convert_filing_financials] on the same list return the
    same result, whatever stable sort orders the rows. The results are
    those of the two functions. *)
Theorem merge_and_convert_deterministic (rt : runtime)
    (dart_data : pydict) (crawler_data : option pydict)
    (filing_fin : list pydict) (m1 m2 : pydict) (r1 r2 : res (list pydict)) :
  merge_run dart_data crawler_data m1 ->
  merge_run dart_data crawler_data m2 ->
  convert_run rt filing_fin r1 ->
  convert_run rt filing_fin r2 ->
  m1 = m2 /\ r1 = r2 /\
  m1 = merge_offering_data dart_data crawler_data /\
  r1 = _convert_filing_financials rt filing_fin.
Proof.
  intros Hm1 Hm2 Hr1 Hr2.
  apply merge_run_function in Hm1, Hm2.
  apply convert_run_function in Hr1, Hr2.
  by subst.
Qed.

Lemma sample_crawler_truthy : truthy (PDict sample_crawler) = true.
Proof. vm_compute. reflexivity. Qed.

Lemma merge_and_convert_deterministic_witness :
  merge_fields sample_crawler sample_dart extra_fields =
  merge_fields sample_crawler sample_dart (reverse extra_fields) /\
  _convert_filing_financials ascii_runtime sample_items =
  _convert_filing_financials ascii_runtime sample_items.
Proof.
  destruct (merge_and_convert_deterministic ascii_runtime
              sample_dart (Some sample_crawler) sample_items
              (merge_fields sample_crawler sample_dart extra_fields)
              (merge_fields sample_crawler sample_dart (reverse extra_fields))
              (_convert_filing_financials ascii_runtime sample_items)
              (_convert_filing_financials ascii_runtime sample_items))
    as (Hm & Hr & _ & _).
  - apply merge_run_fields; [exact sample_crawler_truthy | reflexivity].
  - apply merge_run_fields;
      [exact sample_crawler_truthy | apply reverse_Permutation].
  - apply _convert_filing_financials_run.
  - apply _convert_filing_financials_run.
  - exact (conj Hm Hr).
Defined.

End ConvertClaims.

(* ================================================================== *)
(** ** parsers/llm_parser.py: load_filing_html *)
(* ================================================================== *)

Module LoadingProofs.
Import LLMParser LoadingSpec Extractors.

Lemma add_files_blocks files :
  forall combined,
    foldl add_file combined files = combined ++ concat (map block_of files).
Proof.
  induction files as [|f files IH]; intros combined; simpl.
  { by rewrite app_nil_r. }
  rewrite IH. unfold add_file, block_of.
  destruct (read_text f); [by rewrite <- app_assoc | done].
Qed.

Lemma sorted_paths_nil files : sorted_paths files = [] <-> files = [].
Proof.
  unfold sorted_paths. split; [|by intros ->].
  intros H. apply Permutation_nil_r. rewrite <- H.
  symmetry. apply sort_by_perm.
Qed.

Lemma nonempty_choice {A} (l x : list A) :
  l <> [] -> match l with [] => x | _ => l end = l.
Proof. by destruct l. Qed.

Lemma load_filing_html_chosen dir :
  load_filing_html dir = concat (map block_of (chosen_files dir)).
Proof.
  unfold load_filing_html, chosen_files.
  rewrite add_files_blocks. cbn [app]. f_equal. f_equal.
  destruct (glob (py ".html") dir) as [|h html] eqn:Hh.
  - destruct (glob (py ".htm") dir) as [|h' htm] eqn:Hm; [done|].
    cbv beta iota zeta. apply nonempty_choice.
    change (sorted_paths [] ++ ?l) with l.
    intros E. apply (proj1 (sorted_paths_nil _)) in E. discriminate E.
  - cbv beta iota zeta. apply nonempty_choice.
    intros E. apply app_eq_nil in E as [E _].
    apply (proj1 (sorted_paths_nil _)) in E. discriminate E.
Qed.

Lemma parse_full_filing_empty rt e dir need_financials :
  load_filing_html dir = [] ->
  parse_full_filing rt e dir need_financials = ret ∅.
Proof. intros H. unfold parse_full_filing. by rewrite H. Qed.

End LoadingProofs.

Module LoadingClaims.
Import LLMParser LoadingSpec Extractors LoadingProofs.

(** C7, as stated, fails: the [*.html] files come before the [*.htm]
    files, each group in the order of its names. A directory with
    [b.html] and [a.htm] is read as [b.html], [a.htm]. *)
Lemma load_filing_html_not_one_order : ~ reads_in_name_order sample_dir.
Proof. unfold reads_in_name_order. vm_compute. discriminate. Qed.

(** C7, amended. [load_filing_html] returns the concatenation of the
    blocks of the chosen files, where the block of a readable file is a
    ['<!-- FILE: name -->'] header followed by its content and the block
    of an unreadable file is empty. The chosen files are the [*.html]
    files in the order of their names followed by the [*.htm] files in
    the order of their names; the [*.xml] files in the order of their
    names are chosen instead exactly when the directory has no [*.html]
    and no [*.htm] file. A directory with none of the three yields the
    empty string, and [parse_full_filing] then returns an empty
    dictionary without calling anything. *)
Theorem load_filing_html_files (rt : runtime) (e : env) (dir : list file)
    (need_financials : bool) :
  let html := glob (py ".html") dir in
  let htm := glob (py ".htm") dir in
  let xml := glob (py ".xml") dir in
  load_filing_html dir = concat (map block_of (chosen_files dir)) /\
  (html = [] /\ htm = [] -> chosen_files dir = sorted_paths xml) /\
  (~ (html = [] /\ htm = []) ->
     chosen_files dir = sorted_paths html ++ sorted_paths htm) /\
  (forall fs, fs = html \/ fs = htm \/ fs = xml ->
     StronglySorted (key_le f_name) (sorted_paths fs) /\
     sorted_paths fs ≡ₚ fs) /\
  (html = [] /\ htm = [] /\ xml = [] ->
     load_filing_html dir = [] /\
     parse_full_filing rt e dir need_financials = ([], Ok ∅)).
Proof.
  cbv zeta. split; [apply load_filing_html_chosen|].
  split; [|split; [|split]].
  - intros [Hh Hm]. unfold chosen_files. by rewrite Hh, Hm.
  - intros Hne. unfold chosen_files.
    destruct (glob (py ".html") dir); [|done].
    destruct (glob (py ".htm") dir); [|done]. by destruct Hne.
  - intros fs _. split; [apply sort_by_sorted | apply sort_by_perm].
  - intros (Hh & Hm & Hx).
    assert (Hl : load_filing_html dir = []).
    { rewrite load_filing_html_chosen. unfold chosen_files.
      by rewrite Hh, Hm, Hx. }
    split; [exact Hl | by apply parse_full_filing_empty].
Qed.

Lemma load_filing_html_files_witness :
  (load_filing_html [] = [] /\
   parse_full_filing ascii_runtime PipelineSpec.quiet_env [] true
   = ([], Ok ∅)) /\
  load_filing_html sample_dir =
  concat (map block_of (sorted_paths (glob (py ".html") sample_dir)
                        ++ sorted_paths (glob (py ".htm") sample_dir))).
Proof.
  split.
  - eapply (load_filing_html_files ascii_runtime _ [] true).
    repeat split; reflexivity.
  - destruct (load_filing_html_files ascii_runtime PipelineSpec.quiet_env
                sample_dir true) as (Hload & _ & Hhtml & _).
    rewrite Hload, Hhtml; [reflexivity|].
    intros [H _]. vm_compute in H. discriminate H.
Defined.

End LoadingClaims.

(* ================================================================== *)
(** ** parsers/llm_parser.py: _extract_section *)
(* ================================================================== *)

Module SectionProofs.
Import LLMParser SectionSpec.

(** *** Slices *)

Lemma py_slice_from_match {A} (s : list A) (i : nat) (max_chars : Z) :
  0 <= max_chars -> (i <= length s)%nat ->
  py_slice s (Z.of_nat i) (Z.min (py_len s) (Z.of_nat i + max_chars)) =
  take (Z.to_nat max_chars) (drop i s).
Proof.
  intros Hmax Hi. unfold py_slice, clamp_index, py_len.
  set (n := Z.of_nat (length s)).
  destruct (Z.ltb_spec (Z.of_nat i) 0) as [?|_]; [lia|].
  destruct (Z.ltb_spec (Z.min n (Z.of_nat i + max_chars)) 0) as [?|_]; [lia|].
  replace (Z.min (Z.of_nat i) n) with (Z.of_nat i) by lia.
  replace (Z.min (Z.min n (Z.of_nat i + max_chars)) n)
    with (Z.min n (Z.of_nat i + max_chars)) by lia.
  rewrite Nat2Z.id.
  destruct (Z.le_ge_cases n (Z.of_nat i + max_chars)).
  - rewrite Z.min_l by lia.
    rewrite !take_ge; [done | rewrite length_drop; lia | rewrite length_drop; lia].
  - rewrite Z.min_r by lia. f_equal. lia.
Qed.

Lemma take_length_le {A} (s : list A) (n : nat) : (length (take n s) <= n)%nat.
Proof. rewrite length_take. lia. Qed.

(** *** The search of the regular expression *)

Lemma re_search_Some rt p s i :
  re_search rt p s = Some i ->
  (i <= length s)%nat /\
  re_match rt p (drop i s) = true /\
  forall j, (j < i)%nat -> re_match rt p (drop j s) = false.
Proof.
  revert i. induction s as [|x s IH]; intros i; simpl.
  - destruct (re_match rt p []) eqn:E; [|done].
    intros [= <-]. split; [done|]. split; [done|]. intros j Hj. lia.
  - destruct (re_match rt p (x :: s)) eqn:E.
    + intros [= <-]. split; [lia|]. split; [done|]. intros j Hj. lia.
    + destruct (re_search rt p s) as [k|] eqn:Hk; [|done].
      simpl. intros [= <-]. destruct (IH k eq_refl) as (Hle & Hm & Hlt).
      split; [lia|]. split; [done|].
      intros [|j] Hj; [done|]. simpl. apply Hlt. lia.
Qed.

Lemma re_search_None rt p s :
  re_search rt p s = None ->
  forall j, (j <= length s)%nat -> re_match rt p (drop j s) = false.
Proof.
  induction s as [|x s IH]; simpl.
  - destruct (re_match rt p []) eqn:E; [done|].
    intros _ j Hj. by replace j with 0%nat by lia.
  - destruct (re_match rt p (x :: s)) eqn:E; [done|].
    destruct (re_search rt p s) as [k|] eqn:Hk; [done|].
    intros _ [|j] Hj; [done|]. simpl. apply IH; [done | lia].
Qed.

Lemma first_title_hit_le rt html keywords i :
  first_title_hit rt html keywords = Some i -> (i <= length html)%nat.
Proof.
  induction keywords as [|kw rest IH]; simpl; [done|].
  destruct (re_search rt (title_pattern kw) html) as [k|] eqn:E; [|exact IH].
  intros [= <-]. by apply re_search_Some in E as [? _].
Qed.

Lemma title_scan_hit rt html keywords max_chars :
  title_scan rt html keywords max_chars =
  match first_title_hit rt html keywords with
  | Some i =>
    Some (py_slice html (Z.of_nat i)
            (Z.min (py_len html) (Z.of_nat i + max_chars)))
  | None => None
  end.
Proof.
  induction keywords as [|kw rest IH]; simpl; [done|].
  by destruct (re_search rt (title_pattern kw) html).
Qed.

(** *** The occurrences that the loop visits *)

Lemma scan_positions_skip sub klen skip :
  forall s pos,
    scan_positions sub klen s pos skip =
    if (skip <=? length s)%nat
    then scan_positions sub klen (drop skip s) (pos + skip)%nat 0
    else [].
Proof.
  induction skip as [|k IH]; intros s pos.
  - rewrite drop_0, Nat.add_0_r. done.
  - destruct s as [|x s]; [done|].
    cbn [scan_positions length drop]. rewrite IH.
    change (S k <=? S (length s))%nat with (k <=? length s)%nat.
    by replace (S pos + k)%nat with (pos + S k)%nat by lia.
Qed.

Lemma scan_positions_find sub klen s :
  forall pos,
    scan_positions sub klen s pos 0 =
    match find_in sub s with
    | None => []
    | Some k =>
      (pos + k)%nat ::
      match drop k s with
      | [] => []
      | _ :: s' => scan_positions sub klen s' (S (pos + k)) (klen - 1)
      end
    end.
Proof.
  induction s as [|x s IH]; intros pos; cbn [scan_positions find_in].
  - destruct (is_prefix sub []); [|done]. by rewrite Nat.add_0_r.
  - destruct (is_prefix sub (x :: s)).
    + by rewrite drop_0, Nat.add_0_r.
    + rewrite IH. destruct (find_in sub s) as [k|]; [|done].
      cbn [fmap option_fmap option_map drop].
      by replace (S pos + k)%nat with (pos + S k)%nat by lia.
Qed.

Lemma find_in_bound sub s k : find_in sub s = Some k -> (k <= length s)%nat.
Proof.
  revert k. induction s as [|x s IH]; intros k; cbn [find_in].
  - destruct (is_prefix sub []); [|done]. intros [= <-]. done.
  - destruct (is_prefix sub (x :: s)); [intros [= <-]; simpl; lia|].
    destruct (find_in sub s) as [j|]; [|done].
    intros [= <-]. specialize (IH j eq_refl). simpl. lia.
Qed.

Lemma positions_from_unfold sub klen hl start :
  (1 <= klen)%nat -> (start <= length hl)%nat ->
  positions_from sub klen hl start =
  match find_in sub (drop start hl) with
  | None => []
  | Some k => (start + k)%nat :: positions_from sub klen hl (start + k + klen)
  end.
Proof.
  intros Hk Hs. unfold positions_from at 1. set (n := length hl) in *.
  destruct (Nat.leb_spec start n) as [_|?]; [|lia].
  rewrite scan_positions_find.
  destruct (find_in sub (drop start hl)) as [k|] eqn:Hf; [|done].
  f_equal. rewrite drop_drop.
  pose proof (find_in_bound _ _ _ Hf) as Hb. rewrite length_drop in Hb.
  fold n in Hb. unfold positions_from. fold n.
  destruct (drop (start + k) hl) as [|x s'] eqn:Hd.
  - assert (n <= start + k)%nat.
    { apply (f_equal length) in Hd. rewrite length_drop in Hd.
      simpl in Hd. fold n in Hd. lia. }
    destruct (Nat.leb_spec (start + k + klen) n) as [?|_]; [lia | done].
  - assert (Hs' : s' = drop (S (start + k)) hl).
    { replace (S (start + k)) with (start + k + 1)%nat by lia.
      by rewrite <- drop_drop, Hd. }
    assert (Hlen : length s' = (n - S (start + k))%nat).
    { rewrite Hs', length_drop. done. }
    assert (start + k < n)%nat.
    { apply (f_equal length) in Hd. rewrite length_drop in Hd.
      simpl in Hd. fold n in Hd. lia. }
    rewrite scan_positions_skip, Hlen.
    destruct (Nat.leb_spec (klen - 1) (n - S (start + k))) as [?|?];
      destruct (Nat.leb_spec (start + k + klen) n) as [?|?]; try lia;
      [|done].
    rewrite Hs', drop_drop.
    by replace (S (start + k) + (klen - 1))%nat
      with (start + k + klen)%nat by lia.
Qed.

(** The loop computes the best candidate among the occurrences met. *)
Lemma scan_keyword_positions rt html hl kw max_chars fuel :
  (1 <= length kw)%nat ->
  forall (start : Z) (best : pystr * Z),
    0 <= start -> (1 <= fuel)%nat ->
    ((Z.to_nat start <= length hl)%nat ->
     (length hl + 2 - Z.to_nat start <= fuel)%nat) ->
    scan_keyword rt fuel html hl kw max_chars (fst best) (snd best) start =
    Some (fold_left better
            (map (candidate rt html max_chars)
               (positions_from (str_lower rt kw) (length kw) hl
                  (Z.to_nat start))) best).
Proof.
  intros Hk. set (n := length hl).
  induction fuel as [|fuel IH]; intros start best Hs Hf1 Hf2; [lia|].
  cbn [scan_keyword]. unfold py_find, py_len. fold n.
  destruct (Z.ltb_spec (Z.of_nat n) start) as [Hgt|Hle].
  { change (-1 <? 0) with true. cbv iota.
    unfold positions_from. fold n.
    destruct (Nat.leb_spec (Z.to_nat start) n) as [?|_];
      [lia | by destruct best]. }
  rewrite positions_from_unfold by (fold n; lia).
  destruct (find_in (str_lower rt kw) (drop (Z.to_nat start) hl))
    as [k|] eqn:Hfind.
  2:{ change (-1 <? 0) with true. by destruct best. }
  destruct (Z.ltb_spec (start + Z.of_nat k) 0) as [?|_]; [lia|].
  pose proof (find_in_bound _ _ _ Hfind) as Hb. rewrite length_drop in Hb.
  fold n in Hb.
  set (c := candidate rt html max_chars (Z.to_nat start + k)).
  assert (Hc : (py_slice html (0 `max` (start + Z.of_nat k - 200))
                  (Z.of_nat (length html) `min` (start + Z.of_nat k + max_chars)),
                section_score rt
                  (py_slice html (0 `max` (start + Z.of_nat k - 200))
                     (Z.of_nat (length html) `min`
                        (start + Z.of_nat k + max_chars)))) = c).
  { unfold c, candidate, py_len.
    by replace (Z.of_nat (Z.to_nat start + k)) with (start + Z.of_nat k) by lia. }
  cbn [map fold_left].
  specialize (IH (start + Z.of_nat k + Z.of_nat (length kw)) (better best c)).
  replace (Z.to_nat (start + Z.of_nat k + Z.of_nat (length kw)))
    with (Z.to_nat start + k + length kw)%nat in IH by lia.
  fold c. rewrite <- IH; [|lia|lia|lia].
  unfold better. rewrite <- Hc. cbn [fst snd].
  destruct (snd best <? _); by destruct best.
Qed.

Lemma text_scan_choice rt fuel html keywords max_chars :
  Forall (fun kw : pystr => kw <> []) keywords ->
  (scan_fuel rt html <= fuel)%nat ->
  text_scan rt fuel html (str_lower rt html) keywords max_chars =
  Some (text_choice rt html (str_lower rt html) keywords max_chars).
Proof.
  unfold scan_fuel. intros Hne Hfuel.
  induction Hne as [|kw rest Hkw _ IH]; [done|].
  cbn [text_scan text_choice].
  assert (Hk : (1 <= length kw)%nat) by (destruct kw; [done | simpl; lia]).
  pose proof (scan_keyword_positions rt html (str_lower rt html) kw max_chars
                fuel Hk 0 ([], 0) ltac:(lia) ltac:(lia) ltac:(simpl; lia))
    as Hsk.
  cbn [fst snd] in Hsk. rewrite Hsk. clear Hsk.
  change (Z.to_nat 0) with 0%nat.
  unfold positions_from. cbn [Nat.leb]. rewrite drop_0.
  fold (best_of (map (candidate rt html max_chars)
                   (scan_positions (str_lower rt kw) (length kw)
                      (str_lower rt html) 0 0))).
  fold (best_for rt html (str_lower rt html) kw max_chars).
  destruct (best_for rt html (str_lower rt html) kw max_chars) as [bs bsc].
  cbn [fst snd]. by destruct (truthy (PStr bs) && (10 <? bsc)).
Qed.

(** An empty keyword is found again where it was found: the loop does
    not end. *)
Lemma scan_keyword_empty fuel :
  forall max_chars best_section best_score,
    scan_keyword ascii_runtime fuel [] [] [] max_chars
      best_section best_score 0 = None.
Proof.
  induction fuel as [|fuel IH]; intros max_chars bs bsc; [done|].
  cbn [scan_keyword].
  change (py_find [] (str_lower ascii_runtime []) 0) with 0.
  change (0 <? 0) with false. cbv iota.
  change (0 + py_len (@nil N)) with 0. apply IH.
Qed.

End SectionProofs.

Module SectionClaims.
Import LLMParser SectionSpec SectionProofs.

(** C3, as stated, fails: an occurrence that overlaps the one before it
    is not scored. In ["aaa<table<table 222"] the keyword ["aa"] occurs
    at 0 and at 1; with [max_chars = 18] the slice of the occurrence at 1
    scores 11, but the loop resumes at 2, scores only the occurrence at 0
    (score 10) and the function returns the empty string. *)
Lemma extract_section_skips_overlap :
  ~ scores_every_occurrence ascii_runtime overlap_html [py "aa"] 18.
Proof.
  unfold scores_every_occurrence. intros H.
  assert (Hn : first_title_hit ascii_runtime overlap_html [py "aa"] = None)
    by (vm_compute; reflexivity).
  specialize (H Hn). clear Hn. vm_compute in H. discriminate H.
Qed.

(** With an empty keyword and no TITLE match the second loop does not
    end: no amount of fuel yields a result. *)
Lemma extract_section_empty_keyword_diverges (fuel : nat) :
  _extract_section ascii_runtime fuel [] [[]] 15000 = None.
Proof.
  unfold _extract_section.
  change (title_scan ascii_runtime [] [[]] 15000) with (@None pystr).
  cbn [text_scan].
  change (str_lower ascii_runtime []) with (@nil N).
  by rewrite scan_keyword_empty.
Qed.

(** C3, amended. For every text, every list of non-empty keywords and
    every [max_chars >= 0], [_extract_section] returns. If some keyword
    has a TITLE match, the result is the slice of at most [max_chars]
    characters that starts at the first match of the first such keyword.
    Otherwise it is, for the first keyword whose best score exceeds 10,
    the best-scoring slice among the occurrences that a left-to-right
    scan of the lower-cased text meets when it resumes [len(kw)]
    characters after each occurrence (the first slice wins a tie; the
    score of a slice is 5 times its ['<table'] count plus its count of
    runs of three or more digits), and the empty string when no keyword
    reaches that threshold. *)
Theorem extract_section_choice (rt : runtime) (html : pystr)
    (keywords : list pystr) (max_chars : Z) (fuel : nat) :
  0 <= max_chars ->
  Forall (fun kw : pystr => kw <> []) keywords ->
  (scan_fuel rt html <= fuel)%nat ->
  exists section,
    _extract_section rt fuel html keywords max_chars = Some section /\
    match first_title_hit rt html keywords with
    | Some i =>
      (i <= length html)%nat /\
      section = take (Z.to_nat max_chars) (drop i html) /\
      py_len section <= max_chars
    | None =>
      section = text_choice rt html (str_lower rt html) keywords max_chars
    end.
Proof.
  intros Hmax Hne Hfuel. unfold _extract_section.
  rewrite title_scan_hit.
  destruct (first_title_hit rt html keywords) as [i|] eqn:Hhit.
  - pose proof (first_title_hit_le _ _ _ _ Hhit) as Hi.
    eexists. split; [reflexivity|]. split; [exact Hi|].
    rewrite py_slice_from_match by done. split; [done|].
    unfold py_len. pose proof (take_length_le (drop i html) (Z.to_nat max_chars)).
    lia.
  - rewrite text_scan_choice by done. eauto.
Qed.

Lemma extract_section_choice_witness :
  (exists section,
     _extract_section ascii_runtime (scan_fuel ascii_runtime titled_html)
       titled_html [py "없음"; py "사업의 내용"] 30 = Some section /\
     section = take 30 (drop 12 titled_html)) /\
  (exists section,
     _extract_section ascii_runtime (scan_fuel ascii_runtime scored_html)
       scored_html [py "alpha"; py "beta"] 30 = Some section /\
     first_title_hit ascii_runtime scored_html [py "alpha"; py "beta"] = None /\
     section = take 54 scored_html /\
     section_score ascii_runtime section = 15 /\
     snd (best_for ascii_runtime scored_html
            (str_lower ascii_runtime scored_html) (py "alpha") 30) = 0).
Proof.
  split.
  - destruct (extract_section_choice ascii_runtime titled_html
                [py "없음"; py "사업의 내용"] 30
                (scan_fuel ascii_runtime titled_html))
      as (section & Hs & Hm).
    + lia.
    + repeat constructor; vm_compute; discriminate.
    + reflexivity.
    + exists section. split; [exact Hs|].
      assert (Hhit : first_title_hit ascii_runtime titled_html
                       [py "없음"; py "사업의 내용"] = Some 12%nat)
        by (vm_compute; reflexivity).
      rewrite Hhit in Hm. exact (proj1 (proj2 Hm)).
  - destruct (extract_section_choice ascii_runtime scored_html
                [py "alpha"; py "beta"] 30
                (scan_fuel ascii_runtime scored_html))
      as (section & Hs & Hm).
    + lia.
    + repeat constructor; vm_compute; discriminate.
    + reflexivity.
    + exists section. split; [exact Hs|].
      assert (Hhit : first_title_hit ascii_runtime scored_html
                       [py "alpha"; py "beta"] = None)
        by (vm_compute; reflexivity).
      rewrite Hhit in Hm. split; [exact Hhit|]. subst section.
      repeat split; vm_compute; reflexivity.
Defined.

End SectionClaims.

(* ================================================================== *)
(** ** Traces *)
(* ================================================================== *)

Module EffectProofs.
Import LLMParser Extractors Analyst Pipeline PipelineSpec.

Lemma bind_Ok_inv {A B} (m : M A) (f : A -> M B) t b :
  bind m f = (t, Ok b) ->
  exists t1 a t2, m = (t1, Ok a) /\ f a = (t2, Ok b) /\ t = t1 ++ t2.
Proof.
  unfold bind. destruct m as [t1 [a|e]]; [|discriminate].
  destruct (f a) as [t2 r] eqn:E. intros [= <- ->]. eauto 6.
Qed.

Lemma bind_step {A B} (m : M A) (f : A -> M B) t1 a :
  m = (t1, Ok a) -> bind m f = (t1 ++ fst (f a), snd (f a)).
Proof. intros ->. unfold bind. by destruct (f a). Qed.

Lemma bind_snd_Ok_inv {A B} (m : M A) (f : A -> M B) b :
  snd (bind m f) = Ok b ->
  exists a, snd m = Ok a /\ snd (f a) = Ok b /\
            fst (bind m f) = fst m ++ fst (f a).
Proof.
  unfold bind. destruct m as [t1 [a|e]]; [|discriminate].
  destruct (f a) as [t2 r] eqn:E. simpl. intros ->. exists a.
  by rewrite E.
Qed.

Lemma lift_Ok_inv {A} (r : res A) t a : lift r = (t, Ok a) -> r = Ok a /\ t = [].
Proof. unfold lift. by intros [= <- ->]. Qed.

Lemma ret_inv {A} (a b : A) t : ret a = (t, Ok b) -> a = b /\ t = [].
Proof. unfold ret. by intros [= <- ->]. Qed.

(** *** Kinds of events in a trace *)

Lemma traces_only_ret P {A} (a : A) : traces_only P (ret a).
Proof. constructor. Qed.

Lemma traces_only_lift P {A} (r : res A) : traces_only P (lift r).
Proof. constructor. Qed.

Lemma traces_only_emit P ev : P ev = true -> traces_only P (emit ev).
Proof. intros H. by repeat constructor. Qed.

Lemma traces_only_call_llm P e r :
  P (EvLLM r) = true -> traces_only P (call_llm e r).
Proof. intros H. by repeat constructor. Qed.

Lemma traces_only_bind P {A B} (m : M A) (f : A -> M B) :
  traces_only P m -> (forall a, traces_only P (f a)) ->
  traces_only P (bind m f).
Proof.
  unfold traces_only, bind. intros Hm Hf.
  destruct m as [t1 [a|e]]; [|exact Hm].
  specialize (Hf a). destruct (f a) as [t2 r]. simpl in *.
  by apply Forall_app.
Qed.

Lemma traces_only_weaken (P Q : event -> bool) {A} (m : M A) :
  (forall ev, P ev = true -> Q ev = true) ->
  traces_only P m -> traces_only Q m.
Proof. intros H Hm. unfold traces_only in *. eapply Forall_impl; eauto. Qed.

Lemma traces_only_none {A} (m : M A) : traces_only no_event m -> fst m = [].
Proof.
  unfold traces_only. destruct (fst m) as [|ev t]; [done|].
  intros H. by apply Forall_cons in H as [? _].
Qed.

Lemma traces_only_filter (P Q : event -> bool) (t : list event) :
  Forall (fun ev => P ev = true) t ->
  (forall ev, P ev = true -> Q ev = false) ->
  List.filter Q t = [].
Proof.
  intros Ht HPQ. induction Ht as [|ev t Hev _ IH]; [done|].
  simpl. by rewrite (HPQ _ Hev).
Qed.

Ltac traces :=
  repeat first
    [ apply traces_only_ret
    | apply traces_only_lift
    | apply traces_only_emit; reflexivity
    | apply traces_only_call_llm; reflexivity
    | apply traces_only_bind; [|intros ?]
    | match goal with
      | |- traces_only _ (match ?x with _ => _ end) => destruct x
      | |- traces_only _ (if ?x then _ else _) => destruct x
      end ].

(** Steps 1 and 2 call services only. *)
Lemma step1_trace e company_name : fst (step1 e company_name) = [].
Proof. apply traces_only_none. unfold step1. traces. Qed.

Lemma step2_trace e corp_code collected :
  fst (step2 e corp_code collected) = [].
Proof. apply traces_only_none. unfold step2. traces. Qed.

(** Step 3 asks the crawler once. *)
Lemma try_search_38_run e company_name :
  try_search_38 e company_name =
  ([EvCrawl company_name],
   Ok match search_38 e company_name with
      | Ok crawler_data => crawler_data
      | Raise _ => None
      end).
Proof.
  unfold try_search_38. by destruct (search_38 e company_name).
Qed.

Lemma step3_trace e company_name collected :
  fst (step3 e company_name collected) = [EvCrawl company_name].
Proof.
  unfold step3.
  rewrite (bind_step _ _ _ _ (try_search_38_run e company_name)).
  cbn [fst]. rewrite traces_only_none; [done|]. traces.
Qed.

(** The extractors, and so step 4, enter extractors and call the model. *)
Lemma extract_lockup_schedule_trace rt e html :
  traces_only is_parse (extract_lockup_schedule rt e html).
Proof. unfold extract_lockup_schedule. traces. Qed.

Lemma extract_business_summary_trace rt e html :
  traces_only is_parse (extract_business_summary rt e html).
Proof. unfold extract_business_summary. traces. Qed.

Lemma extract_peer_valuation_trace rt e html :
  traces_only is_parse (extract_peer_valuation rt e html).
Proof. unfold extract_peer_valuation. traces. Qed.

Lemma extract_financials_from_filing_trace rt e html :
  traces_only is_parse (extract_financials_from_filing rt e html).
Proof. unfold extract_financials_from_filing. traces. Qed.

Lemma parse_full_filing_trace rt e dir need_financials :
  traces_only is_parse (parse_full_filing rt e dir need_financials).
Proof.
  unfold parse_full_filing. destruct (negb _); [apply traces_only_ret|].
  apply traces_only_bind; [apply extract_lockup_schedule_trace | intros ?].
  apply traces_only_bind; [traces | intros ?].
  apply traces_only_bind; [apply extract_business_summary_trace | intros ?].
  apply traces_only_bind; [apply extract_peer_valuation_trace | intros ?].
  destruct need_financials; [|apply traces_only_ret].
  apply traces_only_bind;
    [apply extract_financials_from_filing_trace | intros ?].
  traces.
Qed.

Lemma step4_trace rt e skip_filing rcept collected :
  traces_only is_parse (step4 rt e skip_filing rcept collected).
Proof.
  unfold step4. destruct (negb skip_filing && opt_truthy rcept);
    [|apply traces_only_ret].
  destruct rcept as [r|]; [|apply traces_only_ret].
  apply traces_only_bind; [apply traces_only_lift | intros [dir|]];
    [|apply traces_only_ret].
  apply traces_only_bind; [apply parse_full_filing_trace | intros ?].
  traces.
Qed.

Lemma step5_trace e skip_analysis company_name collected :
  traces_only is_llm (step5 e skip_analysis company_name collected).
Proof. unfold step5, generate_analysis. traces. Qed.

(** The writers record their own output, and only when they return. *)
Lemma write_out_run e ev :
  write_out e ev =
  match write_file e ev with
  | Ok _ => ([ev], Ok tt)
  | Raise ex => ([], Raise ex)
  end.
Proof. unfold write_out. by destruct (write_file e ev). Qed.

Lemma lift_then_write {A} (r : res A) e ev :
  bind (lift r) (fun _ => write_out e ev) =
  match r ≫= (fun _ => write_file e ev) with
  | Ok _ => ([ev], Ok tt)
  | Raise ex => ([], Raise ex)
  end.
Proof.
  rewrite write_out_run. destruct r as [a|ex]; simpl; [|done].
  by destruct (write_file e ev).
Qed.

Lemma save_report_run e company_name analysis_report data :
  ReportWriter.save_report e company_name analysis_report data =
  match snd (ReportWriter.save_report e company_name analysis_report data) with
  | Ok _ => ([EvSaveReport company_name analysis_report data], Ok tt)
  | Raise ex => ([], Raise ex)
  end.
Proof.
  unfold ReportWriter.save_report. rewrite write_out_run.
  destruct (make_reports_dir e); simpl; [|done].
  destruct (ReportWriter.table_rows data (py "financials")); simpl; [|done].
  destruct (ReportWriter.table_rows data (py "lockup_schedule")); simpl;
    [|done].
  by destruct (write_file e _).
Qed.

Lemma generate_excel_run e data company_name :
  ExcelWriter.generate_excel e data company_name =
  match snd (ExcelWriter.generate_excel e data company_name) with
  | Ok _ => ([EvExcel data company_name], Ok tt)
  | Raise ex => ([], Raise ex)
  end.
Proof.
  unfold ExcelWriter.generate_excel. rewrite write_out_run.
  destruct (ExcelWriter.fill_sheet e data company_name); simpl; [|done].
  by destruct (write_file e _).
Qed.

Lemma save_raw_data_run e data company_name :
  save_raw_data e data company_name =
  match snd (save_raw_data e data company_name) with
  | Ok _ =>
    ([EvSaveRaw (base.delete (py "analysis_report") data) company_name], Ok tt)
  | Raise ex => ([], Raise ex)
  end.
Proof.
  unfold save_raw_data. rewrite write_out_run.
  destruct (make_reports_dir e); simpl; [|done].
  by destruct (write_file e _).
Qed.

(** Step 6 calls the writers in order, each after the one before it
    returned. *)
Lemma step6_run e company_name collected analysis_report :
  step6 e company_name collected analysis_report =
  match report_result e company_name collected analysis_report,
        excel_result e company_name collected,
        raw_result e company_name collected with
  | Ok _, Ok _, Ok _ =>
    (expected_outputs company_name collected analysis_report, Ok collected)
  | Ok _, Ok _, Raise ex =>
    (report_output company_name collected analysis_report
     ++ [excel_output company_name collected], Raise ex)
  | Ok _, Raise ex, _ =>
    (report_output company_name collected analysis_report, Raise ex)
  | Raise ex, _, _ => ([], Raise ex)
  end.
Proof.
  unfold step6, report_result, excel_result, raw_result, expected_outputs,
    report_output, excel_output, raw_output.
  rewrite (generate_excel_run e collected company_name).
  rewrite (save_raw_data_run e collected company_name).
  destruct (nonempty analysis_report).
  - rewrite (save_report_run e company_name analysis_report collected).
    destruct (snd (ReportWriter.save_report e company_name analysis_report
                     collected)) as [[]|ex]; [|done].
    destruct (snd (ExcelWriter.generate_excel e collected company_name))
      as [[]|ex]; [|done].
    by destruct (snd (save_raw_data e collected company_name)) as [[]|ex].
  - destruct (snd (ExcelWriter.generate_excel e collected company_name))
      as [[]|ex]; [|done].
    by destruct (snd (save_raw_data e collected company_name)) as [[]|ex].
Qed.

Lemma step6_trace e company_name collected analysis_report :
  traces_only is_output (step6 e company_name collected analysis_report).
Proof.
  unfold traces_only. rewrite step6_run.
  unfold expected_outputs, report_output, excel_output, raw_output.
  destruct (report_result _ _ _ _) as [[]|?]; [|constructor].
  destruct (excel_result _ _ _) as [[]|?];
    [|destruct (nonempty analysis_report); repeat constructor].
  destruct (raw_result _ _ _) as [[]|?];
    destruct (nonempty analysis_report); repeat constructor.
Qed.

Lemma collect_quiet rt e corp_code company_name skip_filing skip_analysis :
  traces_only is_quiet
    (collect rt e corp_code company_name skip_filing skip_analysis).
Proof.
  unfold collect.
  apply traces_only_bind; [|intros ?].
  { unfold traces_only. by rewrite step2_trace. }
  apply traces_only_bind; [|intros ?].
  { unfold traces_only. rewrite step3_trace. by repeat constructor. }
  apply traces_only_bind; [|intros ?].
  { eapply traces_only_weaken; [|apply step4_trace]. by intros []. }
  eapply traces_only_weaken; [|apply step5_trace]. by intros [].
Qed.

End EffectProofs.
(* ================================================================== *)
(** ** main.py: run_pipeline *)
(* ================================================================== *)

Module PipelineProofs.
Import LLMParser Extractors Analyst Pipeline PipelineSpec EffectProofs.

Lemma bind_ext {A B} (m : M A) (f g : A -> M B) :
  (forall a, f a = g a) -> bind m f = bind m g.
Proof. intros H. unfold bind. destruct m as [t [a|e]]; [by rewrite H | done]. Qed.

Lemma bind_assoc {A B C} (m : M A) (f : A -> M B) (g : B -> M C) :
  bind (bind m f) g = bind m (fun a => bind (f a) g).
Proof.
  unfold bind. destruct m as [t [a|e]]; [|done].
  destruct (f a) as [t' [b|e]]; [|done].
  destruct (g b) as [t'' r]. by rewrite app_assoc.
Qed.

Lemma bind_emit_as {A B} (ev : event) (a : A) (f : A -> M B) :
  bind ([ev], Ok a) f = bind (emit ev) (fun _ => f a).
Proof. reflexivity. Qed.

Lemma emit_then_trace {B} (ev : event) (m : M B) :
  fst (bind (emit ev) (fun _ => m)) = ev :: fst m.
Proof. unfold bind, emit. by destruct m. Qed.

Lemma outputs_of_app t1 t2 : outputs_of (t1 ++ t2) = outputs_of t1 ++ outputs_of t2.
Proof. apply List.filter_app. Qed.

Lemma crawls_of_app t1 t2 : crawls_of (t1 ++ t2) = crawls_of t1 ++ crawls_of t2.
Proof. apply List.filter_app. Qed.

Lemma step1_Ok e company_name r :
  snd (step1 e company_name) = r -> step1 e company_name = ([], r).
Proof.
  intros <-. rewrite <- (step1_trace e company_name).
  by destruct (step1 e company_name).
Qed.

Lemma step2_Ok e corp_code collected r :
  snd (step2 e corp_code collected) = r ->
  step2 e corp_code collected = ([], r).
Proof.
  intros <-. rewrite <- (step2_trace e corp_code collected).
  by destruct (step2 e corp_code collected).
Qed.

(** What step 5 returns. *)
Lemma step5_result e skip_analysis company_name c t collected report :
  step5 e skip_analysis company_name c = (t, Ok (collected, report)) ->
  (skip_analysis = true -> report = [] /\ collected = c) /\
  (skip_analysis = false ->
     collected = <[py "analysis_report" := PStr report]> c).
Proof.
  unfold step5. destruct skip_analysis; cbn [negb].
  - intros [= _ <- <-]. split; [done | discriminate].
  - intros H. apply bind_Ok_inv in H as (t1 & r & t2 & _ & [= _ <- <-] & _).
    split; [discriminate | done].
Qed.

Lemma collect_result rt e corp_code company_name skip_filing skip_analysis
    t collected report :
  collect rt e corp_code company_name skip_filing skip_analysis
  = (t, Ok (collected, report)) ->
  exists c, (skip_analysis = true -> report = [] /\ collected = c) /\
            (skip_analysis = false ->
               collected = <[py "analysis_report" := PStr report]> c).
Proof.
  unfold collect. intros H.
  apply bind_Ok_inv in H as (? & rc & ? & _ & H & _).
  apply bind_Ok_inv in H as (? & c3 & ? & _ & H & _).
  apply bind_Ok_inv in H as (? & c4 & ? & _ & H & _).
  exists c4. by eapply step5_result.
Qed.

(** The steps other than step 3 do not ask the crawler. *)
Lemma step3_absent e company_name collected :
  search_38 e company_name = Ok None \/
  (exists ex, search_38 e company_name = Raise ex) ->
  step3 e company_name collected = ([EvCrawl company_name], Ok collected).
Proof.
  intros H. unfold step3. rewrite try_search_38_run.
  destruct H as [-> | [ex ->]]; reflexivity.
Qed.

(** *** When the report can be written *)

Lemma as_dicts_Ok l ds :
  Convert.as_dicts l = Ok ds <-> l = map PDict ds.
Proof.
  revert ds. induction l as [|v l IH]; intros ds; simpl.
  - split; [intros [= <-]; done | by destruct ds].
  - split.
    + intros H. apply bind_Ok in H as (d & Hd & H).
      apply bind_Ok in H as (ds' & Hds & [= <-]).
      destruct v; try discriminate Hd. injection Hd as ->.
      apply IH in Hds as ->. done.
    + destruct ds as [|d ds]; [done|]. intros [= -> ->]. simpl.
      by rewrite (proj2 (IH ds) eq_refl).
Qed.

Lemma items_of_truthy v :
  truthy v = true ->
  (exists rows, Convert.items_of v = Ok rows) <->
  (exists rows, v = PList (map PDict rows)).
Proof.
  intros Ht. split.
  - intros [rows H]. exists rows. unfold Convert.items_of in H.
    destruct v; try discriminate H.
    + by rewrite Ht in H.
    + by apply as_dicts_Ok in H as ->.
    + by rewrite Ht in H.
  - intros [rows ->]. exists rows. simpl. by apply as_dicts_Ok.
Qed.

Lemma table_rows_readable data key :
  (exists rows, ReportWriter.table_rows data key = Ok rows) <->
  rows_readable data key.
Proof.
  unfold ReportWriter.table_rows, rows_readable.
  destruct (data !! key) as [v|]; [|split; eauto].
  destruct (truthy v) eqn:Ht.
  - rewrite items_of_truthy by done. split; [auto | intros H; by apply H].
  - split; [done | eauto].
Qed.

Lemma save_report_returns e company_name analysis_report data :
  snd (ReportWriter.save_report e company_name analysis_report data) = Ok tt
  <->
  make_reports_dir e = Ok tt /\
  rows_readable data (py "financials") /\
  rows_readable data (py "lockup_schedule") /\
  write_file e (EvSaveReport company_name analysis_report data) = Ok tt.
Proof.
  rewrite <- !table_rows_readable.
  unfold ReportWriter.save_report. rewrite write_out_run.
  destruct (make_reports_dir e) as [[]|ex]; simpl; [|naive_solver].
  destruct (ReportWriter.table_rows data (py "financials")) as [r1|ex];
    simpl; [|naive_solver].
  destruct (ReportWriter.table_rows data (py "lockup_schedule")) as [r2|ex];
    simpl; [|naive_solver].
  destruct (write_file e _) as [[]|ex]; simpl; naive_solver.
Qed.

Lemma save_raw_data_returns e data company_name :
  snd (save_raw_data e data company_name) = Ok tt <->
  make_reports_dir e = Ok tt /\
  write_file e (raw_output company_name data) = Ok tt.
Proof.
  unfold save_raw_data, raw_output. rewrite write_out_run.
  destruct (make_reports_dir e) as [[]|ex]; simpl; [|naive_solver].
  destruct (write_file e _) as [[]|ex]; simpl; naive_solver.
Qed.

(** *** What steps 2, 4 and 5 leave alone *)

Lemma choose_filing_other (filings : list filing) (collected : pydict)
    (k : pystr) :
  k <> py "_invest_doc_rcept_no" ->
  snd (choose_filing filings collected) !! k = collected !! k.
Proof.
  intros Hk. destruct filings as [|first rest]; [done|].
  unfold choose_filing. cbn [snd]. by rewrite lookup_insert_ne.
Qed.

Lemma step2_other (e : env) (corp_code : pyval) (collected : pydict)
    (t : list event) (rcept : option pystr) (collected' : pydict)
    (k : pystr) :
  step2 e corp_code collected = (t, Ok (rcept, collected')) ->
  k <> py "company_info" -> k <> py "_invest_doc_rcept_no" ->
  k <> py "offering" -> k <> py "financials" ->
  collected' !! k = collected !! k.
Proof.
  intros H Hci Hinv Hoff Hfin. unfold step2 in H.
  apply bind_Ok_inv in H as (? & ci & ? & _ & H & _).
  apply bind_Ok_inv in H as (? & filings & ? & _ & H & _).
  apply bind_Ok_inv in H as (? & eq & ? & _ & H & _).
  apply bind_Ok_inv in H as (? & c3 & ? & H3 & H & _).
  apply bind_Ok_inv in H as (? & fin_raw & ? & _ & H & _).
  apply bind_Ok_inv in H as (? & c4 & ? & H4 & H & _).
  apply ret_inv in H as [[= _ <-] _].
  transitivity (c3 !! k).
  { destruct (truthy (PDict fin_raw)).
    - apply bind_Ok_inv in H4 as (? & ? & ? & _ & H4 & _).
      apply bind_Ok_inv in H4 as (? & ? & ? & _ & H4 & _).
      apply bind_Ok_inv in H4 as (? & ? & ? & _ & H4 & _).
      apply ret_inv in H4 as [<- _]. by rewrite lookup_insert_ne.
    - by apply ret_inv in H4 as [<- _]. }
  match type of H3 with
  | context [choose_filing filings ?c] => set (c1 := c) in *
  end.
  transitivity (snd (choose_filing filings c1) !! k).
  { destruct eq as [eq|]; [|by apply ret_inv in H3 as [<- _]].
    destruct (truthy (PDict eq)); [|by apply ret_inv in H3 as [<- _]].
    apply bind_Ok_inv in H3 as (? & ? & ? & _ & H3 & _).
    apply bind_Ok_inv in H3 as (? & ? & ? & _ & H3 & _).
    apply ret_inv in H3 as [<- _]. by rewrite lookup_insert_ne. }
  rewrite choose_filing_other by done. subst c1.
  destruct ci as [ci|]; [|done].
  destruct (truthy (PDict ci)); [|done]. by rewrite lookup_insert_ne.
Qed.

(** A parse stores nothing under another key than its four. *)
Lemma parse_full_filing_other (rt : runtime) (e : env) (dir : list file)
    (need_financials : bool) (t : list event) (parsed : pydict) (k : pystr) :
  parse_full_filing rt e dir need_financials = (t, Ok parsed) ->
  k <> py "lockup_schedule" -> k <> py "business" ->
  k <> py "valuation" -> k <> py "filing_financials" ->
  parsed !! k = None.
Proof.
  intros H Hl Hb Hv Hf. unfold parse_full_filing in H.
  destruct (negb _); [by injection H as _ <-|].
  apply bind_Ok_inv in H as (? & lockup & ? & _ & H & _).
  apply bind_Ok_inv in H as (? & r1 & ? & Hr1 & H & _).
  assert (H1 : r1 !! k = None).
  { destruct (truthy lockup).
    - apply bind_Ok_inv in Hr1 as (? & ? & ? & _ & [= _ <-] & _).
      by rewrite lookup_insert_ne.
    - by injection Hr1 as _ <-. }
  clear Hr1.
  apply bind_Ok_inv in H as (? & business & ? & _ & H & _).
  apply bind_Ok_inv in H as (? & valuation & ? & _ & H & _).
  set (r2 := if truthy business then <[py "business" := business]> r1 else r1)
    in H.
  assert (H2 : r2 !! k = None).
  { unfold r2. destruct (truthy business); [|done].
    by rewrite lookup_insert_ne. }
  set (r3 := if truthy valuation then <[py "valuation" := valuation]> r2
             else r2) in H.
  assert (H3 : r3 !! k = None).
  { unfold r3. destruct (truthy valuation); [|done].
    by rewrite lookup_insert_ne. }
  clearbody r3. clear H1 H2 r2.
  destruct need_financials; [|by injection H as _ <-].
  apply bind_Ok_inv in H as (? & financials & ? & _ & H & _).
  destruct (truthy financials); [|by injection H as _ <-].
  apply bind_Ok_inv in H as (? & ? & ? & _ & [= _ <-] & _).
  by rewrite lookup_insert_ne.
Qed.

Lemma adopt_filing_financials_other (rt : runtime)
    (collected collected' : pydict) (k : pystr) :
  adopt_filing_financials rt collected = Ok collected' ->
  k <> py "financials" -> collected' !! k = collected !! k.
Proof.
  unfold adopt_filing_financials. intros H Hk.
  destruct (collected !! py "filing_financials") as [v|];
    [|by injection H as <-].
  apply bind_Ok in H as (items & _ & H).
  apply bind_Ok in H as (rows & _ & H).
  destruct rows as [|row rows]; [by injection H as <-|].
  apply bind_Ok in H as (? & _ & [= <-]). by rewrite lookup_insert_ne.
Qed.

Lemma step4_other (rt : runtime) (e : env) (skip_filing : bool)
    (rcept : option pystr) (collected : pydict) (t : list event)
    (collected' : pydict) (k : pystr) :
  step4 rt e skip_filing rcept collected = (t, Ok collected') ->
  k <> py "lockup_schedule" -> k <> py "business" ->
  k <> py "valuation" -> k <> py "filing_financials" ->
  k <> py "financials" ->
  collected' !! k = collected !! k.
Proof.
  intros H Hl Hb Hv Hf Hfin. unfold step4 in H.
  destruct (negb skip_filing && opt_truthy rcept); [|by injection H as _ <-].
  destruct rcept as [r|]; [|by injection H as _ <-].
  apply bind_Ok_inv in H as (? & [dir|] & ? & _ & H & _);
    [|by injection H as _ <-].
  apply bind_Ok_inv in H as (? & parsed & ? & Hp & H & _).
  apply (parse_full_filing_other _ _ _ _ _ _ k) in Hp; [|done..].
  assert (Hu : py_update collected parsed !! k = collected !! k).
  { unfold py_update. by rewrite lookup_union_r. }
  destruct (negb (has_financials collected)).
  - apply lift_Ok_inv in H as [H _].
    by rewrite (adopt_filing_financials_other _ _ _ _ H Hfin).
  - by injection H as _ <-.
Qed.

End PipelineProofs.

Module PipelineClaims.
Import LLMParser Extractors Analyst Pipeline PipelineSpec EffectProofs.
Import PipelineProofs.



Lemma acme_collect :
  collect ascii_runtime full_env acme_code acme false false
  = (acme_trace, Ok (acme_collected, py "report")).
Proof. vm_compute. reflexivity. Qed.

Lemma acme_step1 : snd (step1 full_env acme) = Ok (Some acme_code).
Proof. vm_compute. reflexivity. Qed.


(** C5. When [search_by_name] raises, step 3 catches the exception: it
    has asked the crawler once and returns the collected data as it
    received it. The run is then steps 1 and 2, the one crawl, and steps
    4, 5 and 6 on the data of step 2: when these steps return, the run
    returns with their events after the crawl, with the outputs of step
    6, and with no ['crawler_data'] in the result. The crawler is asked
    at most once in the run. The whole run, trace and result, is the run
    in which the crawler finds nothing. *)
Theorem crawl_failure_is_absence (rt : runtime) (e : env)
    (company_name : pystr) (skip_filing skip_analysis : bool) (ex : exn) :
  search_38 e company_name = Raise ex ->
  (forall collected,
     step3 e company_name collected = ([EvCrawl company_name], Ok collected)) /\
  run_pipeline rt e company_name skip_filing skip_analysis =
  run_without_crawler_data rt e company_name skip_filing skip_analysis /\
  (forall corp_code rcept c2 t4 c4 t5 c5 report t6 c6,
     snd (step1 e company_name) = Ok (Some corp_code) ->
     snd (step2 e corp_code ∅) = Ok (rcept, c2) ->
     step4 rt e skip_filing rcept c2 = (t4, Ok c4) ->
     step5 e skip_analysis company_name c4 = (t5, Ok (c5, report)) ->
     step6 e company_name c5 report = (t6, Ok c6) ->
     run_pipeline rt e company_name skip_filing skip_analysis =
     (EvCrawl company_name :: t4 ++ t5 ++ t6, Ok (Some c6)) /\
     t6 = expected_outputs company_name c5 report /\
     c6 = c5 /\
     c6 !! py "crawler_data" = None) /\
  (length (crawls_of
             (fst (run_pipeline rt e company_name skip_filing skip_analysis)))
   <= 1)%nat /\
  run_pipeline rt e company_name skip_filing skip_analysis =
  run_pipeline rt (with_search_38 e (fun _ => Ok None)) company_name
    skip_filing skip_analysis.
Proof.
  intros Hraise.
  assert (H3 : forall collected,
             step3 e company_name collected
             = ([EvCrawl company_name], Ok collected)).
  { intros c. apply step3_absent. eauto. }
  assert (H3' : forall collected,
             step3 (with_search_38 e (fun _ => Ok None)) company_name collected
             = ([EvCrawl company_name], Ok collected)).
  { intros c. apply step3_absent. by left. }
  assert (Hrun : run_pipeline rt e company_name skip_filing skip_analysis =
                 run_without_crawler_data rt e company_name skip_filing
                   skip_analysis).
  { unfold run_pipeline, run_without_crawler_data.
    apply bind_ext. intros [corp_code|]; [|done].
    unfold collect. rewrite bind_assoc. apply bind_ext. intros rc.
    rewrite H3, bind_assoc, bind_emit_as. apply bind_ext. intros _.
    by rewrite bind_assoc. }
  split; [exact H3|]. split; [exact Hrun|]. split; [|split].
  - intros corp_code rcept c2 t4 c4 t5 c5 report t6 c6 H1 H2 H4 H5 H6.
    apply step1_Ok in H1. apply step2_Ok in H2.
    assert (Hs6 := H6). rewrite step6_run in Hs6.
    assert (t6 = expected_outputs company_name c5 report /\ c6 = c5)
      as [-> ->].
    { destruct (report_result _ _ _ _) as [[]|?]; [|done].
      destruct (excel_result _ _ _) as [[]|?]; [|done].
      destruct (raw_result _ _ _) as [[]|?]; [|done].
      by injection Hs6 as <- <-. }
    split; [|split; [done|split; [done|]]].
    + rewrite Hrun. unfold run_without_crawler_data.
      rewrite (bind_step _ _ _ _ H1). cbn [fst snd app].
      rewrite <- surjective_pairing.
      rewrite (bind_step _ _ _ _ H2). cbn [fst snd app].
      rewrite <- surjective_pairing.
      unfold bind at 1. unfold emit.
      rewrite (bind_step _ _ _ _ H4). cbn [fst snd].
      rewrite (bind_step _ _ _ _ H5). cbn [fst snd].
      rewrite (bind_step _ _ _ _ H6). cbn [fst snd ret].
      by rewrite app_nil_r.
    + assert (Hc2 : c2 !! py "crawler_data" = None).
      { rewrite (step2_other _ _ _ _ _ _ (py "crawler_data") H2);
          [apply lookup_empty | vm_compute; discriminate..]. }
      assert (Hc4 : c4 !! py "crawler_data" = None).
      { rewrite (step4_other _ _ _ _ _ _ _ (py "crawler_data") H4);
          [exact Hc2 | vm_compute; discriminate..]. }
      destruct (step5_result _ _ _ _ _ _ _ H5) as [Hs Hn].
      destruct skip_analysis.
      * by destruct (Hs eq_refl) as [_ ->].
      * rewrite (Hn eq_refl), lookup_insert_ne; [exact Hc4|].
        vm_compute. discriminate.
  - rewrite Hrun. unfold run_without_crawler_data.
    destruct (snd (step1 e company_name)) as [[corp_code|]|ex1] eqn:E1;
      apply step1_Ok in E1; rewrite E1; [|simpl; lia..].
    rewrite (bind_step _ _ _ _ eq_refl). cbn [fst snd app].
    destruct (snd (step2 e corp_code ∅)) as [rc|ex2] eqn:E2;
      apply step2_Ok in E2; rewrite E2; [|simpl; lia].
    rewrite (bind_step _ _ _ _ eq_refl). cbn [fst snd app].
    rewrite emit_then_trace.
    change (crawls_of (EvCrawl company_name :: ?t))
      with (EvCrawl company_name :: crawls_of t).
    rewrite (traces_only_filter (fun ev => negb (is_crawl ev)) is_crawl).
    + simpl. lia.
    + apply traces_only_bind; [|intros ?].
      { eapply traces_only_weaken; [|apply step4_trace]. by intros []. }
      apply traces_only_bind; [|intros ?].
      { eapply traces_only_weaken; [|apply step5_trace]. by intros []. }
      apply traces_only_bind; [|intros ?; apply traces_only_ret].
      eapply traces_only_weaken; [|apply step6_trace]. by intros [].
    + intros ev. by destruct (is_crawl ev).
  - unfold run_pipeline.
    change (step1 (with_search_38 e (fun _ => Ok None)) company_name)
      with (step1 e company_name).
    apply bind_ext. intros [corp_code|]; [|done].
    change (step6 (with_search_38 e (fun _ => Ok None)))
      with (step6 e).
    f_equal. unfold collect.
    change (step2 (with_search_38 e (fun _ => Ok None)) corp_code ∅)
      with (step2 e corp_code ∅).
    apply bind_ext. intros rc. by rewrite H3, H3'.
Qed.

Lemma crawl_failure_is_absence_witness :
  step3 full_env acme acme_c2 = ([EvCrawl acme], Ok acme_c2) /\
  run_pipeline ascii_runtime full_env acme false false
  = (acme_run_trace, Ok (Some acme_out)) /\
  crawls_of acme_run_trace = [EvCrawl acme] /\
  outputs_of acme_run_trace =
  expected_outputs acme acme_out (py "report") /\
  acme_out !! py "crawler_data" = None /\
  run_pipeline ascii_runtime full_env acme false false =
  run_pipeline ascii_runtime (with_search_38 full_env (fun _ => Ok None))
    acme false false.
Proof.
  destruct (crawl_failure_is_absence ascii_runtime full_env acme false false
              (External 503) eq_refl) as (H3 & _ & Hsteps & _ & Hsame).
  split; [exact (H3 acme_c2)|].
  edestruct (Hsteps acme_code (Some (rcept_no acme_filing)) acme_c2)
    as (Hrun & Ht6 & Hc6 & Hnone).
  - vm_compute. reflexivity.
  - vm_compute. reflexivity.
  - vm_compute. reflexivity.
  - vm_compute. reflexivity.
  - vm_compute. reflexivity.
  - split; [exact Hrun|]. split; [vm_compute; reflexivity|].
    split; [vm_compute; reflexivity|]. split; [exact Hnone | exact Hsame].
Defined.

End PipelineClaims.

(* ================================================================== *)
(** ** The fallback extraction of financial statements *)
(* ================================================================== *)

Module FallbackProofs.
Import LLMParser Extractors Analyst Pipeline PipelineSpec EffectProofs.
Import PipelineProofs.

Lemma not_fallback_not_invoked (t : list event) :
  Forall (fun ev => not_fallback ev = true) t -> ~ financials_invoked t.
Proof.
  intros H Hin. rewrite Forall_forall in H. specialize (H _ Hin).
  discriminate H.
Qed.

Lemma extract_lockup_schedule_not_fallback rt e html :
  traces_only not_fallback (extract_lockup_schedule rt e html).
Proof. unfold extract_lockup_schedule. traces. Qed.

Lemma extract_business_summary_not_fallback rt e html :
  traces_only not_fallback (extract_business_summary rt e html).
Proof. unfold extract_business_summary. traces. Qed.

Lemma extract_peer_valuation_not_fallback rt e html :
  traces_only not_fallback (extract_peer_valuation rt e html).
Proof. unfold extract_peer_valuation. traces. Qed.

(** Without the need for financials, or without text, the fallback is
    not entered. *)
Lemma parse_full_filing_not_fallback rt e dir :
  traces_only not_fallback (parse_full_filing rt e dir false).
Proof.
  unfold parse_full_filing. destruct (negb _); [apply traces_only_ret|].
  apply traces_only_bind;
    [apply extract_lockup_schedule_not_fallback | intros ?].
  apply traces_only_bind; [traces | intros ?].
  apply traces_only_bind;
    [apply extract_business_summary_not_fallback | intros ?].
  apply traces_only_bind;
    [apply extract_peer_valuation_not_fallback | intros ?].
  apply traces_only_ret.
Qed.

Lemma step4_not_fallback rt e skip_filing rcept collected :
  has_financials collected = true ->
  traces_only not_fallback (step4 rt e skip_filing rcept collected).
Proof.
  intros Hfin. unfold step4. rewrite Hfin. cbn [negb].
  destruct (negb skip_filing && opt_truthy rcept); [|apply traces_only_ret].
  destruct rcept as [r|]; [|apply traces_only_ret].
  apply traces_only_bind; [apply traces_only_lift | intros [dir|]];
    [|apply traces_only_ret].
  apply traces_only_bind; [apply parse_full_filing_not_fallback | intros ?].
  apply traces_only_ret.
Qed.

Lemma extract_financials_from_filing_enters rt e html :
  exists t, fst (extract_financials_from_filing rt e html)
            = EvEnter XFinancials :: t.
Proof.
  unfold extract_financials_from_filing, emit, bind.
  destruct (if negb _ then _ else _) as [t r]. by exists t.
Qed.

(** With the need for financials and a text, a parse that returns has
    entered the fallback. *)
Lemma parse_full_filing_enters rt e dir parsed :
  load_filing_html dir <> [] ->
  snd (parse_full_filing rt e dir true) = Ok parsed ->
  financials_invoked (fst (parse_full_filing rt e dir true)).
Proof.
  intros Hhtml. unfold parse_full_filing, financials_invoked.
  destruct (load_filing_html dir) as [|c html] eqn:E; [done|].
  cbn [nonempty truthy negb].
  intros H.
  apply bind_snd_Ok_inv in H as (lockup & _ & H & ->).
  apply bind_snd_Ok_inv in H as (r1 & _ & H & ->).
  apply bind_snd_Ok_inv in H as (business & _ & H & ->).
  apply bind_snd_Ok_inv in H as (valuation & _ & H & ->).
  apply bind_snd_Ok_inv in H as (financials & _ & H & ->).
  destruct (extract_financials_from_filing_enters rt e (c :: html))
    as (t & ->).
  rewrite !elem_of_app. do 4 right. left. by left.
Qed.

(** The keys of a parse do not include ['financials']. *)
Lemma parse_full_filing_keys rt e dir need_financials t parsed :
  parse_full_filing rt e dir need_financials = (t, Ok parsed) ->
  parsed !! py "financials" = None.
Proof.
  unfold parse_full_filing.
  destruct (negb _); [by intros [= _ <-]|].
  intros H.
  apply bind_Ok_inv in H as (? & lockup & ? & _ & H & _).
  apply bind_Ok_inv in H as (? & r1 & ? & Hr1 & H & _).
  assert (H1 : r1 !! py "financials" = None).
  { destruct (truthy lockup).
    - apply bind_Ok_inv in Hr1 as (? & ? & ? & _ & [= _ <-] & _).
      by rewrite lookup_insert_ne by (vm_compute; discriminate).
    - by injection Hr1 as _ <-. }
  clear Hr1.
  apply bind_Ok_inv in H as (? & business & ? & _ & H & _).
  apply bind_Ok_inv in H as (? & valuation & ? & _ & H & _).
  set (r2 := if truthy business then <[py "business" := business]> r1 else r1)
    in H.
  assert (H2 : r2 !! py "financials" = None).
  { unfold r2. destruct (truthy business); [|done].
    by rewrite lookup_insert_ne by (vm_compute; discriminate). }
  set (r3 := if truthy valuation then <[py "valuation" := valuation]> r2
             else r2) in H.
  assert (H3 : r3 !! py "financials" = None).
  { unfold r3. destruct (truthy valuation); [|done].
    by rewrite lookup_insert_ne by (vm_compute; discriminate). }
  clearbody r3. clear H1 H2 r2.
  destruct need_financials; [|by injection H as _ <-].
  apply bind_Ok_inv in H as (? & financials & ? & _ & H & _).
  destruct (truthy financials); [|by injection H as _ <-].
  apply bind_Ok_inv in H as (? & ? & ? & _ & [= _ <-] & _).
  by rewrite lookup_insert_ne by (vm_compute; discriminate).
Qed.

Lemma step4_keeps_financials rt e skip_filing rcept collected t collected' :
  has_financials collected = true ->
  step4 rt e skip_filing rcept collected = (t, Ok collected') ->
  collected' !! py "financials" = collected !! py "financials".
Proof.
  intros Hfin. unfold step4. rewrite Hfin. cbn [negb].
  destruct (negb skip_filing && opt_truthy rcept); [|by intros [= _ <-]].
  destruct rcept as [r|]; [|by intros [= _ <-]].
  intros H. apply bind_Ok_inv in H as (? & [dir|] & ? & _ & H & _);
    [|by injection H as _ <-].
  apply bind_Ok_inv in H as (? & parsed & ? & Hp & [= _ <-] & _).
  apply parse_full_filing_keys in Hp.
  unfold py_update. by rewrite lookup_union_r.
Qed.

(** When [m] does not enter the fallback, [bind m f] enters it exactly
    when [m] returns and what follows enters it. *)
Lemma invoked_bind {A B} (m : M A) (f : A -> M B) :
  traces_only not_fallback m ->
  financials_invoked (fst (bind m f)) <->
  exists a, snd m = Ok a /\ financials_invoked (fst (f a)).
Proof.
  intros Hm. apply not_fallback_not_invoked in Hm.
  unfold financials_invoked in *. unfold bind.
  destruct m as [t [a|ex]]; cbn [fst snd] in *.
  - destruct (f a) as [t' r] eqn:E. cbn [fst]. rewrite elem_of_app. split.
    + intros [H|H]; [done|]. exists a. by rewrite E.
    + intros (a' & [= <-] & H). rewrite E in H. by right.
  - split; [done|]. by intros (a & [=] & _).
Qed.

Lemma invoked_bind_quiet {A B} (m : M A) (f : A -> M B) :
  (forall a, fst (f a) = []) ->
  financials_invoked (fst (bind m f)) <-> financials_invoked (fst m).
Proof.
  intros Hf. unfold bind. destruct m as [t [a|ex]]; [|done].
  specialize (Hf a). destruct (f a) as [t' r]. cbn [fst] in *. subst t'.
  by rewrite app_nil_r.
Qed.

(** The progress line after the lock-up extractor. *)
Lemma lockup_line_returns (lockup : pyval) (result : pydict) r :
  snd (if truthy lockup
       then bind (lift (py_len_val lockup))
              (fun _ => ret (<[py "lockup_schedule" := lockup]> result))
       else ret result) = Ok r <->
  (truthy lockup = true -> exists n, py_len_val lockup = Ok n) /\
  r = (if truthy lockup then <[py "lockup_schedule" := lockup]> result
       else result).
Proof.
  destruct (truthy lockup).
  - unfold bind, lift, ret. destruct (py_len_val lockup) as [n|ex]; simpl.
    + split; [intros [= <-]; eauto | by intros [_ ->]].
    + split; [done|]. intros [H _]. by destruct (H eq_refl).
  - simpl. split; [intros [= <-]; done | by intros [_ ->]].
Qed.

(** The fallback is entered exactly when financials are needed, the
    filing has text, and everything before the fallback returns. *)
Lemma parse_full_filing_invoked rt e dir need_financials :
  financials_invoked (fst (parse_full_filing rt e dir need_financials)) <->
  need_financials = true /\ load_filing_html dir <> [] /\
  earlier_steps_return rt e (load_filing_html dir).
Proof.
  unfold parse_full_filing, earlier_steps_return.
  destruct (load_filing_html dir) as [|c html'] eqn:Ehtml.
  { cbn [nonempty truthy negb ret fst]. unfold financials_invoked.
    rewrite elem_of_nil. naive_solver. }
  cbn [nonempty truthy negb]. clear Ehtml.
  set (html := c :: html').
  rewrite invoked_bind by apply extract_lockup_schedule_not_fallback.
  split.
  - intros (lockup & Hl & H).
    apply invoked_bind in H as (r1 & Hr1 & H); [|traces].
    apply lockup_line_returns in Hr1 as [Hlen _].
    apply invoked_bind in H as (business & Hb & H);
      [|apply extract_business_summary_not_fallback].
    apply invoked_bind in H as (valuation & Hv & H);
      [|apply extract_peer_valuation_not_fallback].
    destruct need_financials.
    + split; [done|]. split; [done|]. eauto 10.
    + unfold financials_invoked in H. by apply elem_of_nil in H.
  - intros (-> & _ & lockup & business & valuation & Hl & Hlen & Hb & Hv).
    exists lockup. split; [done|].
    apply invoked_bind; [traces|]. eexists. split.
    { apply lockup_line_returns. split; [exact Hlen | reflexivity]. }
    apply invoked_bind; [apply extract_business_summary_not_fallback|].
    exists business. split; [done|].
    apply invoked_bind; [apply extract_peer_valuation_not_fallback|].
    exists valuation. split; [done|].
    unfold financials_invoked.
    destruct (extract_financials_from_filing_enters rt e html) as (t & Ht).
    unfold bind at 1.
    destruct (extract_financials_from_filing rt e html) as [t' [f|ex]];
      cbn [fst] in Ht; subst t'.
    + destruct (if truthy f then _ else _) as [t'' r]. cbn [fst].
      rewrite elem_of_app. left. by left.
    + cbn [fst]. by left.
Qed.

(** In step 4 the fallback is entered exactly when the step parses a
    downloaded filing, no financials were collected before, the filing
    has text, and everything before the fallback returns. *)
Lemma step4_invoked rt e skip_filing rcept collected :
  financials_invoked (fst (step4 rt e skip_filing rcept collected)) <->
  skip_filing = false /\ has_financials collected = false /\
  exists rcept_no dir,
    rcept = Some rcept_no /\ nonempty rcept_no = true /\
    download_document e rcept_no = Ok (Some dir) /\
    load_filing_html dir <> [] /\
    earlier_steps_return rt e (load_filing_html dir).
Proof.
  unfold step4.
  destruct skip_filing; cbn [negb andb].
  { cbn [ret fst]. unfold financials_invoked. rewrite elem_of_nil.
    naive_solver. }
  destruct rcept as [r|]; cbn [opt_truthy].
  2:{ cbn [ret fst]. unfold financials_invoked. rewrite elem_of_nil.
      naive_solver. }
  destruct (truthy (PStr r)) eqn:Hr.
  2:{ cbn [ret fst]. unfold financials_invoked. rewrite elem_of_nil.
      split; [done|]. intros (_ & _ & r' & dir & [= <-] & Hn & _).
      unfold nonempty in Hn. congruence. }
  rewrite invoked_bind by apply traces_only_lift. cbn [lift snd].
  split.
  - intros ([dir|] & Hd & H).
    + apply invoked_bind_quiet in H.
      2:{ intros parsed. destruct (negb (has_financials collected)); done. }
      apply parse_full_filing_invoked in H as (Hneed & Hhtml & Hret).
      apply negb_true_iff in Hneed. eauto 10.
    + unfold financials_invoked in H. by apply elem_of_nil in H.
  - intros (_ & Hfin & r' & dir & [= <-] & _ & Hd & Hhtml & Hret).
    exists (Some dir). split; [done|].
    apply invoked_bind_quiet.
    { intros parsed. destruct (negb (has_financials collected)); done. }
    apply parse_full_filing_invoked. by rewrite Hfin.
Qed.

End FallbackProofs.

Module FallbackClaims.
Import LLMParser Extractors Analyst Pipeline PipelineSpec EffectProofs.
Import PipelineProofs FallbackProofs.

(** C6, as stated, fails: [parse_full_filing] returns before any
    extractor when the directory yields no text. With an empty directory
    and [need_financials = True] the fallback is not entered. *)
Lemma fallback_not_entered_without_text :
  ~ invoked_iff_needed ascii_runtime quiet_env [] true.
Proof.
  unfold invoked_iff_needed, financials_invoked. intros [_ H].
  specialize (H eq_refl). vm_compute in H. by apply elem_of_nil in H.
Qed.

(** C6, amended. [extract_financials_from_filing] is entered exactly
    when [need_financials] is true, the filing directory yields text, and
    the three extractors before it and the progress line after the
    lock-up schedule return, whether or not the fallback itself then
    returns; in step 4 of [run_pipeline] it is entered exactly when the
    step is not skipped, a filing was found and downloaded, no financials
    were collected before, and the same holds of the text; and when
    financials were collected before, a step 4 that returns leaves
    [collected['financials']] as it was. *)
Theorem financials_only_as_fallback (rt : runtime) (e : env) :
  (forall dir need_financials,
     financials_invoked (fst (parse_full_filing rt e dir need_financials)) <->
     need_financials = true /\ load_filing_html dir <> [] /\
     earlier_steps_return rt e (load_filing_html dir)) /\
  (forall skip_filing rcept collected,
     financials_invoked (fst (step4 rt e skip_filing rcept collected)) <->
     skip_filing = false /\ has_financials collected = false /\
     exists rcept_no dir,
       rcept = Some rcept_no /\ nonempty rcept_no = true /\
       download_document e rcept_no = Ok (Some dir) /\
       load_filing_html dir <> [] /\
       earlier_steps_return rt e (load_filing_html dir)) /\
  (forall skip_filing rcept collected t collected',
     has_financials collected = true ->
     step4 rt e skip_filing rcept collected = (t, Ok collected') ->
     collected' !! py "financials" = collected !! py "financials").
Proof.
  split; [|split].
  - apply parse_full_filing_invoked.
  - apply step4_invoked.
  - apply step4_keeps_financials.
Qed.

Lemma financials_only_as_fallback_witness :
  financials_invoked
    (fst (parse_full_filing ascii_runtime failing_fallback_env full_dir true))
  /\ snd (parse_full_filing ascii_runtime failing_fallback_env full_dir true)
     = Raise (External 529)
  /\ financials_invoked
       (fst (step4 ascii_runtime full_env false (Some (rcept_no acme_filing))
               acme_c3))
  /\ ~ financials_invoked
         (fst (step4 ascii_runtime full_env false
                 (Some (rcept_no acme_filing)) dart_collected))
  /\ has_financials dart_collected = true
  /\ step4 ascii_runtime full_env false (Some (rcept_no acme_filing))
       dart_collected = (dart_trace, Ok dart_after)
  /\ dart_after !! py "financials" = Some dart_financials.
Proof.
  pose proof (financials_only_as_fallback ascii_runtime failing_fallback_env)
    as (Hparse & _ & _).
  pose proof (financials_only_as_fallback ascii_runtime full_env)
    as (_ & Hstep & Hkeep).
  assert (Hfin : has_financials dart_collected = true)
    by (vm_compute; reflexivity).
  assert (Hrun : step4 ascii_runtime full_env false
                   (Some (rcept_no acme_filing)) dart_collected
                 = (dart_trace, Ok dart_after))
    by (vm_compute; reflexivity).
  split; [|split; [|split; [|split; [|split; [|split]]]]].
  - apply Hparse. split; [reflexivity|]. split; [vm_compute; discriminate|].
    exists PNone, PNone, PNone.
    split; [vm_compute; reflexivity|]. split; [intros H; discriminate H|].
    split; vm_compute; reflexivity.
  - vm_compute. reflexivity.
  - apply Hstep. split; [reflexivity|]. split; [vm_compute; reflexivity|].
    exists (rcept_no acme_filing), full_dir.
    split; [reflexivity|]. split; [vm_compute; reflexivity|].
    split; [reflexivity|]. split; [vm_compute; discriminate|].
    exists PNone, PNone, PNone.
    split; [vm_compute; reflexivity|]. split; [intros H; discriminate H|].
    split; vm_compute; reflexivity.
  - intros Hin. apply Hstep in Hin as (_ & Hno & _).
    rewrite Hfin in Hno. discriminate Hno.
  - exact Hfin.
  - exact Hrun.
  - rewrite (Hkeep _ _ _ _ _ Hfin Hrun). vm_compute. reflexivity.
Defined.

End FallbackClaims.

(* ================================================================== *)
(** ** The calls to the language model *)
(* ================================================================== *)

Module CallProofs.
Import LLMParser Extractors Analyst Pipeline PipelineSpec EffectProofs.
Import PipelineProofs.

Lemma llm_calls_app t1 t2 : llm_calls (t1 ++ t2) = llm_calls t1 ++ llm_calls t2.
Proof. apply List.filter_app. Qed.

Lemma call_llm_Ok_inv e r t reply :
  call_llm e r = (t, Ok reply) -> t = [EvLLM r].
Proof. unfold call_llm. by intros [= <- _]. Qed.

(** An extractor that finds its section and returns has called the
    model once. *)
Lemma extract_lockup_schedule_calls rt e html t v :
  nonempty (lockup_section rt html) = true ->
  extract_lockup_schedule rt e html = (t, Ok v) ->
  llm_calls t =
  [EvLLM (ReqLockup (py_slice_to (lockup_section rt html) 15000))].
Proof.
  unfold extract_lockup_schedule, lockup_section. intros ->. cbn [negb].
  intros H. apply bind_Ok_inv in H as (t1 & [] & t2 & [= <-] & H & ->).
  apply bind_Ok_inv in H as (t3 & reply & t4 & Hc & [= <- _] & ->).
  apply call_llm_Ok_inv in Hc as ->. reflexivity.
Qed.

Lemma extract_business_summary_calls rt e html t v :
  nonempty (business_section rt html) = true ->
  extract_business_summary rt e html = (t, Ok v) ->
  llm_calls t =
  [EvLLM (ReqBusiness (py_slice_to (business_section rt html) 15000))].
Proof.
  unfold extract_business_summary, business_section. intros ->. cbn [negb].
  intros H. apply bind_Ok_inv in H as (t1 & [] & t2 & [= <-] & H & ->).
  apply bind_Ok_inv in H as (t3 & reply & t4 & Hc & [= <- _] & ->).
  apply call_llm_Ok_inv in Hc as ->. reflexivity.
Qed.

Lemma extract_financials_from_filing_calls rt e html t v :
  nonempty (financial_section rt html) = true ->
  extract_financials_from_filing rt e html = (t, Ok v) ->
  llm_calls t =
  [EvLLM (ReqFinancials (py_slice_to (financial_section rt html) 20000))].
Proof.
  unfold extract_financials_from_filing, financial_section. intros ->.
  cbn [negb].
  intros H. apply bind_Ok_inv in H as (t1 & [] & t2 & [= <-] & H & ->).
  apply bind_Ok_inv in H as (t3 & reply & t4 & Hc & [= <- _] & ->).
  apply call_llm_Ok_inv in Hc as ->. reflexivity.
Qed.

Lemma per_header_nonempty : exists c l, py "[PER 산출 영역]" = c :: l.
Proof. vm_compute. eauto. Qed.

Lemma combined_sections_nonempty per_section peer_section :
  nonempty per_section = true ->
  nonempty (combined_sections per_section peer_section) = true.
Proof.
  intros H. unfold combined_sections. rewrite H.
  destruct per_header_nonempty as (c & l & ->).
  by destruct (nonempty peer_section).
Qed.

(** The valuation extractor calls the model once for the summary and
    once for the peers. *)
Lemma extract_peer_valuation_calls rt e html t v :
  nonempty (valuation_section rt html) = true ->
  nonempty (peer_section rt html) = true ->
  nonempty (per_section rt html) = true ->
  extract_peer_valuation rt e html = (t, Ok v) ->
  llm_calls t =
  [ EvLLM (ReqValuation (py_slice_to (valuation_section rt html) 18000));
    EvLLM (ReqPeers (combined_sections (per_section rt html)
                       (peer_section rt html))) ].
Proof.
  unfold extract_peer_valuation, valuation_section, peer_section, per_section.
  intros -> Hpeer Hper. rewrite Hpeer. cbn [orb].
  rewrite (combined_sections_nonempty _ _ Hper).
  intros H. apply bind_Ok_inv in H as (t1 & [] & t2 & [= <-] & H & ->).
  apply bind_Ok_inv in H as (t3 & vs & t4 & Hv & H & ->).
  apply bind_Ok_inv in Hv as (t5 & reply & t6 & Hc & [= <- _] & ->).
  apply call_llm_Ok_inv in Hc as ->.
  apply bind_Ok_inv in H as (t7 & pv & t8 & Hp & H & ->).
  apply bind_Ok_inv in Hp as (t9 & reply2 & t10 & Hc & Hl & ->).
  apply call_llm_Ok_inv in Hc as ->.
  apply lift_Ok_inv in Hl as [_ ->].
  assert (t8 = []) as ->.
  { destruct (negb (truthy (snd pv)) && negb (truthy (fst pv))).
    - by injection H as <- _.
    - by apply lift_Ok_inv in H as [_ ->]. }
  reflexivity.
Qed.

(** A parse that locates every section and returns has made four calls,
    and a fifth when financials are needed. *)
Lemma parse_full_filing_calls rt e dir need_financials t parsed :
  sections_located rt (load_filing_html dir) = true ->
  parse_full_filing rt e dir need_financials = (t, Ok parsed) ->
  llm_calls t = parse_requests rt (load_filing_html dir) need_financials.
Proof.
  unfold sections_located, parse_full_filing.
  set (html := load_filing_html dir).
  intros Hs.
  apply andb_prop in Hs as [Hs Hfin]. apply andb_prop in Hs as [Hs Hper].
  apply andb_prop in Hs as [Hs Hpeer]. apply andb_prop in Hs as [Hs Hval].
  apply andb_prop in Hs as [Hs Hbus]. apply andb_prop in Hs as [Hs Hlock].
  rewrite Hs. cbn [negb].
  intros H.
  apply bind_Ok_inv in H as (t1 & lockup & ? & Hl & H & ->).
  apply bind_Ok_inv in H as (t2 & r1 & ? & Hr1 & H & ->).
  apply bind_Ok_inv in H as (t3 & business & ? & Hb & H & ->).
  apply bind_Ok_inv in H as (t4 & valuation & t5 & Hv & H & ->).
  apply extract_lockup_schedule_calls in Hl; [|done].
  apply extract_business_summary_calls in Hb; [|done].
  apply extract_peer_valuation_calls in Hv; [|done..].
  assert (t2 = []) as ->.
  { destruct (truthy lockup).
    - apply bind_Ok_inv in Hr1 as (? & ? & ? & Hx & Hy & ->).
      apply lift_Ok_inv in Hx as [_ ->]. by injection Hy as <- _.
    - by injection Hr1 as <- _. }
  rewrite !llm_calls_app, Hl, Hb, Hv. unfold parse_requests.
  cbn [llm_calls List.filter app].
  do 4 f_equal.
  destruct need_financials; [|by injection H as <- _].
  apply bind_Ok_inv in H as (t6 & financials & t7 & Hf & H & ->).
  apply extract_financials_from_filing_calls in Hf; [|done].
  rewrite llm_calls_app, Hf.
  assert (t7 = []) as ->; [|done].
  destruct (truthy financials).
  - apply bind_Ok_inv in H as (? & ? & ? & Hx & Hy & ->).
    apply lift_Ok_inv in Hx as [_ ->]. by injection Hy as <- _.
  - by injection H as <- _.
Qed.

Lemma parse_requests_length rt html need_financials :
  length (parse_requests rt html need_financials)
  = if need_financials then 5%nat else 4%nat.
Proof. unfold parse_requests. by destruct need_financials. Qed.

(** Step 4 of a complete run. *)
Lemma step4_calls rt e rcept dir collected t collected' :
  nonempty rcept = true ->
  download_document e rcept = Ok (Some dir) ->
  sections_located rt (load_filing_html dir) = true ->
  step4 rt e false (Some rcept) collected = (t, Ok collected') ->
  llm_calls t =
  parse_requests rt (load_filing_html dir) (negb (has_financials collected)).
Proof.
  intros Hr Hd Hs. unfold step4. cbn [negb andb opt_truthy].
  unfold nonempty in Hr. rewrite Hr, Hd.
  intros H. apply bind_Ok_inv in H as (t1 & d & t2 & Hl & H & ->).
  apply lift_Ok_inv in Hl as [[= <-] ->].
  apply bind_Ok_inv in H as (t3 & parsed & t4 & Hp & H & ->).
  apply parse_full_filing_calls in Hp; [|done].
  assert (t4 = []) as ->.
  { destruct (negb (has_financials collected)).
    - by apply lift_Ok_inv in H as [_ ->].
    - by injection H as <- _. }
  by rewrite app_nil_r.
Qed.

Lemma step5_calls e company_name collected t ca :
  step5 e false company_name collected = (t, Ok ca) ->
  llm_calls t = [EvLLM (ReqAnalysis company_name collected)].
Proof.
  unfold step5, generate_analysis. cbn [negb]. intros H.
  apply bind_Ok_inv in H as (t1 & r & t2 & Hc & [= <- _] & ->).
  apply call_llm_Ok_inv in Hc as ->. reflexivity.
Qed.

(** The writers of step 6 make no call. *)
Lemma step6_calls e company_name collected report :
  llm_calls (fst (step6 e company_name collected report)) = [].
Proof.
  pose proof (step6_trace e company_name collected report) as H.
  unfold traces_only in H.
  induction H as [|ev t Hev _ IH]; [reflexivity|].
  destruct ev; try discriminate Hev; exact IH.
Qed.

End CallProofs.

Module CallClaims.
Import LLMParser Extractors Analyst Pipeline PipelineSpec EffectProofs.
Import PipelineProofs CallProofs.

Lemma acme_complete_run :
  complete_run ascii_runtime full_env acme acme_c3
    (load_filing_html full_dir) acme_out acme_run_trace.
Proof.
  exists acme_code, (rcept_no acme_filing), acme_c2, full_dir.
  repeat split; vm_compute; reflexivity.
Qed.

(** C2, as stated, fails: the valuation extractor calls the model twice
    and the analysis calls it once more. The run of [full_env], a
    complete run without DART financials, makes six calls. *)
Lemma complete_run_calls_six :
  ~ calls_llm_four_times ascii_runtime full_env acme.
Proof.
  intros H. specialize (H _ _ _ _ acme_complete_run).
  vm_compute in H. discriminate H.
Qed.

(** C2, amended. A complete run calls the language model, in this
    order, for the lock-up schedule, the business summary, the valuation
    summary, the peers and, only when no financials were collected
    before, the fallback financial statements, and then for the final
    analysis: six calls without DART financials, five with them. *)
Theorem complete_run_llm_calls (rt : runtime) (e : env)
    (company_name : pystr) (c3 : pydict) (html : pystr) (out : pydict)
    (t : list event) :
  complete_run rt e company_name c3 html out t ->
  exists data,
    llm_calls t =
    parse_requests rt html (negb (has_financials c3))
    ++ [EvLLM (ReqAnalysis company_name data)] /\
    length (llm_calls t) = if has_financials c3 then 5%nat else 6%nat.
Proof.
  intros (corp_code & rcept & c2 & dir & H1 & H2 & H3 & Hr & Hd & -> & Hs & Hrun).
  unfold run_pipeline in Hrun.
  rewrite (bind_step _ _ _ _ H1) in Hrun. cbn [fst snd app] in Hrun.
  rewrite <- surjective_pairing in Hrun.
  apply bind_Ok_inv in Hrun as (tc & ca & t6 & Hc & H6 & ->).
  apply bind_Ok_inv in H6 as (t6' & c6 & ? & H6 & [= <- _] & ->).
  assert (H6c : llm_calls t6' = []).
  { pose proof (step6_calls e company_name ca.1 ca.2) as X.
    by rewrite H6 in X. }
  unfold collect in Hc.
  rewrite (bind_step _ _ _ _ H2) in Hc. cbn [fst snd app] in Hc.
  rewrite <- surjective_pairing in Hc.
  apply bind_Ok_inv in Hc as (t3 & c3' & t45 & Hc3 & Hc & ->).
  assert (c3' = c3) as -> by (rewrite Hc3 in H3; by injection H3).
  assert (t3 = [EvCrawl company_name]) as ->.
  { pose proof (step3_trace e company_name c2) as Ht.
    by rewrite Hc3 in Ht. }
  apply bind_Ok_inv in Hc as (t4 & c4 & t5 & H4 & H5 & ->).
  apply (step4_calls _ _ _ _ _ _ _ Hr Hd Hs) in H4.
  apply step5_calls in H5.
  exists c4.
  assert (Hcalls : llm_calls
                     (([EvCrawl company_name] ++ t4 ++ t5)
                      ++ t6' ++ [])
                   = parse_requests rt (load_filing_html dir)
                       (negb (has_financials c3))
                     ++ [EvLLM (ReqAnalysis company_name c4)]).
  { rewrite !llm_calls_app, H4, H5, H6c.
    cbn [llm_calls List.filter is_llm app]. by rewrite app_nil_r. }
  split; [exact Hcalls|].
  rewrite Hcalls, length_app, parse_requests_length.
  by destruct (has_financials c3).
Qed.

Lemma complete_run_llm_calls_witness :
  complete_run ascii_runtime full_env acme acme_c3
    (load_filing_html full_dir) acme_out acme_run_trace /\
  exists data,
    llm_calls acme_run_trace =
    parse_requests ascii_runtime (load_filing_html full_dir)
      (negb (has_financials acme_c3))
    ++ [EvLLM (ReqAnalysis acme data)] /\
    length (llm_calls acme_run_trace)
    = if has_financials acme_c3 then 5%nat else 6%nat.
Proof.
  assert (H : complete_run ascii_runtime full_env acme acme_c3
                (load_filing_html full_dir) acme_out acme_run_trace).
  { exists acme_code, (rcept_no acme_filing), acme_c2, full_dir.
    repeat split; vm_compute; reflexivity. }
  split; [exact H|].
  exact (complete_run_llm_calls _ _ _ _ _ _ _ H).
Defined.

End CallClaims.
